(** * Promo_code_service: a shallow embedding of the promo / auth / engagement core

    The development follows the layout of the Python sources:

    - [utils/whitelist.py]   the Redis-backed token whitelist,
    - [utils/auth.py]        the bearer-token dependencies,
    - [schemas/business.py]  request schemas and their validators,
    - [schemas/user.py]      user-side request schemas,
    - [utils/repository.py]  the promo repository,
    - [services/*.py]        sign-in, like and comment operations,
    - [api/user.py]          the comment-deletion route.

    Conventions.  A Python function that may raise returns a [Result];
    a function that talks to Redis threads the Redis store and hands it
    back also when it raises (Redis has no transaction here); a function
    that works inside [async with session] returns the relational store
    together with its result, the store being the one it was given unless
    [session.commit()] was reached.  Values drawn from the environment
    ([uuid4()], [datetime.now()], the identifier the database generates for
    a new row) are explicit arguments.  Library functions the sources only
    call ([jwt.encode], [jwt.decode], [bcrypt.checkpw], the regular
    expression matcher, [validate_email], the ISO country table) are
    variables of the enclosing section.

    Outside the embedding: the checks the database engine makes from the
    table declarations (column widths, nullability, foreign keys), and the
    validation pydantic runs once more when a DTO is built from a stored
    row ([PromoDTO(...)], [CompanyDTO.model_validate]); such a DTO is the
    record of the values it is given. *)

From Stdlib Require Import ZArith Bool Lia.
From stdpp Require Import gmap strings list fin_maps sorting.

Local Open Scope string_scope.
Local Open Scope Z_scope.

(** ** Exceptions and results *)

Inductive PyError : Type :=
| HTTPException (status_code : Z)
| RequestValidationError
| ValueError
| AttributeError (name : string)
| NotImplementedError
| TypeError
| MultipleResultsFound
| IntegrityError.

Inductive Result (A : Type) : Type :=
| Ok (a : A)
| Raise (e : PyError).
Arguments Ok {A} a.
Arguments Raise {A} e.

Definition bind {A B : Type} (r : Result A) (k : A -> Result B) : Result B :=
  match r with
  | Ok a => k a
  | Raise e => Raise e
  end.

Notation "x <- r ;; k" := (bind r (fun x => k))
  (at level 100, r at next level, right associativity).

Definition is_ok {A : Type} (r : Result A) : bool :=
  match r with Ok _ => true | Raise _ => false end.

Definition rejected {A : Type} (r : Result A) : Prop := is_ok r = false.

Definition HTTP_400_BAD_REQUEST : Z := 400.
Definition HTTP_401_UNAUTHORIZED : Z := 401.
Definition HTTP_403_FORBIDDEN : Z := 403.
Definition HTTP_404_NOT_FOUND : Z := 404.
Definition HTTP_409_CONFLICT : Z := 409.

(** [str(x)] for an optional string: [str(None)] is the text [None]. *)
Definition py_str (v : option string) : string :=
  match v with
  | Some s => s
  | None => "None"
  end.

(** Python's [len] on a string, as an integer; the characters of a
    string stand for its code points. *)
Definition len (s : string) : Z := Z.of_nat (String.length s).

(** Truth value of a string and of a list: empty is false. *)
Definition str_truthy (s : string) : bool :=
  match s with EmptyString => false | _ => true end.

Definition opt_str_truthy (v : option string) : bool :=
  match v with Some s => str_truthy s | None => false end.

Definition opt_list_truthy {A : Type} (v : option (list A)) : bool :=
  match v with Some (_ :: _) => true | _ => false end.

(** Truth value of an optional integer: [None] and [0] are false. *)
Definition opt_int_truthy (v : option Z) : bool :=
  match v with Some z => negb (Z.eqb z 0) | None => false end.

(** ** [datetime.date]

    A date is its (year, month, day) triple and is compared as that
    triple, as [date._cmp] does; every [date] object is true. *)

Record date : Type := mkDate { year : Z; month : Z; day : Z }.

Definition date_cmp (a b : date) : comparison :=
  match Z.compare (year a) (year b) with
  | Eq => match Z.compare (month a) (month b) with
          | Eq => Z.compare (day a) (day b)
          | c => c
          end
  | c => c
  end.

Definition date_lt (a b : date) : bool :=
  match date_cmp a b with Lt => true | _ => false end.
Definition date_gt (a b : date) : bool :=
  match date_cmp a b with Gt => true | _ => false end.
Definition date_ge (a b : date) : bool :=
  match date_cmp a b with Lt => false | _ => true end.

Definition opt_date_truthy (v : option date) : bool :=
  match v with Some _ => true | None => false end.

(** ** [utils/whitelist.py] *)

(** The Redis database: string keys holding sets of strings.  A key that
    is absent behaves as the empty set. *)
Abbreviation Redis := (gmap string (gset string)).

Definition smembers (key : string) (r : Redis) : gset string :=
  default ∅ (r !! key).

Definition sadd (key member : string) (r : Redis) : Redis :=
  <[key := {[member]} ∪ smembers key r]> r.

Definition sismember (key member : string) (r : Redis) : bool :=
  bool_decide (member ∈ smembers key r).

Definition srem (key member : string) (r : Redis) : Redis :=
  let s := smembers key r ∖ {[member]} in
  if decide (s = ∅) then delete key r else <[key := s]> r.

Definition unlink (key : string) (r : Redis) : Redis := delete key r.

Module TokenWhiteList.

(** The key computed at the head of each of the four methods. *)
Definition key_of (id entity : string) : Result string :=
  if String.eqb entity "user" then Ok ("whitelist:users:" +:+ id)
  else if String.eqb entity "company" then Ok ("whitelist:companies:" +:+ id)
  else Raise ValueError.

Definition add_jti_to_whitelist (id jti entity : string) (r : Redis)
  : Result unit * Redis :=
  match key_of id entity with
  | Ok key => (Ok tt, sadd key jti r)
  | Raise e => (Raise e, r)
  end.

Definition check_jti_in_whitelist (id jti entity : string) (r : Redis)
  : Result bool :=
  key <- key_of id entity ;;
  Ok (sismember key jti r).

Definition delete_one_jti_from_whitelist (id jti entity : string) (r : Redis)
  : Result unit * Redis :=
  match key_of id entity with
  | Ok key => (Ok tt, srem key jti r)
  | Raise e => (Raise e, r)
  end.

Definition flush_all_jti_from_whitelist (id entity : string) (r : Redis)
  : Result unit * Redis :=
  match key_of id entity with
  | Ok key => (Ok tt, unlink key r)
  | Raise e => (Raise e, r)
  end.

End TokenWhiteList.

(** ** Tokens *)

(** The [payload] dictionary of [create_access_token]. *)
Record TokenPayload : Type := mkPayload {
  tp_id : string;
  tp_jti : string;
  tp_exp : Z;
  tp_refresh : bool
}.

(** [HTTPAuthorizationCredentials] *)
Record Credentials : Type := mkCredentials {
  scheme : string;
  credentials : string
}.

(** ** [models/business.py], [models/user.py]: the relational store

    A table is a finite map from its primary key to its rows.  The rows a
    relationship loads with a promo ([unique_promos], [categories]) are
    kept inside the promo row; their surrogate identifiers are not
    represented. *)

Inductive PromoMode : Type := COMMON | UNIQUE.

Record CompanyORM : Type := mkCompany {
  company_id_ : string;
  company_name : string;
  company_email : string;
  company_password : string
}.

Record UserORM : Type := mkUser {
  user_id_ : string;
  user_name : string;
  user_surname : string;
  user_email : string;
  user_password : string;
  user_avatar_url : option string
}.

Record UniquePromocodeORM : Type := mkUniquePromocode {
  promocode : string;
  is_active : bool
}.

Record CategoryORM : Type := mkCategory { category_name : string }.

Record PromocodeORM : Type := mkPromocode {
  id : string;
  company_id : string;
  description : string;
  image_url : option string;
  age_from : option Z;
  age_until : option Z;
  country : option string;
  active_from : option date;
  active_until : option date;
  max_count : Z;
  mode : PromoMode;
  active : bool;
  like_count : Z;
  used_count : Z;
  promo_common : option string;
  unique_promos : list UniquePromocodeORM;
  categories : list CategoryORM
}.

Record PromoUserORM : Type := mkPromoUser {
  pu_user_id : string;
  pu_promo_id : string;
  activated : bool;
  liked : bool
}.

Record CommentORM : Type := mkComment {
  comment_id_ : string;
  comment_text : string;
  comment_date : Z;
  comment_author : string;
  comment_promo_id : string
}.

Record Database : Type := mkDatabase {
  companies : gmap string CompanyORM;
  users : gmap string UserORM;
  promos : gmap string PromocodeORM;
  users_promos : gmap (string * string) PromoUserORM;
  comments : gmap string CommentORM
}.

Definition with_promos (db : Database) (t : gmap string PromocodeORM) : Database :=
  mkDatabase (companies db) (users db) t (users_promos db) (comments db).

Definition with_users_promos (db : Database)
    (t : gmap (string * string) PromoUserORM) : Database :=
  mkDatabase (companies db) (users db) (promos db) t (comments db).

(** [select(...).where(column == value)]: the rows of a table that pass
    the filter. *)
Definition select_where {K : Type} `{Countable K} {V : Type}
    (p : V -> bool) (t : gmap K V) : list V :=
  filter (fun v => Is_true (p v)) (snd <$> map_to_list t).

(** [Result.scalar_one_or_none()] *)
Definition scalar_one_or_none {A : Type} (rows : list A) : Result (option A) :=
  match rows with
  | [] => Ok None
  | [x] => Ok (Some x)
  | _ => Raise MultipleResultsFound
  end.

(** A computation over the Redis store that may raise. *)
Definition RedisM (A : Type) : Type := Redis -> Result A * Redis.

Definition rbind {A B : Type} (m : RedisM A) (k : A -> RedisM B) : RedisM B :=
  fun r => match m r with
           | (Ok a, r') => k a r'
           | (Raise e, r') => (Raise e, r')
           end.

Definition rlift {A : Type} (x : Result A) : RedisM A := fun r => (x, r).

Notation "x <~ m ;; k" := (rbind m (fun x => k))
  (at level 100, m at next level, right associativity).

(** ** pydantic fields

    A field of a model together with its membership in
    [model_fields_set]: [Unset] when the request did not mention it (the
    attribute then reads as its default, [None]), [Given v] when it did,
    [v] being [None] for an explicit null. *)
Inductive Field (A : Type) : Type :=
| Unset
| Given (v : option A).
Arguments Unset {A}.
Arguments Given {A} v.

Definition value {A : Type} (f : Field A) : option A :=
  match f with Unset => None | Given v => v end.

(** ** More stand-ins, for evaluation

    A token table in which signing is the inverse of decoding, and a hash
    that [toy_checkpw] accepts. *)
Definition payload_eqb (p q : TokenPayload) : bool :=
  String.eqb (tp_id p) (tp_id q) && String.eqb (tp_jti p) (tp_jti q)
  && (tp_exp p =? tp_exp q)%Z && Bool.eqb (tp_refresh p) (tp_refresh q).

Definition table_tokens : list (string * TokenPayload) :=
  [ ("jwt-user-1-jti-old", mkPayload "user-1" "jti-old" 86400 false);
    ("jwt-user-1-jti-new", mkPayload "user-1" "jti-new" 86405 false);
    ("jwt-company-a-jti-new", mkPayload "company-a" "jti-new" 86405 false);
    ("jwt-company-c-jti-c", mkPayload "company-c" "jti-c" 86405 false) ].

Definition table_jwt_encode (payload : TokenPayload) : option string :=
  match filter (fun e => Is_true (payload_eqb (snd e) payload)) table_tokens with
  | (token, _) :: _ => Some token
  | [] => None
  end.

Definition table_jwt_decode (now : Z) (token : string) : option TokenPayload :=
  match filter (fun e => Is_true (String.eqb (fst e) token)) table_tokens with
  | (_, payload) :: _ => if (now <? tp_exp payload)%Z then Some payload else None
  | [] => None
  end.

Definition toy_hashpw (password salt : string) : string := "hash-" +:+ password.

(** ** Outcomes of the listing and comment paths

    These paths can stop with exceptions the earlier ones never meet:
    [NoResultFound] from [scalar_one()], [pydantic.ValidationError] from
    building a [CommentGet] whose text was never validated on the way in,
    and the [DBAPIError] with which the engine refuses a negative [LIMIT]
    or [OFFSET]. *)
Inductive Exception : Type :=
| PyExc (e : PyError)
| NoResultFound
| ValidationError
| DBAPIError.

Inductive Outcome (A : Type) : Type :=
| Returns (a : A)
| Throws (e : Exception).
Arguments Returns {A} a.
Arguments Throws {A} e.

Definition obind {A B : Type} (o : Outcome A) (k : A -> Outcome B) : Outcome B :=
  match o with
  | Returns a => k a
  | Throws e => Throws e
  end.

(** A [for] loop that builds one result per row and stops at the first
    row that raises. *)
Fixpoint for_each {A B : Type} (f : A -> Outcome B) (rows : list A)
  : Outcome (list B) :=
  match rows with
  | [] => Returns []
  | x :: rest =>
      obind (f x) (fun y => obind (for_each f rest) (fun ys => Returns (y :: ys)))
  end.

(** [.limit(limit).offset(offset)] applied to the rows of a query. *)
Definition limit_offset {A : Type} (limit offset : Z) (rows : list A)
  : Outcome (list A) :=
  if ((limit <? 0) || (offset <? 0))%Z
  then Throws DBAPIError
  else Returns (take (Z.to_nat limit) (drop (Z.to_nat offset) rows)).

(** [ORDER BY column DESC] on a nullable date column: PostgreSQL puts the
    nulls first. *)
Definition opt_date_ge (x y : option date) : bool :=
  match x, y with
  | None, _ => true
  | Some _, None => false
  | Some a, Some b => date_ge a b
  end.

(** ** Stand-ins for the library functions, for evaluation

    A table of signed tokens and their payloads; a token decodes while
    the clock is before its expiry. *)
Definition toy_tokens : list (string * TokenPayload) :=
  [ ("jwt-user-1-jti-old", mkPayload "user-1" "jti-old" 86400 false);
    ("jwt-user-1-jti-new", mkPayload "user-1" "jti-new" 86405 false);
    ("jwt-user-1-jti-live", mkPayload "user-1" "jti-live" 86400 true);
    ("jwt-company-a-jti-old", mkPayload "company-a" "jti-old" 86400 false);
    ("jwt-company-a-jti-new", mkPayload "company-a" "jti-new" 86405 false) ].

Definition toy_jwt_decode (now : Z) (token : string) : option TokenPayload :=
  match filter (fun e => Is_true (String.eqb (fst e) token)) toy_tokens with
  | (_, payload) :: _ => if (now <? tp_exp payload)%Z then Some payload else None
  | [] => None
  end.

Definition toy_jwt_encode (payload : TokenPayload) : option string :=
  Some ("jwt-" +:+ tp_id payload +:+ "-" +:+ tp_jti payload).

Definition toy_checkpw (password hash : string) : bool :=
  String.eqb hash ("hash-" +:+ password).

Definition toy_match (v : string) : bool := true.

Definition toy_country (v : string) : bool :=
  String.eqb v "RU" || String.eqb v "US".

Definition toy_upper (v : string) : string := v.

Section Service.

(** [jwt.encode(payload, key, algorithm)]; [None] stands for the
    [PyJWKError] the callers catch. *)
Variable jwt_encode : TokenPayload -> option string.
(** [jwt.decode(token, key, algorithms)] at the given clock reading;
    [None] stands for any [PyJWTError] (bad signature, malformed token,
    expired). *)
Variable jwt_decode : Z -> string -> option TokenPayload.
(** [bcrypt.checkpw(password, hash)] *)
Variable checkpw : string -> string -> bool.
(** [password_pattern.match], [httpurl_pattern.match] *)
Variable password_pattern_match : string -> bool.
Variable httpurl_pattern_match : string -> bool.
(** [validate_email(v, check_deliverability=True).normalized]; [None]
    stands for [EmailNotValidError]. *)
Variable validate_email : string -> option string.
(** Membership in the ISO 3166-1 alpha-2 table behind [CountryAlpha2]. *)
Variable is_country_alpha2 : string -> bool.
(** [str.upper] *)
Variable upper : string -> string.

(** *** [utils/general.py] *)

Definition verify_password (password_text password_hash : string) : bool :=
  checkpw password_text password_hash.

(** *** [utils/auth.py] *)

(** [TokenBearer.__call__]; [auth_data] is what [HTTPBearer.__call__]
    returned, [verify_token_data] the method of the subclass. *)
Definition TokenBearer_call
    (verify_token_data : TokenPayload -> Redis -> Result unit)
    (auth_data : option Credentials) (now : Z) (r : Redis)
  : Result Credentials :=
  match auth_data with
  | None => Raise (HTTPException HTTP_403_FORBIDDEN)
  | Some a =>
      if negb (str_truthy (credentials a))
      then Raise (HTTPException HTTP_403_FORBIDDEN)
      else
        match jwt_decode now (credentials a) with
        | None => Raise (HTTPException HTTP_403_FORBIDDEN)
        | Some token_data =>
            _ <- verify_token_data token_data r ;;
            Ok a
        end
  end.

Definition TokenBearer_verify_token_data
    (token_data : TokenPayload) (r : Redis) : Result unit :=
  Raise NotImplementedError.

Definition AccessTokenBearer_verify_token_data
    (token_data : TokenPayload) (r : Redis) : Result unit :=
  if tp_refresh token_data
  then Raise (HTTPException HTTP_403_FORBIDDEN)
  else Ok tt.

Definition AccessTokenCompanyBearer_verify_token_data
    (token_data : TokenPayload) (r : Redis) : Result unit :=
  if tp_refresh token_data
  then Raise (HTTPException HTTP_403_FORBIDDEN)
  else
    present <- TokenWhiteList.check_jti_in_whitelist
                 (tp_id token_data) (tp_jti token_data) "company" r ;;
    if negb present
    then Raise (HTTPException HTTP_403_FORBIDDEN)
    else Ok tt.

Definition AccessTokenUserBearer_verify_token_data
    (token_data : TokenPayload) (r : Redis) : Result unit :=
  if tp_refresh token_data
  then Raise (HTTPException HTTP_403_FORBIDDEN)
  else
    present <- TokenWhiteList.check_jti_in_whitelist
                 (tp_id token_data) (tp_jti token_data) "user" r ;;
    if negb present
    then Raise (HTTPException HTTP_403_FORBIDDEN)
    else Ok tt.

Definition AccessTokenBearer := TokenBearer_call AccessTokenBearer_verify_token_data.
Definition AccessTokenCompanyBearer :=
  TokenBearer_call AccessTokenCompanyBearer_verify_token_data.
Definition AccessTokenUserBearer :=
  TokenBearer_call AccessTokenUserBearer_verify_token_data.

(** *** Sign-in: [services/user_service.py], [services/company_service.py] *)

(** [create_access_token]; [token_uuid] is [str(uuid4())], [now] is
    [datetime.now()] in seconds. *)
Definition create_access_token
    (id_ token_uuid : string) (now : Z) (is_refresh : bool)
  : Result (string * string) :=
  let payload :=
    {| tp_id := id_; tp_jti := token_uuid;
       tp_exp := now + 24 * 3600; tp_refresh := is_refresh |} in
  match jwt_encode payload with
  | Some token => Ok (token_uuid, token)
  | None => Raise (HTTPException HTTP_400_BAD_REQUEST)
  end.

Record UserSignIn : Type := mkUserSignIn {
  si_email : string;
  si_password : string
}.

Record CompanySignInRequest : Type := mkCompanySignInRequest {
  csi_email : string;
  csi_password : string
}.

Definition UserService_user_sign_in
    (data : UserSignIn) (token_uuid : string) (now : Z) (db : Database)
  : RedisM string :=
  result_orm <~ rlift (scalar_one_or_none
      (select_where (fun u => String.eqb (user_email u) (si_email data))
                    (users db))) ;;
  match result_orm with
  | None => rlift (Raise (HTTPException HTTP_401_UNAUTHORIZED))
  | Some result_orm =>
      let password_verivied :=
        verify_password (si_password data) (user_password result_orm) in
      if negb password_verivied
      then rlift (Raise (HTTPException HTTP_401_UNAUTHORIZED))
      else
        tok <~ rlift (create_access_token (user_id_ result_orm) token_uuid now false) ;;
        let '(new_token_jti, new_token) := tok in
        _ <~ TokenWhiteList.flush_all_jti_from_whitelist
               (user_id_ result_orm) "user" ;;
        _ <~ TokenWhiteList.add_jti_to_whitelist
               (user_id_ result_orm) new_token_jti "user" ;;
        rlift (Ok new_token)
  end.

(** [CompanyRepository.get_company_by_email] *)
Definition get_company_by_email (email : string) (db : Database)
  : Result (option CompanyORM) :=
  scalar_one_or_none
    (select_where (fun c => String.eqb (company_email c) email) (companies db)).

Definition CompanyService_company_sign_in
    (company : CompanySignInRequest) (token_uuid : string) (now : Z)
    (db : Database) : RedisM string :=
  model <~ rlift (get_company_by_email (csi_email company) db) ;;
  match model with
  | None => rlift (Raise (HTTPException HTTP_401_UNAUTHORIZED))
  | Some model =>
      if negb (verify_password (csi_password company) (company_password model))
      then rlift (Raise (HTTPException HTTP_401_UNAUTHORIZED))
      else
        _ <~ TokenWhiteList.flush_all_jti_from_whitelist
               (company_id_ model) "company" ;;
        tok <~ rlift (create_access_token (company_id_ model) token_uuid now false) ;;
        let '(token_id, new_token) := tok in
        _ <~ TokenWhiteList.add_jti_to_whitelist
               (company_id_ model) token_id "company" ;;
        rlift (Ok new_token)
  end.

(** *** [schemas/business.py]: validators *)

(** How pydantic validates the fields of a model one after the other:
    a [ValidationError] of one field is kept while the remaining fields
    are still validated, any other exception leaves at once. *)
Definition and_then {A B : Type} (r1 : Result A) (r2 : Result B)
  : Result (A * B) :=
  match r1 with
  | Ok a => match r2 with
            | Ok b => Ok (a, b)
            | Raise e => Raise e
            end
  | Raise RequestValidationError =>
      match r2 with
      | Raise RequestValidationError => Raise RequestValidationError
      | Raise e => Raise e
      | Ok _ => Raise RequestValidationError
      end
  | Raise e => Raise e
  end.

(** A field constraint: the value is kept when it holds. *)
Definition require {A : Type} (ok : bool) (v : A) : Result A :=
  if ok then Ok v else Raise RequestValidationError.

Definition in_range (lo hi x : Z) : bool := (lo <=? x) && (x <=? hi).

(** The exception object is built and dropped: nothing is raised. *)
Definition val_password (v : string) : Result string :=
  if negb (password_pattern_match v && (len v <=? 60) && (len v >=? 8))
  then let _ := HTTPException HTTP_400_BAD_REQUEST in Ok v
  else Ok v.

Definition val_httpurl (v : string) : Result string :=
  if negb (httpurl_pattern_match v) && (len v >? 350)
  then Raise (HTTPException HTTP_400_BAD_REQUEST)
  else Ok v.

Definition val_email (v : string) : Result string :=
  match validate_email v with
  | None => Raise (HTTPException HTTP_400_BAD_REQUEST)
  | Some email =>
      if negb (in_range 5 50 (len email))
      then Raise (HTTPException HTTP_400_BAD_REQUEST)
      else Ok email
  end.

(** Validation of an optional field whose default is not validated. *)
Definition validate_field {A : Type} (check : A -> Result A) (f : Field A)
  : Result (Field A) :=
  match f with
  | Unset => Ok Unset
  | Given None => Ok (Given None)
  | Given (Some x) => x' <- check x ;; Ok (Given (Some x'))
  end.

Definition validate_option {A : Type} (check : A -> Result A) (v : option A)
  : Result (option A) :=
  match v with
  | None => Ok None
  | Some x => x' <- check x ;; Ok (Some x')
  end.

Definition Category_ok (c : string) : bool := in_range 2 20 (len c).
Definition UniquePromoCode_ok (c : string) : bool := in_range 3 30 (len c).

Record Target : Type := mkTarget {
  t_age_from : Field Z;
  t_age_until : Field Z;
  t_country : Field string;
  t_categories : Field (list string)
}.

(** [Target.convert_country] (mode [before]) followed by the
    [CountryAlpha2] check; the validator runs on whatever the request
    gave, an explicit null included. *)
Definition convert_country (f : Field string) : Result (Field string) :=
  match f with
  | Unset => Ok Unset
  | Given None => Raise (HTTPException HTTP_400_BAD_REQUEST)
  | Given (Some v) =>
      c <- require (is_country_alpha2 (upper v)) (upper v) ;;
      Ok (Given (Some c))
  end.

Definition Target_validate (t : Target) : Result Target :=
  r <- and_then
         (validate_field (fun x => require (in_range 0 100 x) x) (t_age_from t))
         (and_then
            (validate_field (fun x => require (in_range 0 100 x) x) (t_age_until t))
            (and_then
               (convert_country (t_country t))
               (validate_field
                  (fun l => require ((Z.of_nat (length l) <=? 20)
                                     && forallb Category_ok l) l)
                  (t_categories t)))) ;;
  let '(af, (au, (c, cats))) := r in
  Ok (mkTarget af au c cats).

Definition description_check (d : string) : Result string :=
  require (in_range 10 300 (len d)) d.

(** [Annotated[HttpUrlRegex | None, Field(max_length=350)]] *)
Definition image_url_check (u : string) : Result string :=
  u' <- require (len u <=? 350) u ;; val_httpurl u'.

Definition max_count_check (n : Z) : Result Z :=
  require ((0 <? n) && (n <=? 100000000)) n.

Definition promo_common_check (c : string) : Result string :=
  require (in_range 5 30 (len c)) c.

Definition promo_unique_check (l : list string) : Result (list string) :=
  require (in_range 1 5000 (Z.of_nat (length l)) && forallb UniquePromoCode_ok l) l.

Record PromoCreateRequest : Type := mkPromoCreateRequest {
  cr_description : string;
  cr_image_url : option string;
  cr_target : option Target;
  cr_max_count : Z;
  cr_active_from : option date;
  cr_active_until : option date;
  cr_mode : PromoMode;
  cr_promo_common : option string;
  cr_promo_unique : option (list string)
}.

(** The model validator of [PromoCreateRequest] (mode [after]). *)
Definition check_promo_codes (self : PromoCreateRequest)
  : Result PromoCreateRequest :=
  _ <- match cr_mode self with
       | COMMON =>
           if negb (opt_str_truthy (cr_promo_common self))
           then Raise (HTTPException HTTP_400_BAD_REQUEST)
           else if opt_list_truthy (cr_promo_unique self)
           then Raise (HTTPException HTTP_400_BAD_REQUEST)
           else Ok tt
       | UNIQUE =>
           if negb (negb (cr_max_count self =? 1))
           then Raise (HTTPException HTTP_400_BAD_REQUEST)
           else if negb (opt_list_truthy (cr_promo_unique self))
           then Raise (HTTPException HTTP_400_BAD_REQUEST)
           else if opt_str_truthy (cr_promo_common self)
           then Raise (HTTPException HTTP_400_BAD_REQUEST)
           else Ok tt
       end ;;
  match cr_active_from self, cr_active_until self with
  | Some af, Some au =>
      if date_ge af au
      then Raise (HTTPException HTTP_400_BAD_REQUEST)
      else Ok self
  | _, _ => Ok self
  end.

(** Validation of a [PromoCreateRequest] body: the fields in the order
    of the class, then the model validator. *)
Definition PromoCreateRequest_validate (b : PromoCreateRequest)
  : Result PromoCreateRequest :=
  r <- and_then (description_check (cr_description b))
      (and_then (validate_option image_url_check (cr_image_url b))
      (and_then (validate_option Target_validate (cr_target b))
      (and_then (max_count_check (cr_max_count b))
      (and_then (validate_option promo_common_check (cr_promo_common b))
                (validate_option promo_unique_check (cr_promo_unique b)))))) ;;
  let '(d, (u, (t, (n, (pc, pu))))) := r in
  check_promo_codes
    {| cr_description := d; cr_image_url := u; cr_target := t;
       cr_max_count := n; cr_active_from := cr_active_from b;
       cr_active_until := cr_active_until b; cr_mode := cr_mode b;
       cr_promo_common := pc; cr_promo_unique := pu |}.

Record PromoPatch : Type := mkPromoPatch {
  pp_description : Field string;
  pp_image_url : Field string;
  pp_target : option Target;
  pp_max_count : Field Z;
  pp_active_from : Field date;
  pp_active_until : Field date
}.

(** The model validator of [PromoPatch]. *)
Definition check_data (self : PromoPatch) : Result PromoPatch :=
  match value (pp_active_from self), value (pp_active_until self) with
  | Some af, Some au =>
      if date_gt af au
      then Raise (HTTPException HTTP_400_BAD_REQUEST)
      else Ok self
  | _, _ => Ok self
  end.

(** [max_count] of a patch is typed [int]: an explicit null is refused. *)
Definition patch_max_count_check (f : Field Z) : Result (Field Z) :=
  match f with
  | Unset => Ok Unset
  | Given None => Raise RequestValidationError
  | Given (Some n) => n' <- max_count_check n ;; Ok (Given (Some n'))
  end.

Definition PromoPatch_validate (b : PromoPatch) : Result PromoPatch :=
  r <- and_then (validate_field description_check (pp_description b))
      (and_then (validate_field image_url_check (pp_image_url b))
      (and_then (validate_option Target_validate (pp_target b))
                (patch_max_count_check (pp_max_count b)))) ;;
  let '(d, (u, (t, n))) := r in
  check_data
    {| pp_description := d; pp_image_url := u; pp_target := t;
       pp_max_count := n; pp_active_from := pp_active_from b;
       pp_active_until := pp_active_until b |}.

(** *** [utils/repository.py] *)

Record PromoDTO : Type := mkPromoDTO {
  dto_id : string;
  dto_company_id : string;
  dto_description : string;
  dto_image_url : option string;
  dto_target : Target;
  dto_max_count : Z;
  dto_active_from : option date;
  dto_active_until : option date;
  dto_mode : PromoMode;
  dto_active : bool;
  dto_like_count : Z;
  dto_used_count : Z;
  dto_promo_common : option string;
  dto_promo_unique : option (list string)
}.

(** The [PromoDTO(...)] expression shared by the three read paths. *)
Definition PromoDTO_of (model : PromocodeORM) : PromoDTO :=
  {| dto_id := id model;
     dto_company_id := company_id model;
     dto_description := description model;
     dto_image_url := image_url model;
     dto_active_from := active_from model;
     dto_active_until := active_until model;
     dto_target :=
       {| t_age_from := Given (age_from model);
          t_age_until := Given (age_until model);
          t_country := Given (country model);
          t_categories := Given (Some (category_name <$> categories model)) |};
     dto_max_count := max_count model;
     dto_mode := mode model;
     dto_active := active model;
     dto_like_count := like_count model;
     dto_used_count := used_count model;
     dto_promo_common := promo_common model;
     dto_promo_unique :=
       match unique_promos model with
       | [] => None
       | l => Some (promocode <$> l)
       end |}.

(** [PromoRepository.create_promo]; [new_id] is the identifier the
    database generates for the row. *)
Definition create_promo
    (data : PromoCreateRequest) (company_id_ : string) (new_id : string)
    (db : Database) : Result string * Database :=
  let target_field {A : Type} (get : Target -> Field A) : option A :=
    match cr_target data with
    | Some t => value (get t)
    | None => None
    end in
  let model :=
    {| id := new_id;
       company_id := company_id_;
       description := cr_description data;
       image_url := Some (py_str (cr_image_url data));
       age_from := target_field t_age_from;
       age_until := target_field t_age_until;
       country := target_field t_country;
       active_from := cr_active_from data;
       active_until := cr_active_until data;
       max_count := cr_max_count data;
       mode := cr_mode data;
       active := true;
       like_count := 0;
       used_count := 0;
       promo_common := cr_promo_common data;
       categories :=
         mkCategory <$>
           match cr_target data with
           | Some t => default [] (value (t_categories t))
           | None => []
           end;
       unique_promos :=
         match cr_mode data with
         | UNIQUE =>
             (fun un_promo => mkUniquePromocode un_promo true)
               <$> default [] (cr_promo_unique data)
         | COMMON => []
         end |} in
  match promos db !! new_id with
  | Some _ => (Raise IntegrityError, db)
  | None => (Ok (id model), with_promos db (<[new_id := model]> (promos db)))
  end.

(** [PromoRepository.get_company_promo_by_id] *)
Definition get_company_promo_by_id
    (company_id_ promo_id : string) (db : Database) : Result PromoDTO :=
  match promos db !! promo_id with
  | None => Raise (HTTPException HTTP_404_NOT_FOUND)
  | Some model =>
      if negb (String.eqb (company_id model) company_id_)
      then Raise (HTTPException HTTP_403_FORBIDDEN)
      else Ok (PromoDTO_of model)
  end.

(** Values held by the dictionaries [model_dump] returns. *)
Inductive PyValue : Type :=
| VNone
| VStr (s : string)
| VInt (n : Z)
| VDate (d : date).

Definition dump_field {A : Type} (name : string) (inj : A -> PyValue)
    (f : Field A) : list (string * PyValue) :=
  match f with
  | Unset => []
  | Given None => [(name, VNone)]
  | Given (Some x) => [(name, inj x)]
  end.

(** [data.model_dump(exclude_unset=True, exclude={"target"})] *)
Definition PromoPatch_model_dump (data : PromoPatch) : list (string * PyValue) :=
  dump_field "description" VStr (pp_description data)
  ++ dump_field "image_url" VStr (pp_image_url data)
  ++ dump_field "max_count" VInt (pp_max_count data)
  ++ dump_field "active_from" VDate (pp_active_from data)
  ++ dump_field "active_until" VDate (pp_active_until data).

(** [data.target.model_dump(exclude_unset=True, exclude={"categories"})] *)
Definition Target_model_dump (t : Target) : list (string * PyValue) :=
  dump_field "age_from" VInt (t_age_from t)
  ++ dump_field "age_until" VInt (t_age_until t)
  ++ dump_field "country" VStr (t_country t).

Definition set_description (m : PromocodeORM) (v : string) : PromocodeORM :=
  mkPromocode (id m) (company_id m) v (image_url m) (age_from m) (age_until m)
    (country m) (active_from m) (active_until m) (max_count m) (mode m)
    (active m) (like_count m) (used_count m) (promo_common m)
    (unique_promos m) (categories m).
Definition set_image_url (m : PromocodeORM) (v : option string) : PromocodeORM :=
  mkPromocode (id m) (company_id m) (description m) v (age_from m) (age_until m)
    (country m) (active_from m) (active_until m) (max_count m) (mode m)
    (active m) (like_count m) (used_count m) (promo_common m)
    (unique_promos m) (categories m).
Definition set_age_from (m : PromocodeORM) (v : option Z) : PromocodeORM :=
  mkPromocode (id m) (company_id m) (description m) (image_url m) v (age_until m)
    (country m) (active_from m) (active_until m) (max_count m) (mode m)
    (active m) (like_count m) (used_count m) (promo_common m)
    (unique_promos m) (categories m).
Definition set_age_until (m : PromocodeORM) (v : option Z) : PromocodeORM :=
  mkPromocode (id m) (company_id m) (description m) (image_url m) (age_from m) v
    (country m) (active_from m) (active_until m) (max_count m) (mode m)
    (active m) (like_count m) (used_count m) (promo_common m)
    (unique_promos m) (categories m).
Definition set_country (m : PromocodeORM) (v : option string) : PromocodeORM :=
  mkPromocode (id m) (company_id m) (description m) (image_url m) (age_from m)
    (age_until m) v (active_from m) (active_until m) (max_count m) (mode m)
    (active m) (like_count m) (used_count m) (promo_common m)
    (unique_promos m) (categories m).
Definition set_active_from (m : PromocodeORM) (v : option date) : PromocodeORM :=
  mkPromocode (id m) (company_id m) (description m) (image_url m) (age_from m)
    (age_until m) (country m) v (active_until m) (max_count m) (mode m)
    (active m) (like_count m) (used_count m) (promo_common m)
    (unique_promos m) (categories m).
Definition set_active_until (m : PromocodeORM) (v : option date) : PromocodeORM :=
  mkPromocode (id m) (company_id m) (description m) (image_url m) (age_from m)
    (age_until m) (country m) (active_from m) v (max_count m) (mode m)
    (active m) (like_count m) (used_count m) (promo_common m)
    (unique_promos m) (categories m).
Definition set_max_count (m : PromocodeORM) (v : Z) : PromocodeORM :=
  mkPromocode (id m) (company_id m) (description m) (image_url m) (age_from m)
    (age_until m) (country m) (active_from m) (active_until m) v (mode m)
    (active m) (like_count m) (used_count m) (promo_common m)
    (unique_promos m) (categories m).
Definition set_like_count (m : PromocodeORM) (v : Z) : PromocodeORM :=
  mkPromocode (id m) (company_id m) (description m) (image_url m) (age_from m)
    (age_until m) (country m) (active_from m) (active_until m) (max_count m)
    (mode m) (active m) v (used_count m) (promo_common m)
    (unique_promos m) (categories m).
Definition set_categories (m : PromocodeORM) (v : list CategoryORM) : PromocodeORM :=
  mkPromocode (id m) (company_id m) (description m) (image_url m) (age_from m)
    (age_until m) (country m) (active_from m) (active_until m) (max_count m)
    (mode m) (active m) (like_count m) (used_count m) (promo_common m)
    (unique_promos m) v.

(** [setattr(model, field, value)] for the columns the two dumps name. *)
Definition setattr (model : PromocodeORM) (field : string) (v : PyValue)
  : PromocodeORM :=
  if String.eqb field "description" then
    match v with VStr s => set_description model s | _ => model end
  else if String.eqb field "image_url" then
    match v with
    | VStr s => set_image_url model (Some s)
    | VNone => set_image_url model None
    | _ => model
    end
  else if String.eqb field "max_count" then
    match v with VInt n => set_max_count model n | _ => model end
  else if String.eqb field "active_from" then
    match v with
    | VDate d => set_active_from model (Some d)
    | VNone => set_active_from model None
    | _ => model
    end
  else if String.eqb field "active_until" then
    match v with
    | VDate d => set_active_until model (Some d)
    | VNone => set_active_until model None
    | _ => model
    end
  else if String.eqb field "age_from" then
    match v with
    | VInt n => set_age_from model (Some n)
    | VNone => set_age_from model None
    | _ => model
    end
  else if String.eqb field "age_until" then
    match v with
    | VInt n => set_age_until model (Some n)
    | VNone => set_age_until model None
    | _ => model
    end
  else if String.eqb field "country" then
    match v with
    | VStr s => set_country model (Some s)
    | VNone => set_country model None
    | _ => model
    end
  else model.

(** The first loop of [update_company_promo]: values that are [None]
    are skipped. *)
Definition apply_update_data (update_data : list (string * PyValue))
    (model : PromocodeORM) : PromocodeORM :=
  fold_left
    (fun m fv =>
       match snd fv with
       | VNone => m
       | value_ => setattr m (fst fv) value_
       end)
    update_data model.

(** The block under [if data.target is not None]: every field the
    request gave is written, [None] included. *)
Definition apply_target (target : option Target) (model : PromocodeORM)
  : PromocodeORM :=
  match target with
  | None => model
  | Some t =>
      let model :=
        fold_left (fun m fv => setattr m (fst fv) (snd fv))
                  (Target_model_dump t) model in
      match value (t_categories t) with
      | Some cats => set_categories model (mkCategory <$> cats)
      | None => model
      end
  end.

(** The promo row as it stands after both loops. *)
Definition merged (data : PromoPatch) (model : PromocodeORM) : PromocodeORM :=
  apply_target (pp_target data) (apply_update_data (PromoPatch_model_dump data) model).

(** [model.active_from and model.active_until and
     model.active_from >= model.active_until] *)
Definition window_violated (model : PromocodeORM) : bool :=
  opt_date_truthy (active_from model)
  && opt_date_truthy (active_until model)
  && match active_from model, active_until model with
     | Some a, Some b => date_ge a b
     | _, _ => false
     end.

(** [model.age_from and model.age_until and
     model.age_from >= model.age_until] *)
Definition age_violated (model : PromocodeORM) : bool :=
  opt_int_truthy (age_from model)
  && opt_int_truthy (age_until model)
  && match age_from model, age_until model with
     | Some a, Some b => a >=? b
     | _, _ => false
     end.

(** [PromoRepository.update_company_promo] *)
Definition update_company_promo
    (data : PromoPatch) (company_id_ promo_id : string) (db : Database)
  : Result PromoDTO * Database :=
  match promos db !! promo_id with
  | None => (Raise (HTTPException HTTP_404_NOT_FOUND), db)
  | Some model =>
      if negb (String.eqb (company_id model) company_id_)
      then (Raise (HTTPException HTTP_403_FORBIDDEN), db)
      else
        let model := merged data model in
        if window_violated model
        then (Raise (HTTPException HTTP_404_NOT_FOUND), db)
        else if age_violated model
        then (Raise (HTTPException HTTP_404_NOT_FOUND), db)
        else (Ok (PromoDTO_of model),
              with_promos db (<[promo_id := model]> (promos db)))
  end.

(** The two halves of the [PATCH /business/promo/{id}] route: the body is
    validated, then handed to the repository. *)
Definition patch_promo
    (body : PromoPatch) (company_id_ promo_id : string) (db : Database)
  : Result PromoDTO * Database :=
  match PromoPatch_validate body with
  | Raise e => (Raise e, db)
  | Ok data => update_company_promo data company_id_ promo_id db
  end.

(** The two halves of the [POST /business/promo] route. *)
Definition post_promo
    (body : PromoCreateRequest) (company_id_ new_id : string) (db : Database)
  : Result string * Database :=
  match PromoCreateRequest_validate body with
  | Raise e => (Raise e, db)
  | Ok data => create_promo data company_id_ new_id db
  end.

(** *** [services/user_service.py]: engagement *)

Definition set_liked (row : PromoUserORM) (v : bool) : PromoUserORM :=
  mkPromoUser (pu_user_id row) (pu_promo_id row) (activated row) v.

(** [UserService.like_promo]; a new engagement row takes the server
    default [false] for [activated]. *)
Definition UserService_like_promo (user_id promo_id : string) (db : Database)
  : Result unit * Database :=
  let result_orm := users_promos db !! (user_id, promo_id) in
  match promos db !! promo_id with
  | None => (Raise (HTTPException HTTP_404_NOT_FOUND), db)
  | Some promo_orm =>
      match result_orm with
      | None =>
          (Ok tt,
           with_promos
             (with_users_promos db
                (<[(user_id, promo_id) := mkPromoUser user_id promo_id false true]>
                   (users_promos db)))
             (<[promo_id := set_like_count promo_orm (like_count promo_orm + 1)]>
                (promos db)))
      | Some row =>
          if negb (liked row)
          then
            (Ok tt,
             with_promos
               (with_users_promos db
                  (<[(user_id, promo_id) := set_liked row true]> (users_promos db)))
               (<[promo_id := set_like_count promo_orm (like_count promo_orm + 1)]>
                  (promos db)))
          else (Ok tt, db)
      end
  end.

(** [UserService.unlike_promo] *)
Definition UserService_unlike_promo (user_id promo_id : string) (db : Database)
  : Result unit * Database :=
  let result_orm := users_promos db !! (user_id, promo_id) in
  match promos db !! promo_id with
  | None => (Raise (HTTPException HTTP_404_NOT_FOUND), db)
  | Some promo_orm =>
      match result_orm with
      | None => (Ok tt, db)
      | Some row =>
          if liked row
          then
            (Ok tt,
             with_promos
               (with_users_promos db
                  (<[(user_id, promo_id) := set_liked row false]> (users_promos db)))
               (<[promo_id := set_like_count promo_orm (like_count promo_orm - 1)]>
                  (promos db)))
          else (Ok tt, db)
      end
  end.

(** [UserService.get_user_uuid_from_token] *)
Definition UserService_get_user_uuid_from_token (now : Z) (token : string)
  : Result string :=
  match jwt_decode now token with
  | Some token_data => Ok (tp_id token_data)
  | None => Raise (HTTPException HTTP_400_BAD_REQUEST)
  end.

(** [UserService.is_exist_in_db] *)
Definition UserService_is_exist_in_db (id_ : string) (db : Database) : bool :=
  match users db !! id_ with
  | None => false
  | Some _ => true
  end.

(** The attributes of a [UserService] object: [__call__] and the
    methods its class body defines, in the order of the file. *)
Definition UserService_attributes : list string :=
  [ "__call__"; "create_access_token"; "get_user_uuid_from_token";
    "is_exist_in_db"; "user_sign_up"; "user_sign_in"; "get_user_profile";
    "patch_user_profile"; "get_promos"; "get_promo"; "like_promo";
    "unlike_promo"; "add_comment"; "get_comments_for_promo";
    "get_comment_for_promo"; "put_comment" ].

(** Attribute access [user_service.<name>]. *)
Definition UserService_getattr (name : string) : Result string :=
  if existsb (String.eqb name) UserService_attributes
  then Ok name
  else Raise (AttributeError name).

(** *** [api/user.py]: [DELETE /user/promo/{id}/comments/{comment_id}]

    The handler once the [AccessTokenUserBearer] dependency has let the
    request through.  None of the methods of [UserService] takes the
    keyword set [user_id, comment_id, promo_id, session], so a call
    through an attribute that exists would stop with [TypeError]. *)
Definition delete_comment
    (id_ comment_id : string) (creds : Credentials) (now : Z) (db : Database)
  : Result unit * Database :=
  match UserService_get_user_uuid_from_token now (credentials creds) with
  | Raise e => (Raise e, db)
  | Ok user_id =>
      if UserService_is_exist_in_db user_id db
      then
        match UserService_getattr "delete_comment" with
        | Raise e => (Raise e, db)
        | Ok _ => (Raise TypeError, db)
        end
      else (Raise (HTTPException HTTP_401_UNAUTHORIZED), db)
  end.

(** *** [schemas/user.py], [schemas/business.py]: bodies carrying a password *)

Definition UserSignIn_validate (b : UserSignIn) : Result UserSignIn :=
  r <- and_then (val_email (si_email b)) (val_password (si_password b)) ;;
  Ok {| si_email := fst r; si_password := snd r |}.

Definition CompanySignInRequest_validate (b : CompanySignInRequest)
  : Result CompanySignInRequest :=
  r <- and_then (val_email (csi_email b)) (val_password (csi_password b)) ;;
  Ok {| csi_email := fst r; csi_password := snd r |}.

Record CompanySignUpRequest : Type := mkCompanySignUpRequest {
  csu_name : string;
  csu_email : string;
  csu_password : string
}.

Definition CompanySignUpRequest_validate (b : CompanySignUpRequest)
  : Result CompanySignUpRequest :=
  r <- and_then (require (in_range 5 50 (len (csu_name b))) (csu_name b))
         (and_then (val_email (csu_email b)) (val_password (csu_password b))) ;;
  let '(n, (e, p)) := r in
  Ok {| csu_name := n; csu_email := e; csu_password := p |}.

Record UserTargetSettings : Type := mkUserTargetSettings {
  uts_age : Z;
  uts_country : string
}.

Record UserRegister : Type := mkUserRegister {
  ur_name : string;
  ur_surname : string;
  ur_email : string;
  ur_avatar_url : Field string;
  ur_other : UserTargetSettings;
  ur_password : string
}.

(** [Annotated[str | None, AfterValidator(val_httpurl)]]: the validator
    also receives an explicit null, on which the pattern match stops
    with [TypeError]. *)
Definition avatar_url_check (f : Field string) : Result (Field string) :=
  match f with
  | Unset => Ok Unset
  | Given None => Raise TypeError
  | Given (Some u) => u' <- val_httpurl u ;; Ok (Given (Some u'))
  end.

Definition UserTargetSettings_validate (o : UserTargetSettings)
  : Result UserTargetSettings :=
  r <- and_then (require (in_range 0 100 (uts_age o)) (uts_age o))
         (require (is_country_alpha2 (uts_country o)) (uts_country o)) ;;
  Ok {| uts_age := fst r; uts_country := snd r |}.

Definition UserRegister_validate (b : UserRegister) : Result UserRegister :=
  r <- and_then (require (in_range 1 100 (len (ur_name b))) (ur_name b))
      (and_then (require (in_range 1 120 (len (ur_surname b))) (ur_surname b))
      (and_then (val_email (ur_email b))
      (and_then (avatar_url_check (ur_avatar_url b))
      (and_then (UserTargetSettings_validate (ur_other b))
                (val_password (ur_password b)))))) ;;
  let '(n, (s, (e, (a, (o, p))))) := r in
  Ok {| ur_name := n; ur_surname := s; ur_email := e; ur_avatar_url := a;
        ur_other := o; ur_password := p |}.

(** *** The two kinds of principal

    The spec's [authenticate] and sign-in, each dispatching to the
    user-side or company-side code above. *)

Inductive EntityKind : Type := KUser | KCompany.

Definition entity (k : EntityKind) : string :=
  match k with KUser => "user" | KCompany => "company" end.

Definition whitelist_key (k : EntityKind) (id_ : string) : string :=
  match k with
  | KUser => "whitelist:users:" +:+ id_
  | KCompany => "whitelist:companies:" +:+ id_
  end.

Definition authenticate (k : EntityKind) :=
  match k with
  | KUser => AccessTokenUserBearer
  | KCompany => AccessTokenCompanyBearer
  end.

Definition sign_in (k : EntityKind) (email password token_uuid : string)
    (now : Z) (db : Database) : RedisM string :=
  match k with
  | KUser =>
      UserService_user_sign_in
        {| si_email := email; si_password := password |} token_uuid now db
  | KCompany =>
      CompanyService_company_sign_in
        {| csi_email := email; csi_password := password |} token_uuid now db
  end.

(** The identifier of the one row a sign-in query finds for an e-mail
    address. *)
Definition principal_of (k : EntityKind) (email : string) (db : Database)
  : Result (option string) :=
  match k with
  | KUser =>
      u <- scalar_one_or_none
             (select_where (fun u => String.eqb (user_email u) email) (users db)) ;;
      Ok (user_id_ <$> u)
  | KCompany =>
      c <- get_company_by_email email db ;;
      Ok (company_id_ <$> c)
  end.

(** *** Requests that differ only in their dates *)



(** The date a patch leaves in a column: the one the request gives, or
    else the stored one. *)
Definition effective (f : Field date) (stored : option date) : option date :=
  match value f with
  | Some d => Some d
  | None => stored
  end.

(** The two ways a request body is turned down by validation. *)
Definition validation_error (e : PyError) : Prop :=
  e = HTTPException HTTP_400_BAD_REQUEST \/ e = RequestValidationError.

(** *** A small store and a few requests, for evaluation *)

Definition sale10 : PromocodeORM :=
  {| id := "promo-1"; company_id := "company-a";
     description := "Ten percent off everything"; image_url := Some "None";
     age_from := None; age_until := None; country := Some "RU";
     active_from := Some (mkDate 2024 1 1);
     active_until := Some (mkDate 2024 6 1);
     max_count := 10; mode := COMMON; active := true;
     like_count := 0; used_count := 0; promo_common := Some "SALE10";
     unique_promos := []; categories := [] |}.

Definition store1 : Database :=
  {| companies :=
       {[ "company-a" := mkCompany "company-a" "Acme Corp" "a@acme.io" "hash-a";
          "company-b" := mkCompany "company-b" "Bolt Corp" "b@bolt.io" "hash-b" ]};
     users := {[ "user-1" := mkUser "user-1" "Ann" "Lee" "ann@mail.io" "hash-u" None ]};
     promos := {[ "promo-1" := sale10 ]};
     users_promos := ∅;
     comments :=
       {[ "comment-1" := mkComment "comment-1" "Great promo, thanks!" 1000
                           "user-1" "promo-1" ]} |}.


(** The body [{"target": {"age_from": a, "age_until": b}}]. *)
Definition patch_ages (a b : Z) : PromoPatch :=
  {| pp_description := Unset; pp_image_url := Unset;
     pp_target :=
       Some {| t_age_from := Given (Some a); t_age_until := Given (Some b);
               t_country := Unset; t_categories := Unset |};
     pp_max_count := Unset; pp_active_from := Unset; pp_active_until := Unset |}.

(** The body [{"target": {"country": "RU"}}] as pydantic holds it. *)
Definition target_ru : Target :=
  {| t_age_from := Unset; t_age_until := Unset;
     t_country := Given (Some "RU"); t_categories := Unset |}.

(** The body of the spec's scenario, for Russia and with [image_url] left
    out. *)
Definition create_sale10 : PromoCreateRequest :=
  {| cr_description := "Ten percent off everything"; cr_image_url := None;
     cr_target := Some target_ru; cr_max_count := 10;
     cr_active_from := Some (mkDate 2024 1 1);
     cr_active_until := Some (mkDate 2024 6 1);
     cr_mode := COMMON; cr_promo_common := Some "SALE10";
     cr_promo_unique := None |}.

(** The whitelist before and after user [user-1] and company
    [company-a] sign in again and are issued [jti-new]. *)
Definition redis0 : Redis :=
  {[ "whitelist:users:user-1" := {[ "jti-old"; "jti-live" ]};
     "whitelist:companies:company-a" := {[ "jti-old" ]} ]}.

Definition redis_user_signed_in : Redis :=
  {[ "whitelist:users:user-1" := {[ "jti-new" ]};
     "whitelist:companies:company-a" := {[ "jti-old" ]} ]}.

Definition redis_company_signed_in : Redis :=
  {[ "whitelist:users:user-1" := {[ "jti-old"; "jti-live" ]};
     "whitelist:companies:company-a" := {[ "jti-new" ]} ]}.

(** The scenario body with a list of unique codes added to it. *)
Definition create_common_with_unique : PromoCreateRequest :=
  {| cr_description := "Ten percent off everything"; cr_image_url := None;
     cr_target := Some target_ru; cr_max_count := 10;
     cr_active_from := Some (mkDate 2024 1 1);
     cr_active_until := Some (mkDate 2024 6 1);
     cr_mode := COMMON; cr_promo_common := Some "SALE10";
     cr_promo_unique := Some ["code-1"; "code-2"] |}.


(** *** [services/user_service.py]: the promo as a user sees it *)

Record PromoForUser : Type := mkPromoForUser {
  pfu_promo_id : string;
  pfu_company_id : string;
  pfu_company_name : string;
  pfu_description : string;
  pfu_image_url : option string;
  pfu_active : bool;
  pfu_is_activated_by_user : bool;
  pfu_like_count : Z;
  pfu_is_liked_by_user : bool;
  pfu_comment_count : Z
}.

(** [UserService.get_promo].  The first query yields the promo with the
    number of comment rows joined to it; [promo_orm.company] is the row
    the [company_id] column points to, and reading [.name] off a missing
    one stops with [AttributeError]. *)
Definition UserService_get_promo (user_id promo_id : string) (db : Database)
  : Result PromoForUser :=
  match promos db !! promo_id with
  | None => Raise (HTTPException HTTP_404_NOT_FOUND)
  | Some promo_orm =>
      let comments_count :=
        Z.of_nat
          (length (select_where
                     (fun c => String.eqb (comment_promo_id c) (id promo_orm))
                     (comments db))) in
      let result_orm := users_promos db !! (user_id, promo_id) in
      let is_activated :=
        match result_orm with None => false | Some row => activated row end in
      let is_liked :=
        match result_orm with None => false | Some row => liked row end in
      match companies db !! company_id promo_orm with
      | None => Raise (AttributeError "name")
      | Some company =>
          Ok {| pfu_promo_id := id promo_orm;
                pfu_company_id := company_id promo_orm;
                pfu_company_name := company_name company;
                pfu_description := description promo_orm;
                pfu_image_url := image_url promo_orm;
                pfu_active := active promo_orm;
                pfu_is_activated_by_user := is_activated;
                pfu_like_count := like_count promo_orm;
                pfu_is_liked_by_user := is_liked;
                pfu_comment_count := comments_count |}
      end
  end.

(** The number of engagement rows of a promo that are marked liked, and
    the statement that every promo's [like_count] is that number. *)
Definition likes_of (promo_id : string) (db : Database) : Z :=
  Z.of_nat
    (size (filter (fun kv : string * string * PromoUserORM =>
                     snd (fst kv) = promo_id /\ liked (snd kv) = true)
                  (users_promos db))).

Definition counters_consistent (db : Database) : Prop :=
  forall (promo_id : string) (promo : PromocodeORM),
    promos db !! promo_id = Some promo ->
    like_count promo = likes_of promo_id db.

(** *** Requests that differ only in their target ages *)

Definition target_with_ages (t : Target) (a b : Z) : Target :=
  {| t_age_from := Given (Some a); t_age_until := Given (Some b);
     t_country := t_country t; t_categories := t_categories t |}.

Definition cr_with_target (b : PromoCreateRequest) (t : Target)
  : PromoCreateRequest :=
  {| cr_description := cr_description b; cr_image_url := cr_image_url b;
     cr_target := Some t; cr_max_count := cr_max_count b;
     cr_active_from := cr_active_from b; cr_active_until := cr_active_until b;
     cr_mode := cr_mode b; cr_promo_common := cr_promo_common b;
     cr_promo_unique := cr_promo_unique b |}.

(** *** Company sign-up: [utils/general.py], [utils/repository.py],
    [services/company_service.py] *)

(** [bcrypt.hashpw(password, salt)] *)
Variable hashpw : string -> string -> string.

(** [hash_password]; [salt] is the value of [bcrypt.gensalt()]. *)
Definition hash_password (password_text salt : string) : string :=
  hashpw password_text salt.

Definition with_companies (db : Database) (t : gmap string CompanyORM)
  : Database :=
  mkDatabase t (users db) (promos db) (users_promos db) (comments db).

(** [CompanyRepository.get_company_by_id]: the row whose primary key is
    [id]. *)
Definition get_company_by_id (id_ : string) (db : Database)
  : option CompanyORM :=
  companies db !! id_.

(** [CompanyService.is_exist_in_db] *)
Definition CompanyService_is_exist_in_db (id_ : string) (db : Database) : bool :=
  match get_company_by_id id_ db with
  | Some _ => true
  | None => false
  end.

(** [CompanyRepository.create_company]; [new_id] is the identifier the
    database generates for the row. *)
Definition create_company
    (company : CompanySignUpRequest) (salt new_id : string) (db : Database)
  : Result CompanyORM * Database :=
  let model :=
    {| company_id_ := new_id;
       company_name := csu_name company;
       company_email := csu_email company;
       company_password := hash_password (csu_password company) salt |} in
  match companies db !! new_id with
  | Some _ => (Raise IntegrityError, db)
  | None => (Ok model, with_companies db (<[new_id := model]> (companies db)))
  end.

(** [CompanySignUpResponse] *)
Record CompanySignUpResponse : Type := mkCompanySignUpResponse {
  sur_token : string;
  sur_company_id : string
}.

(** [CompanyService.company_sign_up].  The company row is committed by
    [create_company] before the token is made, and the identifier is
    added to the whitelist without a flush. *)
Definition CompanyService_company_sign_up
    (company : CompanySignUpRequest) (salt new_id token_uuid : string) (now : Z)
    (db : Database) (r : Redis)
  : Result CompanySignUpResponse * Database * Redis :=
  match get_company_by_email (csu_email company) db with
  | Raise e => (Raise e, db, r)
  | Ok (Some _) => (Raise (HTTPException HTTP_409_CONFLICT), db, r)
  | Ok None =>
      match create_company company salt new_id db with
      | (Raise e, db1) => (Raise e, db1, r)
      | (Ok company_dto, db1) =>
          match create_access_token (company_id_ company_dto) token_uuid now false
          with
          | Raise e => (Raise e, db1, r)
          | Ok (token_id, token) =>
              match TokenWhiteList.add_jti_to_whitelist
                      (company_id_ company_dto) token_id "company" r with
              | (Raise e, r1) => (Raise e, db1, r1)
              | (Ok _, r1) =>
                  (Ok {| sur_token := token;
                         sur_company_id := company_id_ company_dto |}, db1, r1)
              end
          end
      end
  end.

(** No two company rows carry the same e-mail address. *)
Definition company_emails_unique (db : Database) : Prop :=
  forall email : string,
    (length (select_where (fun c => String.eqb (company_email c) email)
                          (companies db)) <= 1)%nat.

(** *** [utils/repository.py]: listing a company's promos *)

Inductive SortBy : Type := by_active_from | by_active_until.

(** [PromoFilterQueryParams] of [schemas/business.py], once parsed. *)
Record PromoFilterQueryParams : Type := mkPromoFilterQueryParams {
  fq_limit : Z;
  fq_offset : Z;
  fq_sort_by : option SortBy;
  fq_country : option (list string)
}.

(** The [conditions] list: the owner, and the country among those asked
    for when the filter names any (a null country is in no list). *)
Definition promo_conditions (company_id_ : string)
    (filter_query : PromoFilterQueryParams) (model : PromocodeORM) : bool :=
  String.eqb (company_id model) company_id_
  && match fq_country filter_query with
     | None => true
     | Some l =>
         match country model with
         | Some c => bool_decide (c ∈ l)
         | None => false
         end
     end.

Definition date_desc (key : PromocodeORM -> option date)
    (a b : PromocodeORM) : Prop :=
  Is_true (opt_date_ge (key a) (key b)).

#[local] Instance date_desc_dec key a b : Decision (date_desc key a b).
Proof. unfold date_desc. apply _. Defined.

Definition order_by_desc (key : PromocodeORM -> option date)
    (rows : list PromocodeORM) : list PromocodeORM :=
  merge_sort (date_desc key) rows.

(** [PromoRepository.get_company_promos].  The rows come in table order
    when no sort is asked for and in merge-sort order among equal dates:
    the query itself leaves both open. *)
Definition get_company_promos
    (company_id_ : string) (filter_query : PromoFilterQueryParams)
    (db : Database) : Outcome (Z * list PromoDTO) :=
  let matching := select_where (promo_conditions company_id_ filter_query)
                               (promos db) in
  let ordered :=
    match fq_sort_by filter_query with
    | None => matching
    | Some by_active_from => order_by_desc active_from matching
    | Some by_active_until => order_by_desc active_until matching
    end in
  obind (limit_offset (fq_limit filter_query) (fq_offset filter_query) ordered)
    (fun result_orm =>
       let total := Z.of_nat (length matching) in
       Returns (total, PromoDTO_of <$> result_orm)).

(** *** [services/user_service.py]: comments *)

Record CommentAuthor : Type := mkCommentAuthor {
  ca_name : string;
  ca_surname : string;
  ca_avatar_url : option string
}.

Record CommentGet : Type := mkCommentGet {
  cg_id : string;
  cg_text : string;
  cg_date : Z;
  cg_author : CommentAuthor
}.

Definition with_comments (db : Database) (t : gmap string CommentORM) : Database :=
  mkDatabase (companies db) (users db) (promos db) (users_promos db) t.

(** [CommentGet(id=..., text=..., date=..., author=...)]: the text must
    have 10 to 1000 characters. *)
Definition CommentGet_new (id_ text : string) (date_ : Z) (author : CommentAuthor)
  : Outcome CommentGet :=
  if in_range 10 1000 (len text)
  then Returns {| cg_id := id_; cg_text := text; cg_date := date_;
                  cg_author := author |}
  else Throws ValidationError.

Definition CommentAuthor_of (user_orm : UserORM) : CommentAuthor :=
  {| ca_name := user_name user_orm;
     ca_surname := user_surname user_orm;
     ca_avatar_url := user_avatar_url user_orm |}.

(** The [CommentGet(...)] expression of the three read paths: [model.user]
    is the row the [author] column points to, and reading [.name] off a
    missing one stops with [AttributeError] before the DTO is built. *)
Definition CommentGet_of (model : CommentORM) (db : Database)
  : Outcome CommentGet :=
  match users db !! comment_author model with
  | None => Throws (PyExc (AttributeError "name"))
  | Some user =>
      CommentGet_new (comment_id_ model) (comment_text model)
                     (comment_date model) (CommentAuthor_of user)
  end.

(** The query shared by [get_comment_for_promo] and [put_comment]: the
    comment with that identifier, joined to the promo with that
    identifier. *)
Definition select_comment (comment_id promo_id : string) (db : Database)
  : option CommentORM :=
  match comments db !! comment_id, promos db !! promo_id with
  | Some c, Some _ =>
      if String.eqb (comment_promo_id c) promo_id then Some c else None
  | _, _ => None
  end.

(** [UserService.get_comment_for_promo] *)
Definition UserService_get_comment_for_promo
    (comment_id promo_id : string) (db : Database) : Outcome CommentGet :=
  match select_comment comment_id promo_id db with
  | None => Throws (PyExc (HTTPException HTTP_404_NOT_FOUND))
  | Some result_orm => CommentGet_of result_orm db
  end.

Definition set_comment_text (c : CommentORM) (text : string) : CommentORM :=
  mkComment (comment_id_ c) text (comment_date c) (comment_author c)
            (comment_promo_id c).

(** [UserService.put_comment]: the new text is committed, then the DTO is
    built. *)
Definition UserService_put_comment
    (text comment_id promo_id : string) (db : Database)
  : Outcome CommentGet * Database :=
  match select_comment comment_id promo_id db with
  | None => (Throws (PyExc (HTTPException HTTP_404_NOT_FOUND)), db)
  | Some result_orm =>
      let result_orm := set_comment_text result_orm text in
      let db' := with_comments db (<[comment_id := result_orm]> (comments db)) in
      (CommentGet_of result_orm db', db')
  end.

(** [UserService.add_comment]; [new_id] and [now] are the identifier and
    the timestamp the database gives the new row.  The row is committed,
    then the DTO is built. *)
Definition UserService_add_comment
    (text user_id promo_id new_id : string) (now : Z) (db : Database)
  : Outcome CommentGet * Database :=
  match promos db !! promo_id with
  | None => (Throws (PyExc (HTTPException HTTP_404_NOT_FOUND)), db)
  | Some promo_orm =>
      match users db !! user_id with
      | None => (Throws NoResultFound, db)
      | Some user_orm =>
          let new_comment_orm :=
            {| comment_id_ := new_id; comment_text := text; comment_date := now;
               comment_author := user_id; comment_promo_id := promo_id |} in
          match comments db !! new_id with
          | Some _ => (Throws (PyExc IntegrityError), db)
          | None =>
              (CommentGet_new (comment_id_ new_comment_orm) text
                              (comment_date new_comment_orm)
                              (CommentAuthor_of user_orm),
               with_comments db (<[new_id := new_comment_orm]> (comments db)))
          end
      end
  end.

(** [ORDER BY date DESC] on the comments of a promo. *)
Definition date_desc_comment (a b : CommentORM) : Prop :=
  comment_date b <= comment_date a.

#[local] Instance date_desc_comment_dec a b : Decision (date_desc_comment a b).
Proof. unfold date_desc_comment. apply _. Defined.

Definition newest_first (rows : list CommentORM) : list CommentORM :=
  merge_sort date_desc_comment rows.

(** [UserService.get_comments_for_promo] *)
Definition UserService_get_comments_for_promo
    (promo_id : string) (limit offset : Z) (db : Database)
  : Outcome (list CommentGet) :=
  match promos db !! promo_id with
  | None => Throws (PyExc (HTTPException HTTP_404_NOT_FOUND))
  | Some _ =>
      obind (limit_offset limit offset
               (newest_first
                  (select_where
                     (fun c => String.eqb (comment_promo_id c) promo_id)
                     (comments db))))
            (for_each (fun model => CommentGet_of model db))
  end.

(** ** Properties *)

(** *** The whitelist after a sign-in *)

Lemma smembers_sadd_unlink (key member : string) (r : Redis) :
  smembers key (sadd key member (unlink key r)) = {[member]}.
Proof.
  unfold sadd, unlink, smembers.
  rewrite lookup_insert_eq, lookup_delete_eq. simpl.
  apply (right_id_L ∅ (∪)).
Qed.

Lemma sismember_singleton (key member other : string) (r : Redis) :
  smembers key r = {[member]} ->
  other <> member ->
  sismember key other r = false.
Proof.
  intros Hs Hne. unfold sismember. rewrite Hs.
  apply bool_decide_eq_false. set_solver.
Qed.

Lemma user_bearer_rejects_unlisted (c : Credentials) (now : Z) (r : Redis)
    (td : TokenPayload) :
  jwt_decode now (credentials c) = Some td ->
  sismember ("whitelist:users:" +:+ tp_id td) (tp_jti td) r = false ->
  AccessTokenUserBearer (Some c) now r = Raise (HTTPException HTTP_403_FORBIDDEN).
Proof.
  intros Hd Hm. unfold AccessTokenUserBearer, TokenBearer_call.
  destruct (negb (str_truthy (credentials c))); [reflexivity|].
  rewrite Hd. unfold AccessTokenUserBearer_verify_token_data.
  destruct (tp_refresh td); [reflexivity|].
  unfold TokenWhiteList.check_jti_in_whitelist, TokenWhiteList.key_of.
  simpl. rewrite Hm. reflexivity.
Qed.

Lemma company_bearer_rejects_unlisted (c : Credentials) (now : Z) (r : Redis)
    (td : TokenPayload) :
  jwt_decode now (credentials c) = Some td ->
  sismember ("whitelist:companies:" +:+ tp_id td) (tp_jti td) r = false ->
  AccessTokenCompanyBearer (Some c) now r
  = Raise (HTTPException HTTP_403_FORBIDDEN).
Proof.
  intros Hd Hm. unfold AccessTokenCompanyBearer, TokenBearer_call.
  destruct (negb (str_truthy (credentials c))); [reflexivity|].
  rewrite Hd. unfold AccessTokenCompanyBearer_verify_token_data.
  destruct (tp_refresh td); [reflexivity|].
  unfold TokenWhiteList.check_jti_in_whitelist, TokenWhiteList.key_of.
  simpl. rewrite Hm. reflexivity.
Qed.

(** What a successful user sign-in did: it found one row for the e-mail
    address, and left exactly the new identifier under that row's key. *)
Lemma user_sign_in_inv (data : UserSignIn) (token_uuid : string) (now : Z)
    (db : Database) (r r' : Redis) (token : string) :
  UserService_user_sign_in data token_uuid now db r = (Ok token, r') ->
  exists u : UserORM,
    scalar_one_or_none
      (select_where (fun u => String.eqb (user_email u) (si_email data))
                    (users db)) = Ok (Some u)
    /\ r' = sadd ("whitelist:users:" +:+ user_id_ u) token_uuid
              (unlink ("whitelist:users:" +:+ user_id_ u) r).
Proof.
  unfold UserService_user_sign_in, rbind, rlift.
  destruct (scalar_one_or_none _) as [[u|]|e]; try discriminate.
  destruct (negb (verify_password _ _)); try discriminate.
  unfold create_access_token.
  destruct (jwt_encode _) as [tok|]; try discriminate.
  simpl. intros [= _ <-]. exists u. split; reflexivity.
Qed.

Lemma company_sign_in_inv (data : CompanySignInRequest) (token_uuid : string)
    (now : Z) (db : Database) (r r' : Redis) (token : string) :
  CompanyService_company_sign_in data token_uuid now db r = (Ok token, r') ->
  exists c : CompanyORM,
    get_company_by_email (csi_email data) db = Ok (Some c)
    /\ r' = sadd ("whitelist:companies:" +:+ company_id_ c) token_uuid
              (unlink ("whitelist:companies:" +:+ company_id_ c) r).
Proof.
  unfold CompanyService_company_sign_in, rbind, rlift.
  destruct (get_company_by_email _ _) as [[c|]|e]; try discriminate.
  destruct (negb (verify_password _ _)); try discriminate.
  unfold create_access_token. simpl.
  destruct (jwt_encode _) as [tok|]; try discriminate.
  simpl. intros [= _ <-]. exists c. split; reflexivity.
Qed.

Lemma key_of_entity (k : EntityKind) (id_ : string) :
  TokenWhiteList.key_of id_ (entity k) = Ok (whitelist_key k id_).
Proof. destruct k; reflexivity. Qed.

Lemma sign_in_inv (k : EntityKind) (email password token_uuid : string)
    (now : Z) (db : Database) (r r' : Redis) (token : string) :
  sign_in k email password token_uuid now db r = (Ok token, r') ->
  exists pid : string,
    principal_of k email db = Ok (Some pid)
    /\ r' = sadd (whitelist_key k pid) token_uuid (unlink (whitelist_key k pid) r).
Proof.
  destruct k; simpl; intros H.
  - apply user_sign_in_inv in H as (u & Hu & ->). simpl in Hu.
    exists (user_id_ u). rewrite Hu. split; reflexivity.
  - apply company_sign_in_inv in H as (c & Hc & ->). simpl in Hc.
    exists (company_id_ c). rewrite Hc. split; reflexivity.
Qed.

Lemma authenticate_rejects_unlisted (k : EntityKind) (c : Credentials)
    (now : Z) (r : Redis) (td : TokenPayload) :
  jwt_decode now (credentials c) = Some td ->
  sismember (whitelist_key k (tp_id td)) (tp_jti td) r = false ->
  authenticate k (Some c) now r = Raise (HTTPException HTTP_403_FORBIDDEN).
Proof.
  destruct k; simpl.
  - apply user_bearer_rejects_unlisted.
  - apply company_bearer_rejects_unlisted.
Qed.

(** C1.  A successful sign-in of a principal, user or company, leaves
    under that principal's whitelist key exactly the identifier of the
    token it issued, whatever the key held before; from then on every
    token of that principal carrying another identifier is refused by
    [authenticate] with 403, although it still decodes (its signature is
    good and its expiry has not passed). *)
Theorem sign_in_revokes_previous_tokens
    (k : EntityKind) (email password token_uuid : string) (now : Z)
    (db : Database) (r r' : Redis) (token : string) :
  sign_in k email password token_uuid now db r = (Ok token, r') ->
  exists pid : string,
    principal_of k email db = Ok (Some pid)
    /\ smembers (whitelist_key k pid) r' = {[token_uuid]}
    /\ forall (c : Credentials) (later : Z) (td : TokenPayload),
         jwt_decode later (credentials c) = Some td ->
         tp_id td = pid ->
         tp_jti td <> token_uuid ->
         authenticate k (Some c) later r'
         = Raise (HTTPException HTTP_403_FORBIDDEN).
Proof.
  intros H. apply sign_in_inv in H as (pid & Hp & ->).
  exists pid. split; [exact Hp|].
  split; [apply smembers_sadd_unlink|].
  intros c later td Hd Hid Hne.
  apply (authenticate_rejects_unlisted k c later _ td Hd).
  rewrite Hid.
  apply (sismember_singleton _ token_uuid); [apply smembers_sadd_unlink|exact Hne].
Qed.

(** C6.  A bearer token that is marked as a refresh token is refused
    with 403 by each of the three access-token dependencies: when it
    decodes, because of the mark, before the whitelist is looked at;
    when it does not decode (bad signature, expired), because of that. *)
Theorem refresh_token_never_authenticates
    (c : Credentials) (now : Z) (r : Redis) :
  (jwt_decode now (credentials c) = None
   \/ exists td : TokenPayload,
        jwt_decode now (credentials c) = Some td /\ tp_refresh td = true) ->
  AccessTokenBearer (Some c) now r = Raise (HTTPException HTTP_403_FORBIDDEN)
  /\ AccessTokenUserBearer (Some c) now r
     = Raise (HTTPException HTTP_403_FORBIDDEN)
  /\ AccessTokenCompanyBearer (Some c) now r
     = Raise (HTTPException HTTP_403_FORBIDDEN).
Proof.
  unfold AccessTokenBearer, AccessTokenUserBearer, AccessTokenCompanyBearer,
    TokenBearer_call.
  intros [Hd | (td & Hd & Hr)]; rewrite Hd;
    destruct (negb (str_truthy (credentials c))); try (repeat split; reflexivity).
  unfold AccessTokenBearer_verify_token_data,
    AccessTokenUserBearer_verify_token_data,
    AccessTokenCompanyBearer_verify_token_data.
  rewrite Hr. repeat split; reflexivity.
Qed.

(** *** Validation of request bodies *)

Lemma and_then_ok {A B : Type} (r1 : Result A) (r2 : Result B) (a : A) (b : B) :
  and_then r1 r2 = Ok (a, b) -> r1 = Ok a /\ r2 = Ok b.
Proof.
  destruct r1 as [a'|[]], r2 as [b'|[]]; simpl; try discriminate.
  intros [= -> ->]. split; reflexivity.
Qed.

Lemma and_then_raise {A B : Type} (r1 : Result A) (r2 : Result B) (e : PyError) :
  and_then r1 r2 = Raise e -> r1 = Raise e \/ r2 = Raise e.
Proof.
  destruct r1 as [a'|[]], r2 as [b'|[]]; simpl; try discriminate;
    intros [= <-]; auto.
Qed.

Lemma bind_ok {A B : Type} (r : Result A) (k : A -> Result B) (b : B) :
  bind r k = Ok b -> exists a, r = Ok a /\ k a = Ok b.
Proof. destruct r as [a|e]; simpl; [eauto|discriminate]. Qed.

Lemma bind_raise {A B : Type} (r : Result A) (k : A -> Result B) (e : PyError) :
  bind r k = Raise e -> r = Raise e \/ exists a, r = Ok a /\ k a = Raise e.
Proof. destruct r as [a|e']; simpl; [eauto|intros [= ->]; auto]. Qed.

Lemma require_ok {A : Type} (ok : bool) (v w : A) :
  require ok v = Ok w -> ok = true /\ w = v.
Proof. destruct ok; simpl; [intros [= <-]; auto|discriminate]. Qed.

Lemma require_raise {A : Type} (ok : bool) (v : A) (e : PyError) :
  require ok v = Raise e -> validation_error e.
Proof. destruct ok; simpl; [discriminate|intros [= <-]; right; reflexivity]. Qed.

Lemma validate_option_ok {A : Type} (check : A -> Result A) (v w : option A) :
  validate_option check v = Ok w ->
  match v with
  | None => w = None
  | Some x => exists x', check x = Ok x' /\ w = Some x'
  end.
Proof.
  destruct v as [x|]; simpl.
  - destruct (check x) as [x'|e]; simpl; [intros [= <-]; eauto|discriminate].
  - intros [= <-]. reflexivity.
Qed.

Lemma validate_option_raise {A : Type} (check : A -> Result A) (v : option A)
    (e : PyError) :
  validate_option check v = Raise e -> exists x, v = Some x /\ check x = Raise e.
Proof.
  destruct v as [x|]; simpl; [|discriminate].
  destruct (check x) as [x'|e'] eqn:E; simpl; [discriminate|].
  intros [= ->]. eauto.
Qed.

Lemma validate_field_raise {A : Type} (check : A -> Result A) (f : Field A)
    (e : PyError) :
  validate_field check f = Raise e -> exists x, check x = Raise e.
Proof.
  destruct f as [|[x|]]; simpl; try discriminate.
  destruct (check x) as [x'|e'] eqn:E; simpl; [discriminate|].
  intros [= ->]. eauto.
Qed.

Lemma val_httpurl_raise (v : string) (e : PyError) :
  val_httpurl v = Raise e -> validation_error e.
Proof.
  unfold val_httpurl. destruct (_ && _); [|discriminate].
  intros [= <-]. left; reflexivity.
Qed.

Lemma image_url_check_raise (u : string) (e : PyError) :
  image_url_check u = Raise e -> validation_error e.
Proof.
  unfold image_url_check. intros H.
  apply bind_raise in H as [H | (a & _ & H)].
  - eapply require_raise, H.
  - eapply val_httpurl_raise, H.
Qed.

Lemma convert_country_raise (f : Field string) (e : PyError) :
  convert_country f = Raise e -> validation_error e.
Proof.
  destruct f as [|[v|]]; simpl; try discriminate.
  - intros H. apply bind_raise in H as [H | (a & _ & H)]; [|discriminate].
    eapply require_raise, H.
  - intros [= <-]. left; reflexivity.
Qed.

Lemma Target_validate_raise (t : Target) (e : PyError) :
  Target_validate t = Raise e -> validation_error e.
Proof.
  unfold Target_validate. intros H.
  apply bind_raise in H as [H | ([af [au [c cats]]] & _ & H)]; [|discriminate].
  apply and_then_raise in H as [H|H];
    [apply validate_field_raise in H as (x & H); eapply require_raise, H|].
  apply and_then_raise in H as [H|H];
    [apply validate_field_raise in H as (x & H); eapply require_raise, H|].
  apply and_then_raise in H as [H|H]; [eapply convert_country_raise, H|].
  apply validate_field_raise in H as (x & H); eapply require_raise, H.
Qed.

Lemma check_promo_codes_raise (b : PromoCreateRequest) (e : PyError) :
  check_promo_codes b = Raise e -> e = HTTPException HTTP_400_BAD_REQUEST.
Proof.
  unfold check_promo_codes.
  destruct (cr_mode b);
    repeat match goal with
           | |- context [if ?c then _ else _] => destruct c; simpl
           | |- context [match ?c with Some _ => _ | None => _ end] =>
               destruct c; simpl
           end; try discriminate; intros [= <-]; reflexivity.
Qed.

(** A body that [PromoCreateRequest_validate] turns down is turned down
    with one of the two validation errors. *)
Lemma PromoCreateRequest_validate_raise (b : PromoCreateRequest) (e : PyError) :
  PromoCreateRequest_validate b = Raise e -> validation_error e.
Proof.
  unfold PromoCreateRequest_validate. intros H.
  apply bind_raise in H as [H | ([d [u [t [n [pc pu]]]]] & _ & H)].
  - apply and_then_raise in H as [H|H]; [eapply require_raise, H|].
    apply and_then_raise in H as [H|H];
      [apply validate_option_raise in H as (x & _ & H);
       eapply image_url_check_raise, H|].
    apply and_then_raise in H as [H|H];
      [apply validate_option_raise in H as (x & _ & H);
       eapply Target_validate_raise, H|].
    apply and_then_raise in H as [H|H]; [eapply require_raise, H|].
    apply and_then_raise in H as [H|H];
      apply validate_option_raise in H as (x & _ & H); eapply require_raise, H.
  - left. eapply check_promo_codes_raise, H.
Qed.

(** What an accepted body went through: its code fields passed their
    field checks unchanged, and the model validator accepted the whole. *)
Lemma PromoCreateRequest_validate_ok (b b' : PromoCreateRequest) :
  PromoCreateRequest_validate b = Ok b' ->
  check_promo_codes b' = Ok b'
  /\ cr_mode b' = cr_mode b
  /\ cr_max_count b' = cr_max_count b
  /\ cr_promo_common b' = cr_promo_common b
  /\ cr_promo_unique b' = cr_promo_unique b
  /\ cr_active_from b' = cr_active_from b
  /\ cr_active_until b' = cr_active_until b
  /\ (forall l, cr_promo_unique b = Some l ->
        in_range 1 5000 (Z.of_nat (length l)) = true).
Proof.
  unfold PromoCreateRequest_validate. intros H.
  apply bind_ok in H as ([d [u [t [n [pc pu]]]]] & H & Hc).
  apply and_then_ok in H as [_ H]. apply and_then_ok in H as [_ H].
  apply and_then_ok in H as [_ H]. apply and_then_ok in H as [Hn H].
  apply and_then_ok in H as [Hpc Hpu].
  apply require_ok in Hn as [_ ->].
  assert (pc = cr_promo_common b) as ->.
  { apply validate_option_ok in Hpc. destruct (cr_promo_common b); [|exact Hpc].
    destruct Hpc as (x & Hx & ->). apply require_ok in Hx as [_ ->]. reflexivity. }
  assert (pu = cr_promo_unique b
          /\ forall l, cr_promo_unique b = Some l ->
               in_range 1 5000 (Z.of_nat (length l)) = true) as [-> Hlen].
  { apply validate_option_ok in Hpu. destruct (cr_promo_unique b) as [l|].
    - destruct Hpu as (x & Hx & ->). apply require_ok in Hx as [Hx ->].
      split; [reflexivity|]. intros l' [= <-].
      apply andb_prop in Hx as [Hx _]. exact Hx.
    - split; [exact Hpu|discriminate]. }
  pose proof Hc as Hc'. unfold check_promo_codes in Hc'.
  apply bind_ok in Hc' as (_ & _ & Hc'). simpl in Hc'.
  assert (b' = {| cr_description := d; cr_image_url := u; cr_target := t;
                  cr_max_count := cr_max_count b;
                  cr_active_from := cr_active_from b;
                  cr_active_until := cr_active_until b; cr_mode := cr_mode b;
                  cr_promo_common := cr_promo_common b;
                  cr_promo_unique := cr_promo_unique b |}) as Hb'.
  { destruct (cr_active_from b), (cr_active_until b);
      try (destruct (date_ge _ _)); congruence. }
  rewrite <- Hb' in Hc. subst b'. simpl. repeat split; try reflexivity; assumption.
Qed.

Lemma check_promo_codes_ok (b b' : PromoCreateRequest) :
  check_promo_codes b = Ok b' ->
  match cr_mode b with
  | COMMON =>
      opt_str_truthy (cr_promo_common b) = true
      /\ opt_list_truthy (cr_promo_unique b) = false
  | UNIQUE =>
      cr_max_count b <> 1
      /\ opt_list_truthy (cr_promo_unique b) = true
      /\ opt_str_truthy (cr_promo_common b) = false
  end
  /\ (forall af au, cr_active_from b = Some af -> cr_active_until b = Some au ->
        date_ge af au = false).
Proof.
  unfold check_promo_codes. intros H.
  apply bind_ok in H as ([] & Hm & Hd). split.
  - destruct (cr_mode b).
    + destruct (opt_str_truthy (cr_promo_common b)); simpl in Hm; [|discriminate].
      destruct (opt_list_truthy (cr_promo_unique b)); [discriminate|]. auto.
    + destruct (cr_max_count b =? 1) eqn:E1; simpl in Hm; [discriminate|].
      destruct (opt_list_truthy (cr_promo_unique b)); simpl in Hm; [|discriminate].
      destruct (opt_str_truthy (cr_promo_common b)); [discriminate|].
      apply Z.eqb_neq in E1. auto.
  - intros af au Hf Hu. rewrite Hf, Hu in Hd.
    destruct (date_ge af au); [discriminate|reflexivity].
Qed.

Lemma post_promo_rejected (b : PromoCreateRequest) (cid nid : string)
    (db : Database) (e : PyError) :
  PromoCreateRequest_validate b = Raise e ->
  post_promo b cid nid db = (Raise e, db).
Proof. unfold post_promo. intros ->. reflexivity. Qed.

Lemma not_accepted_rejected (b : PromoCreateRequest) (cid nid : string)
    (db : Database) :
  (forall b', PromoCreateRequest_validate b = Ok b' -> False) ->
  exists e : PyError,
    validation_error e
    /\ PromoCreateRequest_validate b = Raise e
    /\ post_promo b cid nid db = (Raise e, db).
Proof.
  intros Hno. destruct (PromoCreateRequest_validate b) as [b'|e] eqn:E.
  - destruct (Hno b' eq_refl).
  - exists e. split; [eapply PromoCreateRequest_validate_raise, E|].
    split; [reflexivity|]. apply post_promo_rejected, E.
Qed.

(** C2.  A promo-create body is turned down with a validation error, and
    the store is left as it was, in each of these cases: mode COMMON
    with a non-empty [promo_unique]; mode UNIQUE with a non-empty
    [promo_common]; mode UNIQUE with [max_count] equal to 1; mode COMMON
    without [promo_common]; mode UNIQUE without a [promo_unique] list of
    1 to 5000 entries. *)
Theorem create_request_code_rules
    (b : PromoCreateRequest) (cid nid : string) (db : Database) :
  (cr_mode b = COMMON /\ exists l, cr_promo_unique b = Some l /\ l <> [])
  \/ (cr_mode b = UNIQUE /\ exists c, cr_promo_common b = Some c /\ c <> "")
  \/ (cr_mode b = UNIQUE /\ cr_max_count b = 1)
  \/ (cr_mode b = COMMON /\ cr_promo_common b = None)
  \/ (cr_mode b = UNIQUE
      /\ forall l, cr_promo_unique b = Some l ->
           ~ (1 <= length l <= 5000)%nat) ->
  exists e : PyError,
    validation_error e
    /\ PromoCreateRequest_validate b = Raise e
    /\ post_promo b cid nid db = (Raise e, db).
Proof.
  intros Hcase. apply not_accepted_rejected. intros b' Hok.
  apply PromoCreateRequest_validate_ok
    in Hok as (Hc & Hmode & Hmax & Hpc & Hpu & _ & _ & Hlen).
  apply check_promo_codes_ok in Hc as [Hc _].
  rewrite Hmode, Hmax, Hpc, Hpu in Hc.
  destruct Hcase as [[Hm (l & Hl & Hne)]
                    |[[Hm (c & Hcm & Hne)]
                    |[[Hm H1]
                    |[[Hm Hnone]
                    |[Hm Hbad]]]]]; rewrite Hm in Hc.
  - destruct Hc as [_ Hc]. rewrite Hl in Hc. destruct l; [congruence|discriminate].
  - destruct Hc as (_ & _ & Hc). rewrite Hcm in Hc.
    destruct c; [congruence|discriminate].
  - destruct Hc as [Hc _]. congruence.
  - destruct Hc as [Hc _]. rewrite Hnone in Hc. discriminate.
  - destruct Hc as (_ & Hc & _).
    destruct (cr_promo_unique b) as [l|] eqn:El; [|discriminate].
    specialize (Hlen l eq_refl). apply (Hbad l eq_refl).
    unfold in_range in Hlen. apply andb_prop in Hlen as [H1 H2].
    apply Z.leb_le in H1, H2. lia.
Qed.

(** *** The activity window at creation *)

Lemma date_ge_lt (a b : date) : date_ge a b = negb (date_lt a b).
Proof. unfold date_ge, date_lt. destruct (date_cmp a b); reflexivity. Qed.

Lemma date_gt_ge (a b : date) : date_gt a b = true -> date_ge a b = true.
Proof. unfold date_ge, date_gt. destruct (date_cmp a b); auto. Qed.



(** *** The merge of a patch onto a stored row *)

Ltac case_fields :=
  repeat match goal with
         | |- context [dump_field _ _ ?f] =>
             let v := fresh "v" in destruct f as [|[v|]]; simpl dump_field
         end.

Lemma apply_target_window (t : option Target) (m : PromocodeORM) :
  active_from (apply_target t m) = active_from m
  /\ active_until (apply_target t m) = active_until m
  /\ company_id (apply_target t m) = company_id m
  /\ id (apply_target t m) = id m.
Proof.
  destruct t as [t|]; [|simpl; auto].
  unfold apply_target, Target_model_dump. case_fields;
    destruct (value (t_categories t)); simpl; auto.
Qed.

Lemma apply_update_data_window (data : PromoPatch) (m : PromocodeORM) :
  active_from (apply_update_data (PromoPatch_model_dump data) m)
  = effective (pp_active_from data) (active_from m)
  /\ active_until (apply_update_data (PromoPatch_model_dump data) m)
     = effective (pp_active_until data) (active_until m)
  /\ age_from (apply_update_data (PromoPatch_model_dump data) m) = age_from m
  /\ age_until (apply_update_data (PromoPatch_model_dump data) m) = age_until m.
Proof.
  unfold apply_update_data, PromoPatch_model_dump, effective.
  case_fields; simpl; auto.
Qed.

Lemma merged_window (data : PromoPatch) (m : PromocodeORM) :
  active_from (merged data m) = effective (pp_active_from data) (active_from m)
  /\ active_until (merged data m)
     = effective (pp_active_until data) (active_until m).
Proof.
  unfold merged.
  destruct (apply_target_window (pp_target data)
              (apply_update_data (PromoPatch_model_dump data) m)) as (-> & -> & _).
  destruct (apply_update_data_window data m) as (-> & -> & _). auto.
Qed.

(** *** The activity window under patch *)









(** *** The age range under patch *)

(** C4.  The age check of [update_company_promo] reads both ages by
    their truth value, so a zero counts as not set.  On a promo owned by
    the caller, the bodies [{"target": {"age_from": 5, "age_until": 0}}]
    and [{"target": {"age_from": 0, "age_until": 0}}] are both accepted
    and the merged ages are stored, although [age_from >= age_until];
    the same body with ages 5 and 5 is turned down and nothing is
    written.  In general the check passes on every row one of whose ages
    is zero, and turns down, before anything is written, every merge that
    leaves two non-zero ages with [age_from >= age_until]. *)
Theorem age_check_skips_zero :
  (forall m : PromocodeORM,
      age_from m = Some 0 \/ age_until m = Some 0 -> age_violated m = false)
  /\ (forall (data : PromoPatch) (cid pid : string) (db : Database)
             (model : PromocodeORM) (a b : Z),
        promos db !! pid = Some model ->
        age_from (merged data model) = Some a ->
        age_until (merged data model) = Some b ->
        a <> 0 -> b <> 0 -> a >= b ->
        exists e : PyError, update_company_promo data cid pid db = (Raise e, db))
  /\ (exists row : PromocodeORM,
      patch_promo (patch_ages 5 0) "company-a" "promo-1" store1
      = (Ok (PromoDTO_of row),
         with_promos store1 (<["promo-1" := row]> (promos store1)))
      /\ age_from row = Some 5 /\ age_until row = Some 0
      /\ promos store1 !! "promo-1" = Some sale10
      /\ age_from sale10 = None /\ age_until sale10 = None)
  /\ (exists row : PromocodeORM,
        patch_promo (patch_ages 0 0) "company-a" "promo-1" store1
        = (Ok (PromoDTO_of row),
           with_promos store1 (<["promo-1" := row]> (promos store1)))
        /\ age_from row = Some 0 /\ age_until row = Some 0)
  /\ patch_promo (patch_ages 5 5) "company-a" "promo-1" store1
     = (Raise (HTTPException HTTP_404_NOT_FOUND), store1).
Proof.
  split; [|split; [|split; [|split]]].
  - intros m [H|H]; unfold age_violated; rewrite H; simpl;
      [reflexivity|apply andb_false_intro1, andb_false_r].
  - intros data cid pid db model a b Hl Ha Hb Ha0 Hb0 Hge.
    unfold update_company_promo. rewrite Hl.
    destruct (negb (String.eqb (company_id model) cid)); [eauto|].
    destruct (window_violated (merged data model)); [eauto|].
    assert (age_violated (merged data model) = true) as ->; [|eauto].
    unfold age_violated. rewrite Ha, Hb. simpl.
    apply Z.eqb_neq in Ha0, Hb0. rewrite Ha0, Hb0. simpl.
    apply Z.geb_le. lia.
  - exists (set_age_until (set_age_from sale10 (Some 5)) (Some 0)).
    repeat split; reflexivity.
  - exists (set_age_until (set_age_from sale10 (Some 0)) (Some 0)).
    repeat split; reflexivity.
  - reflexivity.
Qed.

(** *** Reading a promo as its owner *)

(** C5.  [get_company_promo_by_id] answers 404 when no promo has the
    identifier, 403 when the promo belongs to another company, and
    otherwise returns the stored row field by field: the scalar columns
    as they are, the names of its categories, and the codes of its
    unique promos ([None] when it has none). *)
Theorem get_by_id_not_found_forbidden_or_fields
    (cid pid : string) (db : Database) :
  (promos db !! pid = None ->
   get_company_promo_by_id cid pid db
   = Raise (HTTPException HTTP_404_NOT_FOUND))
  /\ (forall model : PromocodeORM,
        promos db !! pid = Some model ->
        company_id model <> cid ->
        get_company_promo_by_id cid pid db
        = Raise (HTTPException HTTP_403_FORBIDDEN))
  /\ (forall model : PromocodeORM,
        promos db !! pid = Some model ->
        company_id model = cid ->
        exists dto : PromoDTO,
          get_company_promo_by_id cid pid db = Ok dto
          /\ dto_id dto = id model
          /\ dto_company_id dto = company_id model
          /\ dto_description dto = description model
          /\ dto_image_url dto = image_url model
          /\ value (t_age_from (dto_target dto)) = age_from model
          /\ value (t_age_until (dto_target dto)) = age_until model
          /\ value (t_country (dto_target dto)) = country model
          /\ value (t_categories (dto_target dto))
             = Some (category_name <$> categories model)
          /\ dto_max_count dto = max_count model
          /\ dto_active_from dto = active_from model
          /\ dto_active_until dto = active_until model
          /\ dto_mode dto = mode model
          /\ dto_active dto = active model
          /\ dto_like_count dto = like_count model
          /\ dto_used_count dto = used_count model
          /\ dto_promo_common dto = promo_common model
          /\ dto_promo_unique dto
             = match unique_promos model with
               | [] => None
               | l => Some (promocode <$> l)
               end).
Proof.
  unfold get_company_promo_by_id. split; [|split].
  - intros ->. reflexivity.
  - intros model -> Hne.
    destruct (String.eqb_spec (company_id model) cid); [contradiction|reflexivity].
  - intros model -> <-. rewrite String.eqb_refl. simpl.
    eexists. split; [reflexivity|]. simpl. repeat split; reflexivity.
Qed.

(** *** Likes *)


(** *** Deleting a comment *)

(** C8.  The handler of [DELETE /user/promo/{id}/comments/{comment_id}]
    never deletes anything and never answers 404: for a caller that
    exists it stops with [AttributeError], because [UserService] has no
    attribute [delete_comment]; the store is left as it was. *)
Theorem delete_comment_route_always_raises
    (id_ comment_id : string) (creds : Credentials) (now : Z) (db : Database) :
  delete_comment id_ comment_id creds now db
  = (Raise
       match UserService_get_user_uuid_from_token now (credentials creds) with
       | Raise e => e
       | Ok user_id =>
           if UserService_is_exist_in_db user_id db
           then AttributeError "delete_comment"
           else HTTPException HTTP_401_UNAUTHORIZED
       end,
     db).
Proof.
  unfold delete_comment.
  destruct (UserService_get_user_uuid_from_token _ _) as [user_id|e];
    [|reflexivity].
  destruct (UserService_is_exist_in_db user_id db); reflexivity.
Qed.

(** *** The image URL of a created promo *)


(** *** Passwords *)

(** C10.  [val_password] returns its argument for every string; and each
    of the four bodies that carry a password is accepted or turned down
    by validation independently of the password it carries. *)
Theorem val_password_accepts_everything :
  (forall v : string, val_password v = Ok v)
  /\ (forall e p p' : string,
        is_ok (UserSignIn_validate (mkUserSignIn e p))
        = is_ok (UserSignIn_validate (mkUserSignIn e p')))
  /\ (forall e p p' : string,
        is_ok (CompanySignInRequest_validate (mkCompanySignInRequest e p))
        = is_ok (CompanySignInRequest_validate (mkCompanySignInRequest e p')))
  /\ (forall n e p p' : string,
        is_ok (CompanySignUpRequest_validate (mkCompanySignUpRequest n e p))
        = is_ok (CompanySignUpRequest_validate (mkCompanySignUpRequest n e p')))
  /\ (forall (n s e : string) (a : Field string) (o : UserTargetSettings)
             (p p' : string),
        is_ok (UserRegister_validate (mkUserRegister n s e a o p))
        = is_ok (UserRegister_validate (mkUserRegister n s e a o p'))).
Proof.
  assert (forall v : string, val_password v = Ok v) as Hv.
  { intros v. unfold val_password. destruct (negb _); reflexivity. }
  split; [exact Hv|].
  unfold UserSignIn_validate, CompanySignInRequest_validate,
    CompanySignUpRequest_validate, UserRegister_validate. simpl.
  repeat split; intros; rewrite !Hv;
    repeat match goal with
           | |- context [and_then ?r _] =>
               match r with
               | Ok _ => fail 1
               | Raise _ => fail 1
               | _ => destruct r as [?|[]]; simpl
               end
           end; reflexivity.
Qed.

(** ** Further properties *)

(** *** The whitelist: effect and frame of each operation *)

Lemma key_of_valid (id_ entity_ key : string) :
  TokenWhiteList.key_of id_ entity_ = Ok key ->
  entity_ = "user" \/ entity_ = "company".
Proof.
  unfold TokenWhiteList.key_of.
  destruct (String.eqb_spec entity_ "user"); [auto|].
  destruct (String.eqb_spec entity_ "company"); [auto|discriminate].
Qed.

Lemma key_of_inj (id1 e1 id2 e2 key : string) :
  TokenWhiteList.key_of id1 e1 = Ok key ->
  TokenWhiteList.key_of id2 e2 = Ok key ->
  id1 = id2 /\ e1 = e2.
Proof.
  intros H1 H2.
  destruct (key_of_valid _ _ _ H1) as [-> | ->],
           (key_of_valid _ _ _ H2) as [-> | ->];
    cbn in H1, H2; rewrite <- H2 in H1; injection H1; intros; subst; auto;
    discriminate.
Qed.

Lemma smembers_sadd (key key' member : string) (r : Redis) :
  smembers key' (sadd key member r)
  = if decide (key = key') then {[member]} ∪ smembers key r else smembers key' r.
Proof.
  unfold sadd. unfold smembers at 1. rewrite lookup_insert.
  destruct (decide (key = key')); reflexivity.
Qed.

Lemma smembers_srem (key key' member : string) (r : Redis) :
  smembers key' (srem key member r)
  = if decide (key = key') then smembers key r ∖ {[member]} else smembers key' r.
Proof.
  unfold srem.
  destruct (decide (smembers key r ∖ {[member]} = ∅)) as [He|He];
    unfold smembers at 1.
  - rewrite lookup_delete. destruct (decide (key = key')); [|reflexivity].
    simpl. symmetry. exact He.
  - rewrite lookup_insert. destruct (decide (key = key')); reflexivity.
Qed.

Lemma smembers_unlink (key key' : string) (r : Redis) :
  smembers key' (unlink key r)
  = if decide (key = key') then ∅ else smembers key' r.
Proof.
  unfold unlink. unfold smembers at 1. rewrite lookup_delete.
  destruct (decide (key = key')); reflexivity.
Qed.

(** X1.  Adding an identifier for a principal makes it listed, and changes
    nothing else: every other question put to [check_jti_in_whitelist],
    about any principal of either kind, has the answer it had before. *)
Theorem whitelist_add_effect_and_frame
    (id_ jti entity_ : string) (r : Redis) :
  entity_ = "user" \/ entity_ = "company" ->
  exists r' : Redis,
    TokenWhiteList.add_jti_to_whitelist id_ jti entity_ r = (Ok tt, r')
    /\ TokenWhiteList.check_jti_in_whitelist id_ jti entity_ r' = Ok true
    /\ forall id2 jti2 e2 : string,
         ~ (id2 = id_ /\ e2 = entity_ /\ jti2 = jti) ->
         TokenWhiteList.check_jti_in_whitelist id2 jti2 e2 r'
         = TokenWhiteList.check_jti_in_whitelist id2 jti2 e2 r.
Proof.
  intros He. unfold TokenWhiteList.add_jti_to_whitelist.
  destruct (TokenWhiteList.key_of id_ entity_) as [key|e] eqn:Ek;
    [|destruct He as [-> | ->]; discriminate].
  eexists. split; [reflexivity|]. split.
  - unfold TokenWhiteList.check_jti_in_whitelist. rewrite Ek. simpl.
    unfold sismember. rewrite smembers_sadd, decide_True by reflexivity.
    f_equal. apply bool_decide_eq_true.
    apply elem_of_union. left. apply elem_of_singleton. reflexivity.
  - intros id2 jti2 e2 Hne. unfold TokenWhiteList.check_jti_in_whitelist.
    destruct (TokenWhiteList.key_of id2 e2) as [key2|e'] eqn:Ek2; [|reflexivity].
    simpl. f_equal. unfold sismember. rewrite smembers_sadd.
    destruct (decide (key = key2)) as [<-|]; [|reflexivity].
    destruct (key_of_inj _ _ _ _ _ Ek2 Ek) as [-> ->].
    apply bool_decide_ext. assert (jti2 <> jti) by (intros ->; apply Hne; auto).
    rewrite elem_of_union, elem_of_singleton.
    split; [intros [?|?]; [contradiction|assumption]|auto].
Qed.

(** X2.  Deleting one identifier of a principal makes exactly that
    identifier unlisted: every other identifier, of this or of any other
    principal, is listed or not as it was before. *)
Theorem whitelist_delete_one_effect_and_frame
    (id_ jti entity_ : string) (r : Redis) :
  entity_ = "user" \/ entity_ = "company" ->
  exists r' : Redis,
    TokenWhiteList.delete_one_jti_from_whitelist id_ jti entity_ r = (Ok tt, r')
    /\ TokenWhiteList.check_jti_in_whitelist id_ jti entity_ r' = Ok false
    /\ forall id2 jti2 e2 : string,
         ~ (id2 = id_ /\ e2 = entity_ /\ jti2 = jti) ->
         TokenWhiteList.check_jti_in_whitelist id2 jti2 e2 r'
         = TokenWhiteList.check_jti_in_whitelist id2 jti2 e2 r.
Proof.
  intros He. unfold TokenWhiteList.delete_one_jti_from_whitelist.
  destruct (TokenWhiteList.key_of id_ entity_) as [key|e] eqn:Ek;
    [|destruct He as [-> | ->]; discriminate].
  eexists. split; [reflexivity|]. split.
  - unfold TokenWhiteList.check_jti_in_whitelist. rewrite Ek. simpl.
    unfold sismember. rewrite smembers_srem, decide_True by reflexivity.
    f_equal. apply bool_decide_eq_false.
    rewrite elem_of_difference, elem_of_singleton.
    intros [_ Hn]. apply Hn. reflexivity.
  - intros id2 jti2 e2 Hne. unfold TokenWhiteList.check_jti_in_whitelist.
    destruct (TokenWhiteList.key_of id2 e2) as [key2|e'] eqn:Ek2; [|reflexivity].
    simpl. f_equal. unfold sismember. rewrite smembers_srem.
    destruct (decide (key = key2)) as [<-|]; [|reflexivity].
    destruct (key_of_inj _ _ _ _ _ Ek2 Ek) as [-> ->].
    apply bool_decide_ext. assert (jti2 <> jti) by (intros ->; apply Hne; auto).
    rewrite elem_of_difference, elem_of_singleton.
    split; [intros [? _]; assumption|intros ?; split; assumption].
Qed.

(** X3.  Flushing a principal unlists every identifier of that principal
    and of no one else: a user and a company with the same identifier
    string are two principals, and the other keeps its sessions. *)
Theorem whitelist_flush_effect_and_frame
    (id_ entity_ : string) (r : Redis) :
  entity_ = "user" \/ entity_ = "company" ->
  exists r' : Redis,
    TokenWhiteList.flush_all_jti_from_whitelist id_ entity_ r = (Ok tt, r')
    /\ (forall jti : string,
          TokenWhiteList.check_jti_in_whitelist id_ jti entity_ r' = Ok false)
    /\ forall id2 jti2 e2 : string,
         ~ (id2 = id_ /\ e2 = entity_) ->
         TokenWhiteList.check_jti_in_whitelist id2 jti2 e2 r'
         = TokenWhiteList.check_jti_in_whitelist id2 jti2 e2 r.
Proof.
  intros He. unfold TokenWhiteList.flush_all_jti_from_whitelist.
  destruct (TokenWhiteList.key_of id_ entity_) as [key|e] eqn:Ek;
    [|destruct He as [-> | ->]; discriminate].
  eexists. split; [reflexivity|]. split.
  - intros jti. unfold TokenWhiteList.check_jti_in_whitelist. rewrite Ek. simpl.
    unfold sismember. rewrite smembers_unlink, decide_True by reflexivity.
    f_equal.
  - intros id2 jti2 e2 Hne. unfold TokenWhiteList.check_jti_in_whitelist.
    destruct (TokenWhiteList.key_of id2 e2) as [key2|e'] eqn:Ek2; [|reflexivity].
    simpl. f_equal. unfold sismember. rewrite smembers_unlink.
    destruct (decide (key = key2)) as [<-|]; [|reflexivity].
    destruct (key_of_inj _ _ _ _ _ Ek2 Ek) as [-> ->]. destruct Hne; auto.
Qed.

Lemma check_entity (k : EntityKind) (id_ jti : string) (r : Redis) :
  TokenWhiteList.check_jti_in_whitelist id_ jti (entity k) r
  = Ok (sismember (whitelist_key k id_) jti r).
Proof. destruct k; reflexivity. Qed.

Lemma authenticate_shape (k : EntityKind) (c : Credentials) (now : Z)
    (r : Redis) :
  authenticate k (Some c) now r
  = if negb (str_truthy (credentials c))
    then Raise (HTTPException HTTP_403_FORBIDDEN)
    else match jwt_decode now (credentials c) with
         | None => Raise (HTTPException HTTP_403_FORBIDDEN)
         | Some td =>
             if tp_refresh td
             then Raise (HTTPException HTTP_403_FORBIDDEN)
             else if sismember (whitelist_key k (tp_id td)) (tp_jti td) r
                  then Ok c
                  else Raise (HTTPException HTTP_403_FORBIDDEN)
         end.
Proof.
  destruct k; simpl;
    unfold AccessTokenUserBearer, AccessTokenCompanyBearer, TokenBearer_call,
      AccessTokenUserBearer_verify_token_data,
      AccessTokenCompanyBearer_verify_token_data;
    destruct (negb (str_truthy (credentials c))); try reflexivity;
    destruct (jwt_decode now (credentials c)) as [td|]; try reflexivity;
    destruct (tp_refresh td); try reflexivity;
    unfold TokenWhiteList.check_jti_in_whitelist; simpl;
    destruct (sismember _ _ r); reflexivity.
Qed.

(** X4.  [AccessTokenUserBearer] and [AccessTokenCompanyBearer] let a
    request through exactly when its credentials are not empty, decode, are
    not marked as a refresh token, and carry an identifier listed for the
    principal they name; in every other case, missing credentials
    included, the answer is 403 and nothing else. *)
Theorem authenticate_accepts_iff (k : EntityKind) (now : Z) (r : Redis) :
  (forall c : Credentials,
      authenticate k (Some c) now r = Ok c
      <-> credentials c <> ""
          /\ exists td : TokenPayload,
               jwt_decode now (credentials c) = Some td
               /\ tp_refresh td = false
               /\ TokenWhiteList.check_jti_in_whitelist
                    (tp_id td) (tp_jti td) (entity k) r = Ok true)
  /\ (forall auth_data : option Credentials,
        authenticate k auth_data now r = Raise (HTTPException HTTP_403_FORBIDDEN)
        \/ exists c : Credentials,
             auth_data = Some c /\ authenticate k auth_data now r = Ok c).
Proof.
  split.
  - intros c. rewrite authenticate_shape. split.
    + destruct (credentials c) as [|a s] eqn:Ec; simpl; [discriminate|].
      destruct (jwt_decode now (String a s)) as [td|]; [|discriminate].
      destruct (tp_refresh td) eqn:Er; [discriminate|].
      destruct (sismember _ _ r) eqn:Es; [|discriminate].
      intros _. split; [discriminate|]. exists td.
      rewrite check_entity, Es. auto.
    + intros [Hne (td & Hd & Hr & Hs)]. rewrite check_entity in Hs.
      injection Hs as Hs.
      destruct (credentials c) as [|a s]; [congruence|]. simpl.
      rewrite Hd, Hr, Hs. reflexivity.
  - intros [c|].
    + rewrite authenticate_shape.
      destruct (negb (str_truthy (credentials c))); [auto|].
      destruct (jwt_decode now (credentials c)) as [td|]; [|auto].
      destruct (tp_refresh td); [auto|].
      destruct (sismember _ _ r); [right; eauto|auto].
    + left. destruct k; reflexivity.
Qed.

(** *** Sign-in: failures and frame *)

(** X5.  A user sign-in that fails leaves the whitelist as it was, so the
    sessions of the account survive any number of failed attempts; the
    failure is 401 both for an unknown address and for a wrong password
    (or 400 when the token cannot be made, or [MultipleResultsFound] when
    several rows carry the address). *)
Theorem user_sign_in_failure_keeps_sessions
    (data : UserSignIn) (token_uuid : string) (now : Z) (db : Database)
    (r r' : Redis) (e : PyError) :
  UserService_user_sign_in data token_uuid now db r = (Raise e, r') ->
  r' = r
  /\ (e = HTTPException HTTP_401_UNAUTHORIZED
      \/ e = HTTPException HTTP_400_BAD_REQUEST
      \/ e = MultipleResultsFound).
Proof.
  unfold UserService_user_sign_in, rbind, rlift.
  destruct (scalar_one_or_none _) as [[u|]|e'] eqn:Es.
  - destruct (negb (verify_password _ _)); [intros [= <- <-]; auto|].
    unfold create_access_token.
    destruct (jwt_encode _) as [tok|]; simpl; [discriminate|].
    intros [= <- <-]. auto.
  - intros [= <- <-]. auto.
  - intros [= <- <-]. split; [reflexivity|]. right. right.
    unfold scalar_one_or_none in Es.
    destruct (select_where _ _) as [|x [|y l]]; congruence.
Qed.

(** X6.  A company sign-in that fails on the address or the password
    leaves the whitelist as it was; but the whitelist is flushed before the
    token is made, so when making the token fails (400) the company has
    lost all its sessions although no new one was issued. *)
Theorem company_sign_in_failure
    (data : CompanySignInRequest) (token_uuid : string) (now : Z)
    (db : Database) (r r' : Redis) (e : PyError) :
  CompanyService_company_sign_in data token_uuid now db r = (Raise e, r') ->
  (r' = r
   /\ (e = HTTPException HTTP_401_UNAUTHORIZED \/ e = MultipleResultsFound))
  \/ (e = HTTPException HTTP_400_BAD_REQUEST
      /\ exists c : CompanyORM,
           get_company_by_email (csi_email data) db = Ok (Some c)
           /\ verify_password (csi_password data) (company_password c) = true
           /\ r' = unlink ("whitelist:companies:" +:+ company_id_ c) r
           /\ forall jti : string,
                TokenWhiteList.check_jti_in_whitelist (company_id_ c) jti
                  "company" r' = Ok false).
Proof.
  unfold CompanyService_company_sign_in, rbind, rlift.
  destruct (get_company_by_email _ _) as [[c|]|e'] eqn:Es.
  - destruct (verify_password _ _) eqn:Ev; simpl; [|intros [= <- <-]; auto].
    unfold create_access_token.
    destruct (jwt_encode _) as [tok|]; simpl; [discriminate|].
    intros [= <- <-]. right. split; [reflexivity|]. exists c.
    split; [reflexivity|]. split; [exact Ev|]. split; [reflexivity|].
    intros jti. unfold TokenWhiteList.check_jti_in_whitelist. simpl.
    unfold sismember. rewrite smembers_unlink, decide_True by reflexivity.
    reflexivity.
  - intros [= <- <-]. auto.
  - intros [= <- <-]. left. split; [reflexivity|]. right.
    unfold get_company_by_email, scalar_one_or_none in Es.
    destruct (select_where _ _) as [|x [|y l]]; congruence.
Qed.

(** X7.  A successful sign-in touches the sessions of the principal that
    signed in and of no one else: every question about another principal,
    the one of the other kind with the same identifier included, is
    answered as before. *)
Theorem sign_in_frame
    (k : EntityKind) (email password token_uuid : string) (now : Z)
    (db : Database) (r r' : Redis) (token : string) :
  sign_in k email password token_uuid now db r = (Ok token, r') ->
  exists pid : string,
    principal_of k email db = Ok (Some pid)
    /\ forall id2 jti2 e2 : string,
         ~ (id2 = pid /\ e2 = entity k) ->
         TokenWhiteList.check_jti_in_whitelist id2 jti2 e2 r'
         = TokenWhiteList.check_jti_in_whitelist id2 jti2 e2 r.
Proof.
  intros H. apply sign_in_inv in H as (pid & Hp & ->).
  exists pid. split; [exact Hp|].
  intros id2 jti2 e2 Hne. unfold TokenWhiteList.check_jti_in_whitelist.
  destruct (TokenWhiteList.key_of id2 e2) as [key2|e'] eqn:Ek2; [|reflexivity].
  simpl. f_equal. unfold sismember.
  rewrite smembers_sadd.
  destruct (decide (whitelist_key k pid = key2)) as [<-|Hk];
    [|rewrite smembers_unlink, decide_False by exact Hk; reflexivity].
  destruct (key_of_inj _ _ _ _ _ Ek2 (key_of_entity k pid)) as [-> ->].
  destruct Hne; auto.
Qed.

Lemma sign_in_token (k : EntityKind) (email password token_uuid : string)
    (now : Z) (db : Database) (r r' : Redis) (token : string) :
  sign_in k email password token_uuid now db r = (Ok token, r') ->
  exists pid : string,
    principal_of k email db = Ok (Some pid)
    /\ jwt_encode (mkPayload pid token_uuid (now + 24 * 3600) false) = Some token
    /\ r' = sadd (whitelist_key k pid) token_uuid (unlink (whitelist_key k pid) r).
Proof.
  destruct k; simpl;
    unfold UserService_user_sign_in, CompanyService_company_sign_in,
      get_company_by_email, rbind, rlift.
  - destruct (scalar_one_or_none _) as [[u|]|e]; try discriminate.
    destruct (negb (verify_password _ _)); try discriminate.
    unfold create_access_token.
    destruct (jwt_encode _) as [tok|] eqn:Ee; try discriminate.
    simpl. intros [= <- <-]. exists (user_id_ u). auto.
  - destruct (scalar_one_or_none _) as [[c|]|e]; try discriminate.
    destruct (negb (verify_password _ _)); try discriminate.
    unfold create_access_token. simpl.
    destruct (jwt_encode _) as [tok|] eqn:Ee; try discriminate.
    simpl. intros [= <- <-]. exists (company_id_ c). auto.
Qed.

(** X8.  The token a successful sign-in returns is accepted by the bearer
    dependency of its kind from then on, for as long as it decodes to the
    payload it was made from: it carries the principal, a 24 hour expiry,
    no refresh mark, and the one identifier the whitelist now holds. *)
Theorem issued_token_authenticates
    (k : EntityKind) (email password token_uuid : string) (now later : Z)
    (db : Database) (r r' : Redis) (token scheme_ : string) :
  sign_in k email password token_uuid now db r = (Ok token, r') ->
  token <> "" ->
  (forall p : TokenPayload,
      jwt_encode p = Some token -> jwt_decode later token = Some p) ->
  authenticate k (Some (mkCredentials scheme_ token)) later r'
  = Ok (mkCredentials scheme_ token)
  /\ exists pid : string,
       principal_of k email db = Ok (Some pid)
       /\ jwt_decode later token
          = Some (mkPayload pid token_uuid (now + 24 * 3600) false).
Proof.
  intros H Hne Hrt. apply sign_in_token in H as (pid & Hp & He & ->).
  pose proof (Hrt _ He) as Hd.
  split; [|eauto].
  rewrite authenticate_shape. simpl.
  destruct token as [|a s]; [congruence|]. simpl. rewrite Hd. simpl.
  assert (sismember (whitelist_key k pid) token_uuid
            (sadd (whitelist_key k pid) token_uuid
                  (unlink (whitelist_key k pid) r)) = true) as ->;
    [|reflexivity].
  unfold sismember. rewrite smembers_sadd_unlink. apply bool_decide_eq_true.
  apply elem_of_singleton. reflexivity.
Qed.

(** *** Likes and unlikes *)

Lemma database_eta (db : Database) :
  with_promos (with_users_promos db (users_promos db)) (promos db) = db.
Proof. destruct db; reflexivity. Qed.

Lemma set_like_count_id (promo : PromocodeORM) :
  set_like_count promo (like_count promo) = promo.
Proof. destruct promo; reflexivity. Qed.

Lemma set_like_count_twice (promo : PromocodeORM) (a b : Z) :
  set_like_count (set_like_count promo a) b = set_like_count promo b.
Proof. destruct promo; reflexivity. Qed.

Lemma set_liked_id (row : PromoUserORM) :
  set_liked row (liked row) = row.
Proof. destruct row; reflexivity. Qed.

Lemma set_liked_twice (row : PromoUserORM) (a b : bool) :
  set_liked (set_liked row a) b = set_liked row b.
Proof. destruct row; reflexivity. Qed.

(** X9.  [unlike_promo] on an existing promo always succeeds; it changes
    nothing when the user has no engagement row or has not liked the
    promo, and a second call right after the first changes nothing in any
    case.  On a promo that does not exist it answers 404 and changes
    nothing. *)
Theorem unlike_promo_idempotent (user_id promo_id : string) (db : Database) :
  match promos db !! promo_id with
  | None =>
      UserService_unlike_promo user_id promo_id db
      = (Raise (HTTPException HTTP_404_NOT_FOUND), db)
  | Some promo =>
      exists db1 : Database,
        UserService_unlike_promo user_id promo_id db = (Ok tt, db1)
        /\ UserService_unlike_promo user_id promo_id db1 = (Ok tt, db1)
        /\ match users_promos db !! (user_id, promo_id) with
           | None => db1 = db
           | Some row =>
               if liked row
               then users_promos db1 !! (user_id, promo_id)
                    = Some (set_liked row false)
                    /\ promos db1 !! promo_id
                       = Some (set_like_count promo (like_count promo - 1))
               else db1 = db
           end
  end.
Proof.
  destruct (promos db !! promo_id) as [promo|] eqn:Hp;
    unfold UserService_unlike_promo at 1; rewrite Hp; [|reflexivity].
  destruct (users_promos db !! (user_id, promo_id)) as [row|] eqn:Er.
  - destruct (liked row) eqn:El.
    + eexists. split; [reflexivity|].
      unfold UserService_unlike_promo. simpl.
      rewrite !lookup_insert_eq. simpl. auto.
    + exists db. split; [reflexivity|]. split; [|reflexivity].
      unfold UserService_unlike_promo. rewrite Hp, Er, El. reflexivity.
  - exists db. split; [reflexivity|]. split; [|reflexivity].
    unfold UserService_unlike_promo. rewrite Hp, Er. reflexivity.
Qed.

(** X10.  Like and unlike undo each other.  For a user whose engagement
    row is not liked, a like followed by an unlike gives back the very
    store it started from; for a user who likes the promo, so does an
    unlike followed by a like.  For a user without an engagement row, a
    like followed by an unlike gives back the promos table and leaves a row
    that is neither liked nor activated: rows are flipped, never deleted. *)
Theorem like_unlike_round_trip
    (user_id promo_id : string) (db : Database) (promo : PromocodeORM) :
  promos db !! promo_id = Some promo ->
  exists db1 db2 db3 db4 : Database,
    UserService_like_promo user_id promo_id db = (Ok tt, db1)
    /\ UserService_unlike_promo user_id promo_id db1 = (Ok tt, db2)
    /\ UserService_unlike_promo user_id promo_id db = (Ok tt, db3)
    /\ UserService_like_promo user_id promo_id db3 = (Ok tt, db4)
    /\ match users_promos db !! (user_id, promo_id) with
       | None =>
           promos db2 = promos db
           /\ users_promos db2
              = <[(user_id, promo_id) := mkPromoUser user_id promo_id false false]>
                  (users_promos db)
       | Some row => if liked row then db4 = db else db2 = db
       end.
Proof.
  intros Hp.
  unfold UserService_like_promo at 1. unfold UserService_unlike_promo at 2.
  rewrite Hp.
  destruct (users_promos db !! (user_id, promo_id)) as [row|] eqn:Er.
  - destruct (liked row) eqn:El; simpl.
    + do 4 eexists. split; [reflexivity|].
      split; [unfold UserService_unlike_promo; rewrite Hp, Er, El; reflexivity|].
      split; [reflexivity|].
      unfold UserService_like_promo. simpl. rewrite !lookup_insert_eq. simpl.
      split; [reflexivity|].
      rewrite !insert_insert_eq, set_liked_twice, set_like_count_twice.
      replace (like_count promo - 1 + 1) with (like_count promo) by lia.
      rewrite <- El at 1. rewrite set_liked_id, set_like_count_id.
      unfold with_promos, with_users_promos. simpl.
      rewrite (insert_id _ _ _ Er), (insert_id _ _ _ Hp).
      destruct db; reflexivity.
    + do 4 eexists. split; [reflexivity|].
      unfold UserService_unlike_promo at 1. simpl. rewrite !lookup_insert_eq. simpl.
      split; [reflexivity|]. split; [reflexivity|].
      split; [unfold UserService_like_promo; rewrite Hp, Er, El; reflexivity|].
      rewrite !insert_insert_eq, set_liked_twice, set_like_count_twice.
      replace (like_count promo + 1 - 1) with (like_count promo) by lia.
      rewrite <- El at 1. rewrite set_liked_id, set_like_count_id.
      unfold with_promos, with_users_promos. simpl.
      rewrite (insert_id _ _ _ Er), (insert_id _ _ _ Hp).
      destruct db; reflexivity.
  - do 4 eexists. split; [reflexivity|].
    unfold UserService_unlike_promo at 1. simpl. rewrite !lookup_insert_eq. simpl.
    split; [reflexivity|]. split; [reflexivity|].
    split; [unfold UserService_like_promo; rewrite Hp, Er; reflexivity|].
    simpl. rewrite !insert_insert_eq, set_like_count_twice.
    replace (like_count promo + 1 - 1) with (like_count promo) by lia.
    rewrite set_like_count_id, (insert_id _ _ _ Hp). auto.
Qed.

Lemma likes_of_insert_other (q : string) (k : string * string)
    (x : PromoUserORM) (db : Database) (t : gmap string PromocodeORM) :
  snd k <> q ->
  likes_of q (with_promos (with_users_promos db (<[k := x]> (users_promos db))) t)
  = likes_of q db.
Proof.
  intros Hne. unfold likes_of. simpl.
  set (P := fun kv : string * string * PromoUserORM =>
              snd (fst kv) = q /\ liked (snd kv) = true).
  rewrite (map_filter_insert_not P); [reflexivity|].
  intros y [H _]. simpl in H. contradiction.
Qed.

Lemma likes_of_insert_liked (k : string * string) (x : PromoUserORM)
    (db : Database) (t : gmap string PromocodeORM) :
  liked x = true ->
  (forall y, users_promos db !! k = Some y -> liked y = false) ->
  likes_of (snd k)
    (with_promos (with_users_promos db (<[k := x]> (users_promos db))) t)
  = likes_of (snd k) db + 1.
Proof.
  intros Hx Hold. unfold likes_of. simpl.
  set (P := fun kv : string * string * PromoUserORM =>
              snd (fst kv) = snd k /\ liked (snd kv) = true).
  rewrite (map_filter_insert_True P) by (split; [reflexivity|exact Hx]).
  rewrite map_size_insert_None; [lia|].
  apply map_lookup_filter_None.
  destruct (users_promos db !! k) as [y|] eqn:Ey; [right|left; reflexivity].
  intros y' [= <-] [_ H]. simpl in H. rewrite (Hold y eq_refl) in H. discriminate.
Qed.

Lemma likes_of_insert_unliked (k : string * string) (x y : PromoUserORM)
    (db : Database) (t : gmap string PromocodeORM) :
  liked x = false ->
  users_promos db !! k = Some y ->
  liked y = true ->
  likes_of (snd k)
    (with_promos (with_users_promos db (<[k := x]> (users_promos db))) t)
  = likes_of (snd k) db - 1.
Proof.
  intros Hx Hy Hly. unfold likes_of. simpl.
  set (P := fun kv : string * string * PromoUserORM =>
              snd (fst kv) = snd k /\ liked (snd kv) = true).
  rewrite (map_filter_insert_False P)
    by (intros [_ H]; simpl in H; congruence).
  rewrite map_filter_delete.
  assert (filter P (users_promos db) !! k = Some y) as Hin.
  { apply map_lookup_filter_Some. split; [exact Hy|]. split; [reflexivity|exact Hly]. }
  rewrite map_size_delete_Some by eauto.
  assert (size (filter P (users_promos db)) <> 0%nat) as Hpos.
  { intros H0. apply map_size_empty_inv in H0. rewrite H0 in Hin.
    rewrite lookup_empty in Hin. discriminate. }
  lia.
Qed.

(** X11.  The denormalised counter stays right: if every promo's
    [like_count] is the number of engagement rows of that promo marked
    liked, the same holds after any [like_promo] and after any
    [unlike_promo], whether it succeeds, does nothing or fails. *)
Theorem like_unlike_keep_counters
    (user_id promo_id : string) (db db' : Database) (res : Result unit) :
  counters_consistent db ->
  UserService_like_promo user_id promo_id db = (res, db')
  \/ UserService_unlike_promo user_id promo_id db = (res, db') ->
  counters_consistent db'.
Proof.
  intros Hc Hop.
  assert (forall (x : PromoUserORM) (promo : PromocodeORM) (d : Z),
             promos db !! promo_id = Some promo ->
             likes_of promo_id
               (with_promos
                  (with_users_promos db
                     (<[(user_id, promo_id) := x]> (users_promos db)))
                  (<[promo_id := set_like_count promo (like_count promo + d)]>
                     (promos db)))
             = likes_of promo_id db + d ->
             counters_consistent
               (with_promos
                  (with_users_promos db
                     (<[(user_id, promo_id) := x]> (users_promos db)))
                  (<[promo_id := set_like_count promo (like_count promo + d)]>
                     (promos db)))) as Hstep.
  { intros x promo d Hp Hl q promo' Hq. simpl in Hq.
    destruct (decide (promo_id = q)) as [<-|Hne].
    - rewrite lookup_insert_eq in Hq. injection Hq as <-. simpl.
      rewrite Hl, (Hc _ _ Hp). reflexivity.
    - rewrite lookup_insert_ne in Hq by exact Hne.
      rewrite (likes_of_insert_other q (user_id, promo_id)) by exact Hne.
      apply Hc. exact Hq. }
  destruct Hop as [H|H].
  - unfold UserService_like_promo in H.
    destruct (promos db !! promo_id) as [promo|] eqn:Hp;
      [|injection H as _ <-; exact Hc].
    destruct (users_promos db !! (user_id, promo_id)) as [row|] eqn:Er.
    + destruct (liked row) eqn:El; simpl in H; injection H as _ <-; [exact Hc|].
      apply Hstep; [reflexivity|].
      apply (likes_of_insert_liked (user_id, promo_id)); [reflexivity|].
      rewrite Er. intros y [= <-]. exact El.
    + injection H as _ <-. apply Hstep; [reflexivity|].
      apply (likes_of_insert_liked (user_id, promo_id)); [reflexivity|].
      rewrite Er. discriminate.
  - unfold UserService_unlike_promo in H.
    destruct (promos db !! promo_id) as [promo|] eqn:Hp;
      [|injection H as _ <-; exact Hc].
    destruct (users_promos db !! (user_id, promo_id)) as [row|] eqn:Er;
      [|injection H as _ <-; exact Hc].
    destruct (liked row) eqn:El; injection H as _ <-; [|exact Hc].
    apply (Hstep _ promo (-1)); [reflexivity|].
    apply (likes_of_insert_unliked (user_id, promo_id) _ row);
      [reflexivity|exact Er|exact El].
Qed.

(** X12.  [like_promo] and [unlike_promo] write nothing but the [liked]
    flag of the caller's engagement row for that promo and the
    [like_count] of that promo: the other tables, the other promos, the
    other engagement rows, the other columns of the promo and the
    [activated] flag of the row are as before. *)
Theorem like_unlike_frame
    (user_id promo_id : string) (db db' : Database) (res : Result unit) :
  UserService_like_promo user_id promo_id db = (res, db')
  \/ UserService_unlike_promo user_id promo_id db = (res, db') ->
  companies db' = companies db
  /\ users db' = users db
  /\ comments db' = comments db
  /\ (forall q : string, q <> promo_id -> promos db' !! q = promos db !! q)
  /\ (forall k : string * string,
        k <> (user_id, promo_id) -> users_promos db' !! k = users_promos db !! k)
  /\ (forall promo' : PromocodeORM,
        promos db' !! promo_id = Some promo' ->
        exists promo : PromocodeORM,
          promos db !! promo_id = Some promo
          /\ promo' = set_like_count promo (like_count promo'))
  /\ (forall row row' : PromoUserORM,
        users_promos db !! (user_id, promo_id) = Some row ->
        users_promos db' !! (user_id, promo_id) = Some row' ->
        row' = set_liked row (liked row')).
Proof.
  assert (forall (x : option PromoUserORM -> PromoUserORM) (promo : PromocodeORM)
                 (c : Z),
             promos db !! promo_id = Some promo ->
             (forall row, users_promos db !! (user_id, promo_id) = Some row ->
                exists b, x (Some row) = set_liked row b) ->
             db' = with_promos
                     (with_users_promos db
                        (<[(user_id, promo_id)
                           := x (users_promos db !! (user_id, promo_id))]>
                           (users_promos db)))
                     (<[promo_id := set_like_count promo c]> (promos db)) ->
             companies db' = companies db
             /\ users db' = users db
             /\ comments db' = comments db
             /\ (forall q : string, q <> promo_id -> promos db' !! q = promos db !! q)
             /\ (forall k : string * string,
                   k <> (user_id, promo_id) ->
                   users_promos db' !! k = users_promos db !! k)
             /\ (forall promo' : PromocodeORM,
                   promos db' !! promo_id = Some promo' ->
                   exists promo : PromocodeORM,
                     promos db !! promo_id = Some promo
                     /\ promo' = set_like_count promo (like_count promo'))
             /\ (forall row row' : PromoUserORM,
                   users_promos db !! (user_id, promo_id) = Some row ->
                   users_promos db' !! (user_id, promo_id) = Some row' ->
                   row' = set_liked row (liked row'))) as Hwrite.
  { intros x promo c Hp Hx ->. simpl.
    split; [reflexivity|]. split; [reflexivity|]. split; [reflexivity|].
    split; [intros q Hq; apply lookup_insert_ne; congruence|].
    split; [intros k Hk; apply lookup_insert_ne; congruence|].
    split.
    - intros promo'. rewrite lookup_insert_eq. intros [= <-].
      exists promo. split; [exact Hp|]. destruct promo; reflexivity.
    - intros row row' Hr. rewrite lookup_insert_eq, Hr. intros [= <-].
      destruct (Hx row Hr) as [b ->]. destruct row; reflexivity. }
  assert (db' = db ->
          companies db' = companies db
          /\ users db' = users db
          /\ comments db' = comments db
          /\ (forall q : string, q <> promo_id -> promos db' !! q = promos db !! q)
          /\ (forall k : string * string,
                k <> (user_id, promo_id) ->
                users_promos db' !! k = users_promos db !! k)
          /\ (forall promo' : PromocodeORM,
                promos db' !! promo_id = Some promo' ->
                exists promo : PromocodeORM,
                  promos db !! promo_id = Some promo
                  /\ promo' = set_like_count promo (like_count promo'))
          /\ (forall row row' : PromoUserORM,
                users_promos db !! (user_id, promo_id) = Some row ->
                users_promos db' !! (user_id, promo_id) = Some row' ->
                row' = set_liked row (liked row'))) as Hsame.
  { intros ->. repeat (split; [reflexivity || (intros; reflexivity)|]).
    split.
    - intros promo' Hp. exists promo'. split; [exact Hp|].
      destruct promo'; reflexivity.
    - intros row row' Hr Hr'. rewrite Hr in Hr'. injection Hr' as <-.
      destruct row; reflexivity. }
  intros [H|H].
  - unfold UserService_like_promo in H.
    destruct (promos db !! promo_id) as [promo|] eqn:Hp;
      [|injection H as _ <-; apply Hsame; reflexivity].
    destruct (users_promos db !! (user_id, promo_id)) as [row|] eqn:Er.
    + destruct (liked row) eqn:El; simpl in H; injection H as _ <-;
        [apply Hsame; reflexivity|].
      apply (Hwrite (fun o => match o with
                              | Some row => set_liked row true
                              | None => mkPromoUser user_id promo_id false true
                              end) promo (like_count promo + 1));
        [reflexivity| |reflexivity].
      intros row0 _. eauto.
    + injection H as _ <-.
      apply (Hwrite (fun o => match o with
                              | Some row => set_liked row true
                              | None => mkPromoUser user_id promo_id false true
                              end) promo (like_count promo + 1));
        [reflexivity| |reflexivity].
      intros row0 _. eauto.
  - unfold UserService_unlike_promo in H.
    destruct (promos db !! promo_id) as [promo|] eqn:Hp;
      [|injection H as _ <-; apply Hsame; reflexivity].
    destruct (users_promos db !! (user_id, promo_id)) as [row|] eqn:Er;
      [|injection H as _ <-; apply Hsame; reflexivity].
    destruct (liked row) eqn:El; injection H as _ <-;
      [|apply Hsame; reflexivity].
    apply (Hwrite (fun o => match o with
                            | Some row => set_liked row false
                            | None => mkPromoUser user_id promo_id false false
                            end) promo (like_count promo - 1));
      [reflexivity| |reflexivity].
    intros row0 _. eauto.
Qed.

(** X13.  A like shows up in [get_promo]: after [user_id] likes a promo,
    any viewer's view of it is the view from before with [like_count]
    raised by one (by nothing if [user_id] already liked it) and, for
    [user_id] alone, [is_liked_by_user] true; the comment count, the
    activation flag and the other fields are unchanged. *)
Theorem like_shows_in_get_promo
    (user_id viewer promo_id : string) (db : Database) (v w : PromoForUser) :
  UserService_get_promo user_id promo_id db = Ok v ->
  UserService_get_promo viewer promo_id db = Ok w ->
  exists db1 : Database,
    UserService_like_promo user_id promo_id db = (Ok tt, db1)
    /\ UserService_get_promo viewer promo_id db1
       = Ok {| pfu_promo_id := pfu_promo_id w;
               pfu_company_id := pfu_company_id w;
               pfu_company_name := pfu_company_name w;
               pfu_description := pfu_description w;
               pfu_image_url := pfu_image_url w;
               pfu_active := pfu_active w;
               pfu_is_activated_by_user := pfu_is_activated_by_user w;
               pfu_like_count :=
                 pfu_like_count w + (if pfu_is_liked_by_user v then 0 else 1);
               pfu_is_liked_by_user :=
                 if decide (viewer = user_id) then true
                 else pfu_is_liked_by_user w;
               pfu_comment_count := pfu_comment_count w |}.
Proof.
  unfold UserService_get_promo, UserService_like_promo.
  destruct (promos db !! promo_id) as [promo|] eqn:Hp; [|discriminate].
  destruct (companies db !! company_id promo) as [company|] eqn:Hco;
    [|discriminate].
  intros [= <-] [= <-]. simpl.
  destruct (users_promos db !! (user_id, promo_id)) as [row|] eqn:Er.
  - destruct (liked row) eqn:El; simpl.
    + exists db. split; [reflexivity|]. rewrite Hp, Hco.
      destruct (decide (viewer = user_id)) as [->|Hne].
      * rewrite Er, El, Z.add_0_r. reflexivity.
      * rewrite Z.add_0_r. reflexivity.
    + eexists. split; [reflexivity|]. simpl.
      rewrite lookup_insert_eq. simpl. rewrite Hco.
      destruct (decide (viewer = user_id)) as [->|Hne].
      * rewrite lookup_insert_eq, Er. simpl. destruct row; reflexivity.
      * rewrite lookup_insert_ne by congruence. reflexivity.
  - eexists. split; [reflexivity|]. simpl.
    rewrite lookup_insert_eq. simpl. rewrite Hco.
    destruct (decide (viewer = user_id)) as [->|Hne].
    + rewrite lookup_insert_eq, Er. reflexivity.
    + rewrite lookup_insert_ne by congruence. reflexivity.
Qed.

(** *** What validation lets through *)

Lemma PromoCreateRequest_validate_fields (b b' : PromoCreateRequest) :
  PromoCreateRequest_validate b = Ok b' ->
  in_range 10 300 (len (cr_description b')) = true
  /\ (forall u, cr_image_url b' = Some u -> (len u <=? 350) = true)
  /\ ((0 <? cr_max_count b') && (cr_max_count b' <=? 100000000) = true)
  /\ (forall c, cr_promo_common b' = Some c -> in_range 5 30 (len c) = true)
  /\ (forall l, cr_promo_unique b' = Some l ->
        in_range 1 5000 (Z.of_nat (length l)) = true
        /\ forallb UniquePromoCode_ok l = true).
Proof.
  unfold PromoCreateRequest_validate. intros H.
  apply bind_ok in H as ([d [u [t [n [pc pu]]]]] & H & Hc).
  apply and_then_ok in H as [Hd H]. apply and_then_ok in H as [Hu H].
  apply and_then_ok in H as [_ H]. apply and_then_ok in H as [Hn H].
  apply and_then_ok in H as [Hpc Hpu].
  assert (b' = {| cr_description := d; cr_image_url := u; cr_target := t;
                  cr_max_count := n; cr_active_from := cr_active_from b;
                  cr_active_until := cr_active_until b; cr_mode := cr_mode b;
                  cr_promo_common := pc; cr_promo_unique := pu |}) as ->.
  { unfold check_promo_codes in Hc. apply bind_ok in Hc as (_ & _ & Hc).
    simpl in Hc.
    destruct (cr_active_from b), (cr_active_until b);
      try (destruct (date_ge _ _)); congruence. }
  simpl.
  apply require_ok in Hd as [Hd ->]. apply require_ok in Hn as [Hn ->].
  split; [exact Hd|]. split.
  { intros u' ->. apply validate_option_ok in Hu.
    destruct (cr_image_url b) as [u0|]; [|discriminate].
    destruct Hu as (x & Hx & [= ->]). unfold image_url_check in Hx.
    apply bind_ok in Hx as (y & Hy & Hv). apply require_ok in Hy as [Hy ->].
    unfold val_httpurl in Hv. destruct (_ && _); [discriminate|].
    injection Hv as <-. exact Hy. }
  split; [exact Hn|]. split.
  { intros c ->. apply validate_option_ok in Hpc.
    destruct (cr_promo_common b) as [c0|]; [|discriminate].
    destruct Hpc as (x & Hx & [= ->]). apply require_ok in Hx as [Hx ->].
    exact Hx. }
  intros l ->. apply validate_option_ok in Hpu.
  destruct (cr_promo_unique b) as [l0|]; [|discriminate].
  destruct Hpu as (x & Hx & [= ->]). apply require_ok in Hx as [Hx ->].
  apply andb_prop in Hx. exact Hx.
Qed.

(** X14.  Every promo the create route stores has exactly one kind of
    code.  In mode COMMON it has a shared code of 5 to 30 characters and no
    unique codes; in mode UNIQUE it has no shared code, between 1 and 5000
    unique codes of 3 to 30 characters each, all active, and a [max_count]
    other than 1.  Its [max_count] is between 1 and 100000000, its window
    is ordered when it has both dates, and it starts active with no likes
    and no uses. *)
Theorem stored_promo_has_one_kind_of_code
    (body : PromoCreateRequest) (cid nid i : string) (db db' : Database) :
  post_promo body cid nid db = (Ok i, db') ->
  exists row : PromocodeORM,
    promos db' !! i = Some row
    /\ i = nid
    /\ match mode row with
       | COMMON =>
           (exists c : string,
               promo_common row = Some c /\ 5 <= len c <= 30)
           /\ unique_promos row = []
       | UNIQUE =>
           promo_common row = None
           /\ (1 <= length (unique_promos row) <= 5000)%nat
           /\ Forall (fun u => 3 <= len (promocode u) <= 30 /\ is_active u = true)
                     (unique_promos row)
           /\ max_count row <> 1
       end
    /\ 1 <= max_count row <= 100000000
    /\ (forall af au, active_from row = Some af -> active_until row = Some au ->
          date_lt af au = true)
    /\ active row = true /\ like_count row = 0 /\ used_count row = 0.
Proof.
  unfold post_promo.
  destruct (PromoCreateRequest_validate body) as [data|e] eqn:Ev; [|discriminate].
  pose proof (PromoCreateRequest_validate_fields _ _ Ev)
    as (_ & _ & Hn & Hpc & Hpu).
  apply PromoCreateRequest_validate_ok in Ev as (Hc & _).
  apply check_promo_codes_ok in Hc as [Hm Hd].
  unfold create_promo. destruct (promos db !! nid) eqn:Hf; [discriminate|].
  intros [= <- <-]. eexists. split; [apply lookup_insert_eq|]. simpl.
  split; [reflexivity|]. split.
  { destruct (cr_mode data).
    - destruct Hm as [Hc1 Hu1].
      destruct (cr_promo_common data) as [c|] eqn:Ec; [|discriminate].
      split; [|reflexivity]. exists c. split; [reflexivity|].
      specialize (Hpc c eq_refl). unfold in_range in Hpc.
      apply andb_prop in Hpc as [H1 H2]. apply Z.leb_le in H1, H2. lia.
    - destruct Hm as (Hmax & Hu1 & Hc1).
      destruct (cr_promo_unique data) as [l|] eqn:El; [|discriminate].
      destruct (Hpu l eq_refl) as [Hlen Hall]. simpl.
      split.
      { destruct (cr_promo_common data) as [c|] eqn:Ec; [|reflexivity].
        specialize (Hpc c eq_refl). destruct c; [discriminate Hpc|discriminate Hc1]. }
      split.
      { rewrite length_fmap. unfold in_range in Hlen.
        apply andb_prop in Hlen as [H1 H2]. apply Z.leb_le in H1, H2. lia. }
      split; [|exact Hmax].
      apply Forall_fmap. apply Forall_forall. intros c Hin. simpl.
      split; [|reflexivity].
      rewrite forallb_forall in Hall. apply list_elem_of_In in Hin.
      specialize (Hall c Hin). unfold UniquePromoCode_ok, in_range in Hall.
      apply andb_prop in Hall as [H1 H2]. apply Z.leb_le in H1, H2. lia. }
  split.
  { apply andb_prop in Hn as [H1 H2]. apply Z.ltb_lt in H1. apply Z.leb_le in H2.
    lia. }
  split; [|auto].
  intros af au Haf Hau.
  rewrite <- (negb_involutive (date_lt af au)), <- date_ge_lt.
  rewrite (Hd af au Haf Hau). reflexivity.
Qed.

(** X15.  The URL pattern never decides anything for a promo image: the
    [image_url] check accepts a string exactly when it has at most 350
    characters, whatever the pattern says of it, because [val_httpurl]
    objects only to a string that both fails the pattern and is longer
    than 350. *)
Theorem image_url_pattern_never_enforced (u : string) :
  (val_httpurl u = Ok u <-> httpurl_pattern_match u = true \/ len u <= 350)
  /\ (image_url_check u = Ok u <-> len u <= 350)
  /\ (len u <= 350 -> httpurl_pattern_match u = false ->
      image_url_check u = Ok u /\ val_httpurl u = Ok u).
Proof.
  assert (val_httpurl u = Ok u <-> httpurl_pattern_match u = true \/ len u <= 350)
    as Hv.
  { unfold val_httpurl. destruct (httpurl_pattern_match u); simpl.
    - split; auto.
    - destruct (len u >? 350) eqn:E.
      + split; [discriminate|]. intros [H|H]; [discriminate|].
        apply Z.gtb_lt in E. lia.
      + split; [|reflexivity]. intros _. right.
        rewrite Z.gtb_ltb in E. apply Z.ltb_ge in E. exact E. }
  assert (image_url_check u = Ok u <-> len u <= 350) as Hi.
  { unfold image_url_check. destruct (len u <=? 350) eqn:E; simpl.
    - apply Z.leb_le in E. split; [auto|]. intros _. apply Hv. auto.
    - apply Z.leb_gt in E. split; [discriminate|lia]. }
  split; [exact Hv|]. split; [exact Hi|].
  intros Hlen _. split; [apply Hi, Hlen|apply Hv; auto].
Qed.

Lemma Target_validate_ages (t t1 : Target) (a1 b1 a2 b2 : Z) :
  Target_validate (target_with_ages t a1 b1) = Ok t1 ->
  in_range 0 100 a2 = true ->
  in_range 0 100 b2 = true ->
  Target_validate (target_with_ages t a2 b2) = Ok (target_with_ages t1 a2 b2).
Proof.
  unfold Target_validate. simpl. intros H Ha Hb. rewrite Ha, Hb.
  destruct (in_range 0 100 a1), (in_range 0 100 b1),
    (convert_country (t_country t)) as [c|[]],
    (validate_field _ (t_categories t)) as [cats|[]];
    simpl in *; try discriminate; injection H as <-; reflexivity.
Qed.

Lemma check_promo_codes_target (b : PromoCreateRequest) (t : Target) :
  check_promo_codes b = Ok b ->
  check_promo_codes (cr_with_target b t) = Ok (cr_with_target b t).
Proof.
  unfold check_promo_codes. simpl.
  destruct (match cr_mode b with COMMON => _ | UNIQUE => _ end); simpl;
    [|discriminate].
  destruct (cr_active_from b), (cr_active_until b);
    try destruct (date_ge _ _); try discriminate; reflexivity.
Qed.

(** X16.  Creation never compares the two ages of the target: a body
    that is accepted with one pair of ages is accepted with any other pair
    of ages between 0 and 100, in whatever order, and [create_promo]
    stores the pair as given.  Only [update_company_promo] compares
    them. *)
Theorem create_never_compares_ages
    (body r1 : PromoCreateRequest) (t : Target) (a1 b1 a2 b2 : Z)
    (cid nid : string) (db : Database) :
  PromoCreateRequest_validate (cr_with_target body (target_with_ages t a1 b1))
  = Ok r1 ->
  0 <= a2 <= 100 ->
  0 <= b2 <= 100 ->
  promos db !! nid = None ->
  exists row : PromocodeORM,
    post_promo (cr_with_target body (target_with_ages t a2 b2)) cid nid db
    = (Ok nid, with_promos db (<[nid := row]> (promos db)))
    /\ age_from row = Some a2
    /\ age_until row = Some b2.
Proof.
  intros H Ha Hb Hfresh.
  assert (in_range 0 100 a2 = true) as Ha'
    by (unfold in_range; apply andb_true_intro; split; apply Z.leb_le; lia).
  assert (in_range 0 100 b2 = true) as Hb'
    by (unfold in_range; apply andb_true_intro; split; apply Z.leb_le; lia).
  unfold PromoCreateRequest_validate in H. simpl in H.
  apply bind_ok in H as ([d [u [t1 [n [pc pu]]]]] & H & Hc).
  apply and_then_ok in H as [Hd H]. apply and_then_ok in H as [Hu H].
  apply and_then_ok in H as [Ht H]. apply and_then_ok in H as [Hn H].
  apply and_then_ok in H as [Hpc Hpu].
  apply bind_ok in Ht as (t1' & Ht & [= <-]).
  pose proof (Target_validate_ages _ _ _ _ _ _ Ht Ha' Hb') as Ht2.
  assert (check_promo_codes
            {| cr_description := d; cr_image_url := u; cr_target := Some t1';
               cr_max_count := n; cr_active_from := cr_active_from body;
               cr_active_until := cr_active_until body; cr_mode := cr_mode body;
               cr_promo_common := pc; cr_promo_unique := pu |}
          = Ok {| cr_description := d; cr_image_url := u; cr_target := Some t1';
                  cr_max_count := n; cr_active_from := cr_active_from body;
                  cr_active_until := cr_active_until body;
                  cr_mode := cr_mode body;
                  cr_promo_common := pc; cr_promo_unique := pu |}) as Hc'.
  { revert Hc. unfold check_promo_codes. simpl.
    destruct (match cr_mode body with COMMON => _ | UNIQUE => _ end); simpl;
      [|discriminate].
    destruct (cr_active_from body), (cr_active_until body);
      try destruct (date_ge _ _); try discriminate; reflexivity. }
  apply (check_promo_codes_target _ (target_with_ages t1' a2 b2)) in Hc'.
  unfold post_promo, PromoCreateRequest_validate. simpl.
  rewrite Hd, Hu, Ht2, Hn, Hpc, Hpu. simpl.
  unfold cr_with_target in Hc'. simpl in Hc'. rewrite Hc'.
  unfold create_promo. rewrite Hfresh. simpl.
  eexists. split; [reflexivity|]. simpl. auto.
Qed.

(** *** [create_promo] and [get_company_promo_by_id] together *)

Lemma fmap_promocode_new (l : list string) :
  promocode <$> ((fun un_promo => mkUniquePromocode un_promo true) <$> l) = l.
Proof. induction l as [|x l IH]; simpl; [reflexivity|]. f_equal. exact IH. Qed.

Lemma fmap_category_name_new (l : list string) :
  category_name <$> (mkCategory <$> l) = l.
Proof. induction l as [|x l IH]; simpl; [reflexivity|]. f_equal. exact IH. Qed.

(** X17.  What [create_promo] stored is what its owner reads back: the
    request's description, limits, dates, mode and codes, the target
    fields (absent ones as null, no categories as the empty list), the
    text of [image_url], and the initial state (active, no likes, no
    uses); the unique codes come back only in mode UNIQUE.  Any other
    company asking for the same promo gets 403. *)
Theorem create_then_get
    (data : PromoCreateRequest) (cid nid i : string) (db db' : Database) :
  create_promo data cid nid db = (Ok i, db') ->
  (exists dto : PromoDTO,
      get_company_promo_by_id cid i db' = Ok dto
      /\ dto_id dto = nid /\ i = nid
      /\ dto_company_id dto = cid
      /\ dto_description dto = cr_description data
      /\ dto_image_url dto = Some (py_str (cr_image_url data))
      /\ dto_max_count dto = cr_max_count data
      /\ dto_active_from dto = cr_active_from data
      /\ dto_active_until dto = cr_active_until data
      /\ dto_mode dto = cr_mode data
      /\ dto_promo_common dto = cr_promo_common data
      /\ dto_promo_unique dto
         = match cr_mode data, cr_promo_unique data with
           | UNIQUE, Some (c :: l) => Some (c :: l)
           | _, _ => None
           end
      /\ value (t_age_from (dto_target dto))
         = match cr_target data with Some t => value (t_age_from t) | None => None end
      /\ value (t_age_until (dto_target dto))
         = match cr_target data with Some t => value (t_age_until t) | None => None end
      /\ value (t_country (dto_target dto))
         = match cr_target data with Some t => value (t_country t) | None => None end
      /\ value (t_categories (dto_target dto))
         = Some match cr_target data with
                | Some t => default [] (value (t_categories t))
                | None => []
                end
      /\ dto_active dto = true
      /\ dto_like_count dto = 0
      /\ dto_used_count dto = 0)
  /\ (forall other : string,
        other <> cid ->
        get_company_promo_by_id other i db'
        = Raise (HTTPException HTTP_403_FORBIDDEN)).
Proof.
  unfold create_promo. destruct (promos db !! nid) eqn:Hf; [discriminate|].
  intros [= <- <-]. unfold get_company_promo_by_id. simpl.
  rewrite lookup_insert_eq. simpl. split.
  - rewrite String.eqb_refl. simpl. eexists. split; [reflexivity|]. simpl.
    repeat (split; [reflexivity|]).
    split.
    { destruct (cr_mode data); [destruct (cr_promo_unique data) as [[|]|]; reflexivity|].
      destruct (cr_promo_unique data) as [[|c l]|]; simpl; try reflexivity.
      rewrite fmap_promocode_new. reflexivity. }
    repeat (split; [reflexivity|]).
    split; [|auto].
    rewrite fmap_category_name_new. reflexivity.
  - intros other Hne.
    destruct (String.eqb_spec cid other); [congruence|reflexivity].
Qed.

(** X18.  [create_promo] refuses an identifier that is taken with
    [IntegrityError] and writes nothing; when it succeeds it adds one row
    and leaves every other promo, and every other table, as it was, so
    each promo that could be read before reads the same afterwards. *)
Theorem create_promo_frame
    (data : PromoCreateRequest) (cid nid : string) (db db' : Database)
    (res : Result string) :
  create_promo data cid nid db = (res, db') ->
  match promos db !! nid with
  | Some _ => res = Raise IntegrityError /\ db' = db
  | None =>
      res = Ok nid
      /\ companies db' = companies db
      /\ users db' = users db
      /\ users_promos db' = users_promos db
      /\ comments db' = comments db
      /\ (forall q : string, q <> nid -> promos db' !! q = promos db !! q)
      /\ (forall c q : string,
            is_ok (get_company_promo_by_id c q db) = true ->
            get_company_promo_by_id c q db' = get_company_promo_by_id c q db)
  end.
Proof.
  unfold create_promo. destruct (promos db !! nid) eqn:Hf.
  - intros [= <- <-]. auto.
  - intros [= <- <-]. simpl. repeat (split; [reflexivity|]).
    split; [intros q Hq; apply lookup_insert_ne; congruence|].
    intros c q Hok. unfold get_company_promo_by_id in *. simpl.
    destruct (decide (q = nid)) as [->|Hne].
    + rewrite Hf in Hok. discriminate.
    + rewrite lookup_insert_ne by congruence. reflexivity.
Qed.

(** *** [update_company_promo]: what a patch writes *)

(** What a patched column holds: the value the request gives, or else
    the stored one. *)
Lemma apply_update_data_fields (data : PromoPatch) (m : PromocodeORM) :
  let m' := apply_update_data (PromoPatch_model_dump data) m in
  id m' = id m /\ company_id m' = company_id m /\ mode m' = mode m
  /\ active m' = active m /\ like_count m' = like_count m
  /\ used_count m' = used_count m /\ promo_common m' = promo_common m
  /\ unique_promos m' = unique_promos m /\ categories m' = categories m
  /\ age_from m' = age_from m /\ age_until m' = age_until m
  /\ country m' = country m
  /\ description m' = default (description m) (value (pp_description data))
  /\ image_url m'
     = match value (pp_image_url data) with
       | Some u => Some u
       | None => image_url m
       end
  /\ max_count m' = default (max_count m) (value (pp_max_count data)).
Proof.
  unfold apply_update_data, PromoPatch_model_dump.
  case_fields; simpl; repeat split; reflexivity.
Qed.

Lemma apply_target_fields (target : option Target) (m : PromocodeORM) :
  let m' := apply_target target m in
  id m' = id m /\ company_id m' = company_id m /\ mode m' = mode m
  /\ active m' = active m /\ like_count m' = like_count m
  /\ used_count m' = used_count m /\ promo_common m' = promo_common m
  /\ unique_promos m' = unique_promos m
  /\ description m' = description m /\ image_url m' = image_url m
  /\ max_count m' = max_count m
  /\ age_from m'
     = match target with
       | Some {| t_age_from := Given v |} => v
       | _ => age_from m
       end
  /\ age_until m'
     = match target with
       | Some {| t_age_until := Given v |} => v
       | _ => age_until m
       end
  /\ country m'
     = match target with
       | Some {| t_country := Given v |} => v
       | _ => country m
       end
  /\ categories m'
     = match target with
       | Some {| t_categories := Given (Some cats) |} => mkCategory <$> cats
       | _ => categories m
       end.
Proof.
  destruct target as [[af au c cats]|]; [|simpl; repeat split; reflexivity].
  unfold apply_target, Target_model_dump. simpl.
  destruct af as [|[?|]], au as [|[?|]], c as [|[?|]], cats as [|[?|]];
    simpl; repeat split; reflexivity.
Qed.

Lemma update_ok_inv (data : PromoPatch) (cid pid : string) (db db' : Database)
    (dto : PromoDTO) :
  update_company_promo data cid pid db = (Ok dto, db') ->
  exists model : PromocodeORM,
    promos db !! pid = Some model
    /\ company_id model = cid
    /\ window_violated (merged data model) = false
    /\ age_violated (merged data model) = false
    /\ dto = PromoDTO_of (merged data model)
    /\ db' = with_promos db (<[pid := merged data model]> (promos db)).
Proof.
  unfold update_company_promo.
  destruct (promos db !! pid) as [model|]; [|discriminate].
  destruct (String.eqb_spec (company_id model) cid) as [Ho|]; [|discriminate].
  simpl.
  destruct (window_violated _) eqn:Ew; [discriminate|].
  destruct (age_violated _) eqn:Ea; [discriminate|].
  intros [= <- <-]. exists model. auto 10.
Qed.

(** X19.  A patch can change a promo's description, image, limit, dates
    and target, and nothing else: the row it stores has the identifier,
    owner, mode, shared code, unique codes, active flag, like count and use
    count of the row that was there. *)
Theorem patch_never_changes_identity
    (data : PromoPatch) (cid pid : string) (db db' : Database) (dto : PromoDTO) :
  update_company_promo data cid pid db = (Ok dto, db') ->
  exists model row : PromocodeORM,
    promos db !! pid = Some model
    /\ promos db' !! pid = Some row
    /\ id row = id model
    /\ company_id row = company_id model
    /\ mode row = mode model
    /\ promo_common row = promo_common model
    /\ unique_promos row = unique_promos model
    /\ active row = active model
    /\ like_count row = like_count model
    /\ used_count row = used_count model.
Proof.
  intros H. apply update_ok_inv in H as (model & Hl & _ & _ & _ & _ & ->).
  exists model, (merged data model). split; [exact Hl|].
  split; [apply lookup_insert_eq|]. unfold merged.
  destruct (apply_target_fields (pp_target data)
              (apply_update_data (PromoPatch_model_dump data) model))
    as (-> & -> & -> & -> & -> & -> & -> & -> & _).
  destruct (apply_update_data_fields data model)
    as (-> & -> & -> & -> & -> & -> & -> & -> & _).
  repeat split; reflexivity.
Qed.

(** X20.  How a patch merges.  A top-level field of the request replaces
    the stored value only when it is given and not null: a null there
    changes nothing, so description, image, limit and dates can never be
    cleared.  Inside [target] a field that is given is written as it is, so
    a null age or country clears the stored one; the categories are
    replaced as a whole when given and not null.  A field the request does
    not mention keeps its stored value. *)
Theorem patch_merge_semantics
    (data : PromoPatch) (cid pid : string) (db db' : Database) (dto : PromoDTO) :
  update_company_promo data cid pid db = (Ok dto, db') ->
  exists model row : PromocodeORM,
    promos db !! pid = Some model
    /\ promos db' !! pid = Some row
    /\ dto = PromoDTO_of row
    /\ description row = default (description model) (value (pp_description data))
    /\ image_url row
       = match value (pp_image_url data) with
         | Some u => Some u
         | None => image_url model
         end
    /\ max_count row = default (max_count model) (value (pp_max_count data))
    /\ active_from row = effective (pp_active_from data) (active_from model)
    /\ active_until row = effective (pp_active_until data) (active_until model)
    /\ age_from row
       = match pp_target data with
         | Some {| t_age_from := Given v |} => v
         | _ => age_from model
         end
    /\ age_until row
       = match pp_target data with
         | Some {| t_age_until := Given v |} => v
         | _ => age_until model
         end
    /\ country row
       = match pp_target data with
         | Some {| t_country := Given v |} => v
         | _ => country model
         end
    /\ categories row
       = match pp_target data with
         | Some {| t_categories := Given (Some cats) |} => mkCategory <$> cats
         | _ => categories model
         end.
Proof.
  intros H. apply update_ok_inv in H as (model & Hl & _ & _ & _ & -> & ->).
  exists model, (merged data model). split; [exact Hl|].
  split; [apply lookup_insert_eq|]. split; [reflexivity|].
  destruct (merged_window data model) as [Hf Hu]. rewrite Hf, Hu. clear Hf Hu.
  unfold merged.
  destruct (apply_target_fields (pp_target data)
              (apply_update_data (PromoPatch_model_dump data) model))
    as (_ & _ & _ & _ & _ & _ & _ & _ & -> & -> & -> & -> & -> & -> & ->).
  destruct (apply_update_data_fields data model)
    as (_ & _ & _ & _ & _ & _ & _ & _ & -> & -> & -> & -> & -> & -> & ->).
  repeat split; reflexivity.
Qed.

(** X21.  A patch that is turned down writes nothing: 404 when the promo
    does not exist, 403 when it belongs to another company (whatever the
    request asks for), 404 again when the merged row fails the window or
    the age check.  A patch that succeeds rewrites the one row: the other
    promos and the other tables are as before, and the owner then reads
    back from [get_company_promo_by_id] the very DTO the patch returned. *)
Theorem patch_failure_and_frame
    (data : PromoPatch) (cid pid : string) (db db' : Database)
    (res : Result PromoDTO) :
  update_company_promo data cid pid db = (res, db') ->
  match res with
  | Raise e =>
      db' = db
      /\ match promos db !! pid with
         | None => e = HTTPException HTTP_404_NOT_FOUND
         | Some model =>
             if String.eqb (company_id model) cid
             then e = HTTPException HTTP_404_NOT_FOUND
             else e = HTTPException HTTP_403_FORBIDDEN
         end
  | Ok dto =>
      companies db' = companies db
      /\ users db' = users db
      /\ users_promos db' = users_promos db
      /\ comments db' = comments db
      /\ (forall q : string, q <> pid -> promos db' !! q = promos db !! q)
      /\ get_company_promo_by_id cid pid db' = Ok dto
  end.
Proof.
  unfold update_company_promo.
  destruct (promos db !! pid) as [model|] eqn:Hl; [|intros [= <- <-]; auto].
  destruct (String.eqb (company_id model) cid) eqn:Ho; simpl;
    [|intros [= <- <-]; auto].
  destruct (window_violated _); [intros [= <- <-]; auto|].
  destruct (age_violated _); [intros [= <- <-]; auto|].
  intros [= <- <-]. simpl. repeat (split; [reflexivity|]).
  split; [intros q Hq; apply lookup_insert_ne; congruence|].
  unfold get_company_promo_by_id. simpl. rewrite lookup_insert_eq.
  unfold merged.
  destruct (apply_target_fields (pp_target data)
              (apply_update_data (PromoPatch_model_dump data) model))
    as (_ & Hc & _).
  destruct (apply_update_data_fields data model) as (_ & Hc' & _).
  simpl in Hc, Hc'. rewrite Hc, Hc', Ho. reflexivity.
Qed.

(** *** Company sign-up *)

Lemma select_where_insert_fresh {V : Type} (p : V -> bool)
    (m : gmap string V) (k : string) (x : V) :
  m !! k = None ->
  select_where p (<[k := x]> m)
  ≡ₚ (if p x then [x] else []) ++ select_where p m.
Proof.
  intros Hk. unfold select_where.
  rewrite (map_to_list_insert m k x Hk). rewrite fmap_cons. simpl.
  rewrite filter_cons. destruct (p x); simpl; reflexivity.
Qed.

Lemma scalar_one_or_none_None {A : Type} (rows : list A) :
  scalar_one_or_none rows = Ok None -> rows = [].
Proof. destruct rows as [|x [|y l]]; simpl; congruence. Qed.

Lemma scalar_one_or_none_perm {A : Type} (rows : list A) (x : A) :
  rows ≡ₚ [x] -> scalar_one_or_none rows = Ok (Some x).
Proof. intros H. apply Permutation_singleton_r in H. subst. reflexivity. Qed.

Lemma company_sign_up_ok_inv
    (company : CompanySignUpRequest) (salt new_id token_uuid : string) (now : Z)
    (db db' : Database) (r r' : Redis) (resp : CompanySignUpResponse) :
  CompanyService_company_sign_up company salt new_id token_uuid now db r
  = (Ok resp, db', r') ->
  let model :=
    mkCompany new_id (csu_name company) (csu_email company)
      (hashpw (csu_password company) salt) in
  select_where (fun c => String.eqb (company_email c) (csu_email company))
               (companies db) = []
  /\ companies db !! new_id = None
  /\ db' = with_companies db (<[new_id := model]> (companies db))
  /\ r' = sadd ("whitelist:companies:" +:+ new_id) token_uuid r
  /\ jwt_encode (mkPayload new_id token_uuid (now + 24 * 3600) false)
     = Some (sur_token resp)
  /\ sur_company_id resp = new_id.
Proof.
  unfold CompanyService_company_sign_up, get_company_by_email.
  destruct (scalar_one_or_none _) as [[c|]|e] eqn:Es; try discriminate.
  apply scalar_one_or_none_None in Es.
  unfold create_company. destruct (companies db !! new_id) eqn:Hf; [discriminate|].
  unfold create_access_token. simpl.
  destruct (jwt_encode _) as [tok|] eqn:Ee; [|discriminate].
  simpl. intros [= <- <- <-]. simpl. auto 10.
Qed.

(** X22.  How a company sign-up can fail, and what it has written by
    then.  An address that is registered gives 409, an identifier that is
    taken gives [IntegrityError], and nothing is written.  But the company
    row is committed before the token is made: when making the token fails
    (400), the company exists all the same, without a session, and a
    second attempt with the same address gives 409. *)
Theorem company_sign_up_failures
    (company : CompanySignUpRequest) (salt new_id token_uuid : string) (now : Z)
    (db db' : Database) (r r' : Redis) (e : PyError) :
  CompanyService_company_sign_up company salt new_id token_uuid now db r
  = (Raise e, db', r') ->
  r' = r
  /\ ((db' = db
       /\ (e = HTTPException HTTP_409_CONFLICT
           \/ e = MultipleResultsFound
           \/ e = IntegrityError))
      \/ (e = HTTPException HTTP_400_BAD_REQUEST
          /\ CompanyService_is_exist_in_db new_id db = false
          /\ CompanyService_is_exist_in_db new_id db' = true
          /\ forall salt2 id2 uuid2 now2,
               CompanyService_company_sign_up company salt2 id2 uuid2 now2 db' r
               = (Raise (HTTPException HTTP_409_CONFLICT), db', r))).
Proof.
  unfold CompanyService_company_sign_up at 1. unfold get_company_by_email.
  destruct (scalar_one_or_none _) as [[c|]|e'] eqn:Es.
  - intros [= <- <- <-]. auto 10.
  - apply scalar_one_or_none_None in Es.
    unfold create_company. destruct (companies db !! new_id) eqn:Hf.
    + intros [= <- <- <-]. auto 10.
    + unfold create_access_token. simpl.
      destruct (jwt_encode _) as [tok|]; simpl; [discriminate|].
      intros [= <- <- <-]. split; [reflexivity|]. right.
      split; [reflexivity|].
      unfold CompanyService_is_exist_in_db, get_company_by_id. simpl.
      rewrite Hf, lookup_insert_eq. split; [reflexivity|]. split; [reflexivity|].
      intros salt2 id2 uuid2 now2.
      unfold CompanyService_company_sign_up, get_company_by_email. simpl.
      rewrite (scalar_one_or_none_perm _
                 (mkCompany new_id (csu_name company) (csu_email company)
                    (hash_password (csu_password company) salt))).
      * reflexivity.
      * rewrite (select_where_insert_fresh _ _ _ _ Hf). simpl.
        rewrite String.eqb_refl, Es. reflexivity.
  - intros [= <- <- <-]. split; [reflexivity|]. left. split; [reflexivity|].
    right. left. unfold scalar_one_or_none in Es.
    destruct (select_where _ _) as [|x [|y l]]; congruence.
Qed.

(** X23.  A company that has signed up can sign in.  After a successful
    sign-up the company exists under the identifier the response carries,
    its stored password is the bcrypt hash and not the text that was sent,
    and the identifier of its token is listed; a sign-in with the same
    address and password then succeeds, provided bcrypt accepts the
    password against its own hash, and leaves the new token's identifier as
    the only one listed. *)
Theorem company_sign_up_then_sign_in
    (company : CompanySignUpRequest) (salt new_id token_uuid : string) (now : Z)
    (db db' : Database) (r r' : Redis) (resp : CompanySignUpResponse)
    (uuid2 token2 : string) (now2 : Z) :
  CompanyService_company_sign_up company salt new_id token_uuid now db r
  = (Ok resp, db', r') ->
  checkpw (csu_password company) (hashpw (csu_password company) salt) = true ->
  jwt_encode (mkPayload new_id uuid2 (now2 + 24 * 3600) false) = Some token2 ->
  sur_company_id resp = new_id
  /\ CompanyService_is_exist_in_db new_id db' = true
  /\ get_company_by_id new_id db'
     = Some (mkCompany new_id (csu_name company) (csu_email company)
               (hashpw (csu_password company) salt))
  /\ TokenWhiteList.check_jti_in_whitelist new_id token_uuid "company" r'
     = Ok true
  /\ exists r2 : Redis,
       CompanyService_company_sign_in
         (mkCompanySignInRequest (csu_email company) (csu_password company))
         uuid2 now2 db' r'
       = (Ok token2, r2)
       /\ smembers ("whitelist:companies:" +:+ new_id) r2 = {[uuid2]}.
Proof.
  intros H Hpw Henc.
  apply company_sign_up_ok_inv in H as (Hsel & Hf & -> & -> & _ & Hid).
  split; [exact Hid|].
  unfold CompanyService_is_exist_in_db, get_company_by_id. simpl.
  rewrite lookup_insert_eq. split; [reflexivity|]. split; [reflexivity|].
  split.
  { unfold TokenWhiteList.check_jti_in_whitelist. simpl. f_equal.
    unfold sismember. rewrite smembers_sadd, decide_True by reflexivity.
    apply bool_decide_eq_true. apply elem_of_union. left.
    apply elem_of_singleton. reflexivity. }
  unfold CompanyService_company_sign_in, rbind, rlift, get_company_by_email.
  simpl.
  rewrite (scalar_one_or_none_perm _
             (mkCompany new_id (csu_name company) (csu_email company)
                (hashpw (csu_password company) salt))).
  - unfold verify_password. simpl. rewrite Hpw. simpl.
    unfold create_access_token. rewrite Henc. simpl.
    eexists. split; [reflexivity|]. apply smembers_sadd_unlink.
  - rewrite (select_where_insert_fresh _ _ _ _ Hf). simpl.
    rewrite String.eqb_refl, Hsel. reflexivity.
Qed.

(** X24.  Sign-up keeps company addresses unique: if no two company rows
    share an address before [company_sign_up], none do after it, whatever
    its outcome; so [get_company_by_email] never meets several rows and a
    sign-in never stops with [MultipleResultsFound]. *)
Theorem company_sign_up_keeps_emails_unique
    (company : CompanySignUpRequest) (salt new_id token_uuid : string) (now : Z)
    (db db' : Database) (r r' : Redis) (res : Result CompanySignUpResponse) :
  company_emails_unique db ->
  CompanyService_company_sign_up company salt new_id token_uuid now db r
  = (res, db', r') ->
  company_emails_unique db'
  /\ forall email : string,
       get_company_by_email email db' <> Raise MultipleResultsFound.
Proof.
  intros Hu H.
  assert (company_emails_unique db') as Hu'.
  { revert H. unfold CompanyService_company_sign_up, get_company_by_email.
    destruct (scalar_one_or_none _) as [[c|]|e'] eqn:Es;
      try (intros [= _ <- _]; exact Hu).
    apply scalar_one_or_none_None in Es.
    unfold create_company. destruct (companies db !! new_id) eqn:Hf;
      [intros [= _ <- _]; exact Hu|].
    intros H.
    assert (db' = with_companies db
                    (<[new_id := mkCompany new_id (csu_name company)
                                   (csu_email company)
                                   (hash_password (csu_password company) salt)]>
                       (companies db))) as ->.
    { revert H. unfold create_access_token. simpl.
      destruct (jwt_encode _); simpl; intros [= _ <- _]; reflexivity. }
    intros email. simpl.
    rewrite (select_where_insert_fresh _ _ _ _ Hf). simpl.
    destruct (String.eqb_spec (csu_email company) email) as [<-|Hne]; simpl.
    - rewrite Es. simpl. lia.
    - apply Hu. }
  split; [exact Hu'|].
  intros email. unfold get_company_by_email, scalar_one_or_none.
  specialize (Hu' email).
  destruct (select_where _ _) as [|x [|y l]]; simpl in *; try discriminate. lia.
Qed.

Lemma date_ge_total (a b : date) : date_ge a b = true \/ date_ge b a = true.
Proof.
  unfold date_ge, date_cmp.
  destruct (Z.compare_spec (year a) (year b)),
           (Z.compare_spec (year b) (year a)); try lia; auto;
  destruct (Z.compare_spec (month a) (month b)),
           (Z.compare_spec (month b) (month a)); try lia; auto;
  destruct (Z.compare_spec (day a) (day b)),
           (Z.compare_spec (day b) (day a)); try lia; auto.
Qed.

Lemma date_ge_trans (a b c : date) :
  date_ge a b = true -> date_ge b c = true -> date_ge a c = true.
Proof.
  unfold date_ge, date_cmp.
  destruct (Z.compare_spec (year a) (year b)); try discriminate;
  destruct (Z.compare_spec (year b) (year c)); try discriminate;
  destruct (Z.compare_spec (year a) (year c)); try lia; auto;
  destruct (Z.compare_spec (month a) (month b)); try discriminate;
  destruct (Z.compare_spec (month b) (month c)); try discriminate;
  destruct (Z.compare_spec (month a) (month c)); try lia; auto;
  destruct (Z.compare_spec (day a) (day b)); try discriminate;
  destruct (Z.compare_spec (day b) (day c)); try discriminate;
  destruct (Z.compare_spec (day a) (day c)); try lia; auto.
Qed.

Lemma opt_date_ge_total (x y : option date) :
  opt_date_ge x y = true \/ opt_date_ge y x = true.
Proof. destruct x, y; simpl; auto using date_ge_total. Qed.

Lemma opt_date_ge_trans (x y z : option date) :
  opt_date_ge x y = true -> opt_date_ge y z = true -> opt_date_ge x z = true.
Proof. destruct x, y, z; simpl; eauto using date_ge_trans; discriminate. Qed.

Lemma date_desc_total key : Total (date_desc key).
Proof.
  intros a b. unfold date_desc.
  destruct (opt_date_ge_total (key a) (key b)) as [->| ->]; simpl; auto.
Qed.

Lemma date_desc_trans key : Transitive (date_desc key).
Proof.
  intros a b c. unfold date_desc. rewrite !Is_true_true.
  apply opt_date_ge_trans.
Qed.

Lemma date_desc_comment_total : Total date_desc_comment.
Proof. intros a b. unfold date_desc_comment. lia. Qed.

Lemma date_desc_comment_trans : Transitive date_desc_comment.
Proof. intros a b c. unfold date_desc_comment. lia. Qed.

Lemma StronglySorted_take_drop {A : Type} (R : relation A) (n k : nat) (l : list A) :
  StronglySorted R l -> StronglySorted R (take n (drop k l)).
Proof.
  intros H. rewrite <- (take_drop k l) in H.
  apply StronglySorted_app_1_r in H.
  rewrite <- (take_drop n (drop k l)) in H.
  apply StronglySorted_app_1_l in H. exact H.
Qed.

Lemma limit_offset_inv {A : Type} (limit offset : Z) (rows page : list A) :
  limit_offset limit offset rows = Returns page ->
  0 <= limit /\ 0 <= offset
  /\ page = take (Z.to_nat limit) (drop (Z.to_nat offset) rows).
Proof.
  unfold limit_offset.
  destruct (limit <? 0) eqn:El; [discriminate|].
  destruct (offset <? 0) eqn:Eo; [discriminate|]. simpl.
  apply Z.ltb_ge in El, Eo. intros [= <-]. auto.
Qed.

Lemma elem_of_select_where {K : Type} `{Countable K} {V : Type}
    (p : V -> bool) (t : gmap K V) (v : V) :
  v ∈ select_where p t <-> p v = true /\ exists k, t !! k = Some v.
Proof.
  unfold select_where. rewrite list_elem_of_filter, Is_true_true, list_elem_of_fmap.
  split.
  - intros [Hp ([k v'] & -> & Hin)]. split; [exact Hp|].
    exists k. apply elem_of_map_to_list in Hin. exact Hin.
  - intros [Hp [k Hk]]. split; [exact Hp|]. exists (k, v). split; [reflexivity|].
    apply elem_of_map_to_list. exact Hk.
Qed.

Lemma for_each_inv {A B : Type} (f : A -> Outcome B) (rows : list A) (ys : list B) :
  for_each f rows = Returns ys -> Forall2 (fun x y => f x = Returns y) rows ys.
Proof.
  revert ys. induction rows as [|x rest IH]; simpl; intros ys.
  - intros [= <-]. constructor.
  - destruct (f x) as [y|e] eqn:Ex; simpl; [|discriminate].
    destruct (for_each f rest) as [ys'|e]; simpl; [|discriminate].
    intros [= <-]. constructor; [exact Ex|]. apply IH. reflexivity.
Qed.

Lemma ordered_rows (sort_by : option SortBy) (rows : list PromocodeORM) :
  match sort_by with
  | None => rows
  | Some by_active_from => order_by_desc active_from rows
  | Some by_active_until => order_by_desc active_until rows
  end ≡ₚ rows.
Proof.
  destruct sort_by as [[]|]; unfold order_by_desc;
    auto using merge_sort_Permutation.
Qed.

(** X25.  Paging of a company's promo list.  The call fails only when the
    limit or the offset is negative, and then with the engine's error;
    otherwise the page holds exactly [min limit (max 0 (total - offset))]
    promos, where [total] is the count returned beside it. *)
Theorem get_company_promos_page_size
    (company_id_ : string) (fq : PromoFilterQueryParams) (db : Database) :
  match get_company_promos company_id_ fq db with
  | Throws e => e = DBAPIError /\ (fq_limit fq < 0 \/ fq_offset fq < 0)
  | Returns (total, page) =>
      0 <= fq_limit fq /\ 0 <= fq_offset fq
      /\ Z.of_nat (length page)
         = Z.min (fq_limit fq) (Z.max 0 (total - fq_offset fq))
  end.
Proof.
  unfold get_company_promos, limit_offset.
  destruct (fq_limit fq <? 0) eqn:El; simpl.
  { apply Z.ltb_lt in El. auto. }
  destruct (fq_offset fq <? 0) eqn:Eo; simpl.
  { apply Z.ltb_lt in Eo. auto. }
  apply Z.ltb_ge in El, Eo. split; [exact El|]. split; [exact Eo|].
  rewrite length_fmap, length_take, length_drop.
  rewrite (Permutation_length (ordered_rows _ _)). lia.
Qed.

(** X26.  What a company's promo list contains.  Every promo of the page
    is a stored promo of the asking company, from one of the countries
    asked for when the filter names any; the count beside the page does
    not depend on the limit, the offset or the sort key; and when a sort
    key is given the page runs from the latest date to the earliest, the
    promos without that date first. *)
Theorem get_company_promos_contents
    (company_id_ : string) (fq : PromoFilterQueryParams) (db : Database)
    (total : Z) (page : list PromoDTO) :
  get_company_promos company_id_ fq db = Returns (total, page) ->
  (forall dto, dto ∈ page ->
     exists k model,
       promos db !! k = Some model /\ dto = PromoDTO_of model
       /\ dto_company_id dto = company_id_
       /\ forall l, fq_country fq = Some l ->
            exists c, country model = Some c /\ c ∈ l)
  /\ (forall fq' total' page',
        fq_country fq' = fq_country fq ->
        get_company_promos company_id_ fq' db = Returns (total', page') ->
        total' = total)
  /\ (fq_sort_by fq = Some by_active_from ->
      StronglySorted
        (fun a b => opt_date_ge (dto_active_from a) (dto_active_from b) = true)
        page)
  /\ (fq_sort_by fq = Some by_active_until ->
      StronglySorted
        (fun a b => opt_date_ge (dto_active_until a) (dto_active_until b) = true)
        page).
Proof.
  unfold get_company_promos.
  destruct (limit_offset _ _ _) as [rows|e] eqn:El; simpl; [|discriminate].
  intros [= <- <-].
  apply limit_offset_inv in El as (_ & _ & ->).
  split; [|split; [|split]].
  - intros dto Hin. apply list_elem_of_fmap in Hin as (model & -> & Hin).
    apply subseteq_take, subseteq_drop in Hin.
    rewrite (ordered_rows _ _) in Hin.
    apply elem_of_select_where in Hin as [Hp [k Hk]].
    unfold promo_conditions in Hp. apply andb_true_iff in Hp as [Hc Hl].
    apply String.eqb_eq in Hc.
    exists k, model. split; [exact Hk|]. split; [reflexivity|].
    split; [exact Hc|].
    intros l Hfq. rewrite Hfq in Hl.
    destruct (country model) as [c|]; [|discriminate].
    exists c. split; [reflexivity|]. apply bool_decide_eq_true in Hl. exact Hl.
  - intros fq' total' page' Hc.
    destruct (limit_offset _ _ _) as [rows'|e] eqn:El'; simpl; [|discriminate].
    intros [= <- _]. unfold promo_conditions. rewrite Hc. reflexivity.
  - intros ->.
    apply (StronglySorted_fmap _ (date_desc active_from)).
    + intros x y. unfold date_desc. rewrite Is_true_true. auto.
    + apply StronglySorted_take_drop. unfold order_by_desc.
      apply StronglySorted_merge_sort;
        auto using date_desc_total, date_desc_trans.
  - intros ->.
    apply (StronglySorted_fmap _ (date_desc active_until)).
    + intros x y. unfold date_desc. rewrite Is_true_true. auto.
    + apply StronglySorted_take_drop. unfold order_by_desc.
      apply StronglySorted_merge_sort;
        auto using date_desc_total, date_desc_trans.
Qed.

Lemma StronglySorted_Forall2 {A B : Type} (P : A -> B -> Prop)
    (R1 : relation A) (R2 : relation B) (l1 : list A) (l2 : list B) :
  (forall x y x' y', P x y -> P x' y' -> R1 x x' -> R2 y y') ->
  Forall2 P l1 l2 -> StronglySorted R1 l1 -> StronglySorted R2 l2.
Proof.
  intros HR. induction 1 as [|x y l1 l2 Hxy HF IH]; intros Hs; [constructor|].
  apply StronglySorted_cons in Hs as [Hall Hs].
  constructor; [auto|].
  rewrite Forall_forall in Hall. apply Forall_forall. intros y' Hy'.
  apply list_elem_of_lookup_1 in Hy' as [i Hi].
  destruct (Forall2_lookup_r _ _ _ _ _ HF Hi) as (x' & Hx' & Hp').
  apply (HR x y x' y' Hxy Hp'). apply Hall.
  apply (list_elem_of_lookup_2 _ _ _ Hx').
Qed.

Lemma CommentGet_new_inv (id_ text : string) (date_ : Z) (author : CommentAuthor)
    (c : CommentGet) :
  CommentGet_new id_ text date_ author = Returns c ->
  c = mkCommentGet id_ text date_ author
  /\ 10 <= len text <= 1000.
Proof.
  unfold CommentGet_new, in_range.
  destruct (_ && _) eqn:E; [|discriminate].
  intros [= <-]. split; [reflexivity|]. lia.
Qed.

Lemma CommentGet_of_inv (model : CommentORM) (db : Database) (c : CommentGet) :
  CommentGet_of model db = Returns c ->
  exists user,
    users db !! comment_author model = Some user
    /\ c = mkCommentGet (comment_id_ model) (comment_text model)
             (comment_date model) (CommentAuthor_of user)
    /\ 10 <= len (comment_text model) <= 1000.
Proof.
  unfold CommentGet_of. destruct (users db !! _) as [user|]; [|discriminate].
  intros H. apply CommentGet_new_inv in H as [-> Hlen]. exists user.
  split; [reflexivity|]. split; [reflexivity|exact Hlen].
Qed.

Lemma CommentGet_of_not_404 (model : CommentORM) (db : Database) :
  CommentGet_of model db <> Throws (PyExc (HTTPException HTTP_404_NOT_FOUND)).
Proof.
  unfold CommentGet_of, CommentGet_new.
  destruct (users db !! _); [destruct (in_range _ _ _)|]; discriminate.
Qed.

Lemma get_comments_for_promo_inv
    (promo_id : string) (limit offset : Z) (db : Database) (l : list CommentGet) :
  UserService_get_comments_for_promo promo_id limit offset db = Returns l ->
  0 <= limit /\ 0 <= offset
  /\ Forall2 (fun model c => CommentGet_of model db = Returns c)
       (take (Z.to_nat limit)
          (drop (Z.to_nat offset)
             (newest_first
                (select_where
                   (fun c => String.eqb (comment_promo_id c) promo_id)
                   (comments db)))))
       l.
Proof.
  unfold UserService_get_comments_for_promo.
  destruct (promos db !! promo_id); [|discriminate].
  destruct (limit_offset _ _ _) as [rows|e] eqn:El; simpl; [|discriminate].
  intros H. apply for_each_inv in H.
  apply limit_offset_inv in El as (Hl & Ho & ->). auto.
Qed.

(** X27.  What a promo's comment list contains.  A returned page has at
    most [limit] comments; each is a stored comment of that promo with its
    stored text, of 10 to 1000 characters; and the page runs from the
    newest comment to the oldest. *)
Theorem get_comments_for_promo_contents
    (promo_id : string) (limit offset : Z) (db : Database) (l : list CommentGet) :
  UserService_get_comments_for_promo promo_id limit offset db = Returns l ->
  Z.of_nat (length l) <= limit
  /\ (forall c, c ∈ l ->
        exists k model,
          comments db !! k = Some model
          /\ comment_promo_id model = promo_id
          /\ cg_id c = comment_id_ model
          /\ cg_text c = comment_text model
          /\ cg_date c = comment_date model
          /\ 10 <= len (cg_text c) <= 1000)
  /\ StronglySorted (fun a b => cg_date b <= cg_date a) l.
Proof.
  intros H. apply get_comments_for_promo_inv in H as (Hl & _ & H).
  split; [|split].
  - rewrite <- (Forall2_length _ _ _ H), length_take. lia.
  - intros c Hin. apply list_elem_of_lookup_1 in Hin as [i Hi].
    destruct (Forall2_lookup_r _ _ _ _ _ H Hi) as (model & Hm & Hc).
    apply list_elem_of_lookup_2, subseteq_take, subseteq_drop in Hm.
    unfold newest_first in Hm. rewrite merge_sort_Permutation in Hm.
    apply elem_of_select_where in Hm as [Hp [k Hk]].
    apply String.eqb_eq in Hp.
    apply CommentGet_of_inv in Hc as (user & _ & -> & Hlen).
    exists k, model. simpl.
    split; [exact Hk|]. split; [exact Hp|]. repeat (split; [reflexivity|]).
    exact Hlen.
  - refine (StronglySorted_Forall2 _ date_desc_comment _ _ _ _ H _).
    + intros x y x' y' Hx Hx'.
      apply CommentGet_of_inv in Hx as (? & _ & -> & _).
      apply CommentGet_of_inv in Hx' as (? & _ & -> & _).
      unfold date_desc_comment. simpl. auto.
    + apply StronglySorted_take_drop. unfold newest_first.
      apply StronglySorted_merge_sort;
        auto using date_desc_comment_total, date_desc_comment_trans.
Qed.

Lemma select_comment_with_comments_ne
    (comment_id other promo_id : string) (c : CommentORM) (db : Database) :
  comment_id <> other ->
  select_comment comment_id promo_id
    (with_comments db (<[other := c]> (comments db)))
  = select_comment comment_id promo_id db.
Proof.
  intros Hne. unfold select_comment. simpl.
  rewrite lookup_insert_ne by congruence. reflexivity.
Qed.

Lemma get_comment_with_comments_ne
    (comment_id other promo_id : string) (c : CommentORM) (db : Database) :
  comment_id <> other ->
  UserService_get_comment_for_promo comment_id promo_id
    (with_comments db (<[other := c]> (comments db)))
  = UserService_get_comment_for_promo comment_id promo_id db.
Proof.
  intros Hne. unfold UserService_get_comment_for_promo.
  rewrite select_comment_with_comments_ne by exact Hne. reflexivity.
Qed.

(** X28.  A comment that was added can be read back.  When [add_comment]
    returns a comment, [get_comment_for_promo] with the new identifier and
    the same promo returns that very comment; under any other promo the
    identifier is not found; and every other comment reads as before. *)
Theorem add_comment_then_get
    (text user_id promo_id new_id : string) (now : Z) (db db' : Database)
    (c : CommentGet) :
  UserService_add_comment text user_id promo_id new_id now db
  = (Returns c, db') ->
  UserService_get_comment_for_promo new_id promo_id db' = Returns c
  /\ cg_id c = new_id /\ cg_text c = text /\ cg_date c = now
  /\ (forall other_promo, other_promo <> promo_id ->
        UserService_get_comment_for_promo new_id other_promo db'
        = Throws (PyExc (HTTPException HTTP_404_NOT_FOUND)))
  /\ (forall comment_id other_promo, comment_id <> new_id ->
        UserService_get_comment_for_promo comment_id other_promo db'
        = UserService_get_comment_for_promo comment_id other_promo db).
Proof.
  unfold UserService_add_comment.
  destruct (promos db !! promo_id) as [promo_orm|] eqn:Ep; [|discriminate].
  destruct (users db !! user_id) as [user_orm|] eqn:Eu; [|discriminate].
  destruct (comments db !! new_id) eqn:Ec; [discriminate|].
  simpl. intros [= Hc <-].
  pose proof Hc as Hc'. apply CommentGet_new_inv in Hc' as [-> Hlen].
  split; [|split; [reflexivity|split; [reflexivity|split; [reflexivity|split]]]].
  - unfold UserService_get_comment_for_promo, select_comment. simpl.
    rewrite lookup_insert_eq, Ep. simpl. rewrite String.eqb_refl.
    unfold CommentGet_of. simpl. rewrite Eu. exact Hc.
  - intros other_promo Hne.
    unfold UserService_get_comment_for_promo, select_comment. simpl.
    rewrite lookup_insert_eq.
    destruct (promos db !! other_promo); [|reflexivity]. simpl.
    destruct (String.eqb_spec promo_id other_promo); [congruence|reflexivity].
  - intros comment_id other_promo Hne.
    apply get_comment_with_comments_ne. exact Hne.
Qed.

(** X29.  The text of a comment is checked only after it is stored.  With
    an existing promo and author and a text shorter than 10 or longer than
    1000 characters, [add_comment] stops with a validation error but the
    comment is in the table; reading it fails with the same error, and so
    does every listing of that promo's comments that reaches it. *)
Theorem add_comment_stores_unreadable_text
    (text user_id promo_id new_id : string) (now : Z) (db : Database)
    (promo_orm : PromocodeORM) (user_orm : UserORM) :
  promos db !! promo_id = Some promo_orm ->
  users db !! user_id = Some user_orm ->
  comments db !! new_id = None ->
  len text < 10 \/ 1000 < len text ->
  exists db',
    UserService_add_comment text user_id promo_id new_id now db
    = (Throws ValidationError, db')
    /\ comments db' !! new_id
       = Some (mkComment new_id text now user_id promo_id)
    /\ UserService_get_comment_for_promo new_id promo_id db'
       = Throws ValidationError
    /\ forall limit l,
         Z.of_nat (size (comments db')) <= limit ->
         UserService_get_comments_for_promo promo_id limit 0 db' <> Returns l.
Proof.
  intros Ep Eu Ec Hlen.
  assert (in_range 10 1000 (len text) = false) as Hr.
  { unfold in_range. apply andb_false_iff.
    destruct Hlen; [left; apply Z.leb_gt|right; apply Z.leb_gt]; lia. }
  eexists. unfold UserService_add_comment. rewrite Ep, Eu, Ec.
  unfold CommentGet_new. simpl. rewrite Hr.
  split; [reflexivity|]. simpl. rewrite lookup_insert_eq.
  split; [reflexivity|]. split.
  - unfold UserService_get_comment_for_promo, select_comment. simpl.
    rewrite lookup_insert_eq, Ep. simpl. rewrite String.eqb_refl.
    unfold CommentGet_of, CommentGet_new. simpl. rewrite Eu, Hr. reflexivity.
  - intros limit l Hsize H.
    apply get_comments_for_promo_inv in H as (_ & _ & H).
    simpl in H. rewrite drop_0 in H.
    set (rows := newest_first _) in H.
    assert (length rows <= Z.to_nat limit)%nat as Hle.
    { unfold rows, newest_first. rewrite merge_sort_Permutation.
      unfold select_where. etrans; [apply length_filter|].
      rewrite length_fmap, length_map_to_list. simpl in Hsize. lia. }
    rewrite (take_ge _ _ Hle) in H.
    assert (mkComment new_id text now user_id promo_id ∈ rows) as Hin.
    { unfold rows, newest_first. rewrite merge_sort_Permutation.
      apply elem_of_select_where. simpl. split; [apply String.eqb_refl|].
      exists new_id. apply lookup_insert_eq. }
    apply list_elem_of_lookup_1 in Hin as [i Hi].
    destruct (Forall2_lookup_l _ _ _ _ _ H Hi) as (c & _ & Hc).
    revert Hc. unfold CommentGet_of, CommentGet_new. simpl.
    rewrite Eu, Hr. discriminate.
Qed.

Lemma select_comment_Some (comment_id promo_id : string) (db : Database)
    (c : CommentORM) :
  select_comment comment_id promo_id db = Some c ->
  comments db !! comment_id = Some c
  /\ (exists promo_orm, promos db !! promo_id = Some promo_orm)
  /\ comment_promo_id c = promo_id.
Proof.
  unfold select_comment.
  destruct (comments db !! comment_id) as [c'|]; [|discriminate].
  destruct (promos db !! promo_id) as [p|]; [|discriminate].
  destruct (String.eqb_spec (comment_promo_id c') promo_id); [|discriminate].
  intros [= <-]. eauto.
Qed.

(** X30.  Editing a comment.  [put_comment] on a comment that cannot be
    found under the promo answers 404 and writes nothing.  On a readable
    comment it stores the new text whatever its length: the answer is the
    old comment with the new text when that has 10 to 1000 characters and
    a validation error otherwise, and a later read gives the same answer.
    No other comment is touched. *)
Theorem put_comment_semantics
    (text comment_id promo_id : string) (db db' : Database)
    (res : Outcome CommentGet) :
  UserService_put_comment text comment_id promo_id db = (res, db') ->
  (UserService_get_comment_for_promo comment_id promo_id db
   = Throws (PyExc (HTTPException HTTP_404_NOT_FOUND)) ->
   res = Throws (PyExc (HTTPException HTTP_404_NOT_FOUND)) /\ db' = db)
  /\ (forall c0,
        UserService_get_comment_for_promo comment_id promo_id db = Returns c0 ->
        res = (if in_range 10 1000 (len text)
               then Returns (mkCommentGet (cg_id c0) text (cg_date c0)
                                          (cg_author c0))
               else Throws ValidationError)
        /\ UserService_get_comment_for_promo comment_id promo_id db' = res)
  /\ (forall other promo, other <> comment_id ->
        UserService_get_comment_for_promo other promo db'
        = UserService_get_comment_for_promo other promo db).
Proof.
  unfold UserService_put_comment, UserService_get_comment_for_promo at 1 2.
  destruct (select_comment comment_id promo_id db) as [old|] eqn:Es.
  - intros [= <- <-].
    apply select_comment_Some in Es as (Hc & [promo_orm Hp] & Hpid).
    split; [|split].
    + intros H. destruct (CommentGet_of_not_404 _ _ H).
    + intros c0 H0. apply CommentGet_of_inv in H0 as (user & Hu & -> & _).
      assert (CommentGet_of (set_comment_text old text)
                (with_comments db
                   (<[comment_id := set_comment_text old text]> (comments db)))
              = (if in_range 10 1000 (len text)
                 then Returns (mkCommentGet (comment_id_ old) text
                                 (comment_date old) (CommentAuthor_of user))
                 else Throws ValidationError)) as Hnew.
      { unfold CommentGet_of, CommentGet_new. simpl. rewrite Hu.
        reflexivity. }
      cbn [cg_id cg_text cg_date cg_author]. split; [exact Hnew|].
      unfold UserService_get_comment_for_promo, select_comment.
      cbn [with_comments comments promos].
      rewrite lookup_insert_eq, Hp.
      cbn [set_comment_text comment_promo_id].
      rewrite Hpid, String.eqb_refl. reflexivity.
    + intros other promo Hne. apply get_comment_with_comments_ne. exact Hne.
  - intros [= <- <-]. split; [auto|]. split; [discriminate|]. reflexivity.
Qed.

End Service.

(** ** The properties at work on the small store *)

(** C1 at work: the old tokens of [user-1] and of [company-a] pass before
    the new sign-in and are refused after it. *)
Lemma sign_in_revokes_previous_tokens_witness :
  (authenticate toy_jwt_decode KUser
     (Some (mkCredentials "Bearer" "jwt-user-1-jti-old")) 10 redis0
   = Ok (mkCredentials "Bearer" "jwt-user-1-jti-old")
   /\ sign_in toy_jwt_encode toy_checkpw KUser "ann@mail.io" "u" "jti-new" 5
        store1 redis0
      = (Ok "jwt-user-1-jti-new", redis_user_signed_in)
   /\ authenticate toy_jwt_decode KUser
        (Some (mkCredentials "Bearer" "jwt-user-1-jti-new")) 10 redis_user_signed_in
      = Ok (mkCredentials "Bearer" "jwt-user-1-jti-new")
   /\ authenticate toy_jwt_decode KUser
        (Some (mkCredentials "Bearer" "jwt-user-1-jti-old")) 10 redis_user_signed_in
      = Raise (HTTPException HTTP_403_FORBIDDEN))
  /\ (authenticate toy_jwt_decode KCompany
        (Some (mkCredentials "Bearer" "jwt-company-a-jti-old")) 10 redis0
      = Ok (mkCredentials "Bearer" "jwt-company-a-jti-old")
      /\ sign_in toy_jwt_encode toy_checkpw KCompany "a@acme.io" "a" "jti-new" 5
           store1 redis0
         = (Ok "jwt-company-a-jti-new", redis_company_signed_in)
      /\ authenticate toy_jwt_decode KCompany
           (Some (mkCredentials "Bearer" "jwt-company-a-jti-old")) 10
           redis_company_signed_in
         = Raise (HTTPException HTTP_403_FORBIDDEN)).
Proof.
  assert (sign_in toy_jwt_encode toy_checkpw KUser "ann@mail.io" "u" "jti-new" 5
            store1 redis0
          = (Ok "jwt-user-1-jti-new", redis_user_signed_in)) as Hu
    by reflexivity.
  assert (sign_in toy_jwt_encode toy_checkpw KCompany "a@acme.io" "a" "jti-new" 5
            store1 redis0
          = (Ok "jwt-company-a-jti-new", redis_company_signed_in)) as Hc
    by reflexivity.
  split.
  - split; [reflexivity|]. split; [exact Hu|]. split; [reflexivity|].
    destruct (sign_in_revokes_previous_tokens toy_jwt_encode toy_jwt_decode
                toy_checkpw KUser _ _ _ _ _ _ _ _ Hu) as (pid & Hp & _ & Hall).
    apply (Hall _ 10 (mkPayload "user-1" "jti-old" 86400 false)).
    + reflexivity.
    + vm_compute in Hp. injection Hp as <-. reflexivity.
    + discriminate.
  - split; [reflexivity|]. split; [exact Hc|].
    destruct (sign_in_revokes_previous_tokens toy_jwt_encode toy_jwt_decode
                toy_checkpw KCompany _ _ _ _ _ _ _ _ Hc) as (pid & Hp & _ & Hall).
    apply (Hall _ 10 (mkPayload "company-a" "jti-old" 86400 false)).
    + reflexivity.
    + vm_compute in Hp. injection Hp as <-. reflexivity.
    + discriminate.
Defined.

(** C6 at work: [jwt-refresh] is well signed, not expired, and its
    identifier is in the whitelist, yet it is refused. *)
Lemma refresh_token_never_authenticates_witness :
  (toy_jwt_decode 10 "jwt-user-1-jti-live" = Some (mkPayload "user-1" "jti-live" 86400 true)
   /\ sismember "whitelist:users:user-1" "jti-live" redis0 = true)
  /\ AccessTokenBearer toy_jwt_decode
       (Some (mkCredentials "Bearer" "jwt-user-1-jti-live")) 10 redis0
     = Raise (HTTPException HTTP_403_FORBIDDEN)
  /\ AccessTokenUserBearer toy_jwt_decode
       (Some (mkCredentials "Bearer" "jwt-user-1-jti-live")) 10 redis0
     = Raise (HTTPException HTTP_403_FORBIDDEN)
  /\ AccessTokenCompanyBearer toy_jwt_decode
       (Some (mkCredentials "Bearer" "jwt-user-1-jti-live")) 10 redis0
     = Raise (HTTPException HTTP_403_FORBIDDEN).
Proof.
  split; [split; reflexivity|].
  apply (refresh_token_never_authenticates toy_jwt_decode
           (mkCredentials "Bearer" "jwt-user-1-jti-live") 10 redis0).
  right. exists (mkPayload "user-1" "jti-live" 86400 true).
  split; reflexivity.
Defined.

(** C2 at work: a COMMON body that also carries unique codes. *)
Lemma create_request_code_rules_witness :
  exists e : PyError,
    validation_error e
    /\ PromoCreateRequest_validate toy_match toy_country toy_upper
         create_common_with_unique = Raise e
    /\ post_promo toy_match toy_country toy_upper create_common_with_unique
         "company-a" "promo-2" store1 = (Raise e, store1).
Proof.
  apply (create_request_code_rules toy_match toy_country toy_upper
           create_common_with_unique "company-a" "promo-2" store1).
  left. split; [reflexivity|].
  exists ["code-1"; "code-2"]. split; [reflexivity|discriminate].
Defined.


(** C5 at work, as in the scenario: company A creates the promo, company
    B is refused, company A reads its fields back. *)
Lemma get_by_id_not_found_forbidden_or_fields_witness :
  get_company_promo_by_id "company-a" "promo-9" store1
  = Raise (HTTPException HTTP_404_NOT_FOUND)
  /\ get_company_promo_by_id "company-b" "promo-2"
       (snd (create_promo create_sale10 "company-a" "promo-2" store1))
     = Raise (HTTPException HTTP_403_FORBIDDEN)
  /\ exists dto : PromoDTO,
       get_company_promo_by_id "company-a" "promo-2"
         (snd (create_promo create_sale10 "company-a" "promo-2" store1))
       = Ok dto
       /\ dto_company_id dto = "company-a"
       /\ dto_mode dto = COMMON
       /\ dto_promo_common dto = Some "SALE10"
       /\ dto_max_count dto = 10
       /\ dto_active_from dto = Some (mkDate 2024 1 1)
       /\ dto_active_until dto = Some (mkDate 2024 6 1).
Proof.
  split; [|split].
  - apply (get_by_id_not_found_forbidden_or_fields "company-a" "promo-9" store1).
    reflexivity.
  - destruct (get_by_id_not_found_forbidden_or_fields "company-b" "promo-2"
                (snd (create_promo create_sale10 "company-a" "promo-2" store1)))
      as (_ & H & _).
    eapply H; [reflexivity|discriminate].
  - destruct (get_by_id_not_found_forbidden_or_fields "company-a" "promo-2"
                (snd (create_promo create_sale10 "company-a" "promo-2" store1)))
      as (_ & _ & H).
    edestruct H as (dto & Hd & F); [reflexivity|reflexivity|].
    exists dto. split; [exact Hd|].
    destruct F as (_ & -> & _ & _ & _ & _ & _ & _ & -> & -> & -> & -> & _ & _ & _
                   & -> & _).
    repeat split; reflexivity.
Defined.



(** C8 at work: [user-1] asks to delete [comment-1] of [promo-1], which
    exists; the comment is still there afterwards. *)
Lemma delete_comment_route_always_raises_witness :
  comments store1 !! "comment-1"
  = Some (mkComment "comment-1" "Great promo, thanks!" 1000 "user-1" "promo-1")
  /\ delete_comment toy_jwt_decode "promo-1" "comment-1"
       (mkCredentials "Bearer" "jwt-user-1-jti-old") 10 store1
     = (Raise (AttributeError "delete_comment"), store1)
  /\ delete_comment toy_jwt_decode "promo-1" "comment-9"
       (mkCredentials "Bearer" "jwt-user-1-jti-old") 10 store1
     = (Raise (AttributeError "delete_comment"), store1).
Proof.
  split; [reflexivity|].
  rewrite !(delete_comment_route_always_raises toy_jwt_decode).
  split; reflexivity.
Defined.

(** C4 at work: the row the first body leaves passes the age check, and
    the body with ages 5 and 5 is turned down by it. *)
Lemma age_check_skips_zero_witness :
  age_violated (set_age_until (set_age_from sale10 (Some 5)) (Some 0)) = false
  /\ exists e : PyError,
       update_company_promo (patch_ages 5 5) "company-a" "promo-1" store1
       = (Raise e, store1).
Proof.
  destruct (age_check_skips_zero toy_match toy_country toy_upper)
    as (Hzero & Hnonzero & _).
  split.
  - apply Hzero. right. reflexivity.
  - apply (Hnonzero (patch_ages 5 5) "company-a" "promo-1" store1 sale10 5 5);
      try reflexivity; lia.
Defined.
